(** * OnionCat outbound SOCKS connector ([src/ocatsocks.c])

    A shallow embedding of the connector: the SOCKS4a / SOCKS5 reply
    parsers, the request queue, the request pipe, the reactor loop
    [socks_connector_sel] with its three phases, and the blocking probe
    [synchron_socks_connect].

    Conventions.
    - C [int] values are [Z]; the retry counter is incremented with the
      two's complement wrap-around written out ([int_incr]).  [time_t]
      values are unbounded [Z].
    - Everything the operating system or a collaborator outside this file
      answers ([read], [write], [socket], [connect], [select], [time],
      the hosts directory, the DNS codec) is an explicit environment
      record handed to the function that makes the call.
    - Everything the connector does to the outside is appended to a list
      of [event]s.
    - The build modelled is the one with [WITH_DNS_LOOKUP] (UDP probe)
      and [DIRECT_CONNECTIONS]; [WITH_DNS_RESOLVER] is off. *)

From Stdlib Require Import ZArith List Bool String Ascii Lia Arith.
From Equations Require Import Equations.
From Equations.Prop Require Import Logic.
Import ListNotations.
Open Scope Z_scope.

(** ** Machine integers *)

Definition INT_MAX : Z := 2147483647.
Definition INT_MIN : Z := -2147483648.

(** Reduction of a mathematical integer to a 32-bit two's complement [int]. *)
Definition wrap_int (z : Z) : Z := ((z + 2147483648) mod 4294967296) - 2147483648.

(** [x++] on an [int]. *)
Definition int_incr (x : Z) : Z := wrap_int (x + 1).

(** The value of a 16-bit field: [htons] of an [int] keeps its low 16 bits.
    A port member in network byte order is kept as the number its two
    bytes denote on the wire. *)
Definition htons (x : Z) : Z := x mod 65536.

(** ** Data model *)

(** [struct in6_addr]: the 128-bit address as a number; [::] is [0]. *)
Definition in6_addr := Z.

Definition IN6_ARE_ADDR_EQUAL (a b : in6_addr) : bool := a =? b.
Definition IN6_IS_ADDR_UNSPECIFIED (a : in6_addr) : bool := a =? 0.

(** The values of the [state] member that the source names. *)
Inductive socks_state : Type :=
| SOCKS_NEW
| SOCKS_CONNECTING
| SOCKS_4AREQ_SENT
| SOCKS_5GREET_SENT
| SOCKS_5REQ_SENT
| SOCKS_DNS_SENT
| SOCKS_READY
| SOCKS_DELETE.

Definition socks_state_eqb (a b : socks_state) : bool :=
  match a, b with
  | SOCKS_NEW, SOCKS_NEW | SOCKS_CONNECTING, SOCKS_CONNECTING
  | SOCKS_4AREQ_SENT, SOCKS_4AREQ_SENT | SOCKS_5GREET_SENT, SOCKS_5GREET_SENT
  | SOCKS_5REQ_SENT, SOCKS_5REQ_SENT | SOCKS_DNS_SENT, SOCKS_DNS_SENT
  | SOCKS_READY, SOCKS_READY | SOCKS_DELETE, SOCKS_DELETE => true
  | _, _ => false
  end.

(** Connection mode, [CNF(socks5)].  [CONNTYPE_OTHER] stands for every value
    that is none of the three the connector handles. *)
Inductive conntype : Type :=
| CONNTYPE_SOCKS4A
| CONNTYPE_SOCKS5
| CONNTYPE_DIRECT
| CONNTYPE_OTHER.

(** [struct sockaddr_in6], the members the connector touches.  The family is
    kept symbolic ([true] once [AF_INET6] was stored), the port is the port
    number. *)
Record sockaddr_in6 : Type := mk_sockaddr_in6 {
  sin6_family_set : bool;
  sin6_port : Z;
  sin6_addr : in6_addr
}.

Definition sockaddr_in6_zero : sockaddr_in6 := mk_sockaddr_in6 false 0 0.

(** [SocksQueue_t] without its [next] member: member [x] of the C struct is
    [sq_x].  The link [next] is the order of the list that holds the
    entries; in a record read from the request pipe, where [next] is data,
    it is carried beside the entry (see [pipe_read]). *)
Record SocksQueue_t : Type := mkSQ {
  sq_addr : in6_addr;
  sq_fd : Z;
  sq_state : socks_state;
  sq_perm : Z;
  sq_retry : Z;
  sq_connect_time : Z;
  sq_restart_time : Z;
  sq_ns_addr : sockaddr_in6;
  sq_ns_src : Z;
  sq_id : Z
}.

Definition set_fd (v : Z) (s : SocksQueue_t) : SocksQueue_t :=
  mkSQ (sq_addr s) v (sq_state s) (sq_perm s) (sq_retry s) (sq_connect_time s)
       (sq_restart_time s) (sq_ns_addr s) (sq_ns_src s) (sq_id s).
Definition set_state (v : socks_state) (s : SocksQueue_t) : SocksQueue_t :=
  mkSQ (sq_addr s) (sq_fd s) v (sq_perm s) (sq_retry s) (sq_connect_time s)
       (sq_restart_time s) (sq_ns_addr s) (sq_ns_src s) (sq_id s).
Definition set_retry (v : Z) (s : SocksQueue_t) : SocksQueue_t :=
  mkSQ (sq_addr s) (sq_fd s) (sq_state s) (sq_perm s) v (sq_connect_time s)
       (sq_restart_time s) (sq_ns_addr s) (sq_ns_src s) (sq_id s).
Definition set_connect_time (v : Z) (s : SocksQueue_t) : SocksQueue_t :=
  mkSQ (sq_addr s) (sq_fd s) (sq_state s) (sq_perm s) (sq_retry s) v
       (sq_restart_time s) (sq_ns_addr s) (sq_ns_src s) (sq_id s).
Definition set_restart_time (v : Z) (s : SocksQueue_t) : SocksQueue_t :=
  mkSQ (sq_addr s) (sq_fd s) (sq_state s) (sq_perm s) (sq_retry s) (sq_connect_time s)
       v (sq_ns_addr s) (sq_ns_src s) (sq_id s).
Definition set_ns_addr (v : sockaddr_in6) (s : SocksQueue_t) : SocksQueue_t :=
  mkSQ (sq_addr s) (sq_fd s) (sq_state s) (sq_perm s) (sq_retry s) (sq_connect_time s)
       (sq_restart_time s) v (sq_ns_src s) (sq_id s).
Definition set_ns_src (v : Z) (s : SocksQueue_t) : SocksQueue_t :=
  mkSQ (sq_addr s) (sq_fd s) (sq_state s) (sq_perm s) (sq_retry s) (sq_connect_time s)
       (sq_restart_time s) (sq_ns_addr s) v (sq_id s).
Definition set_id (v : Z) (s : SocksQueue_t) : SocksQueue_t :=
  mkSQ (sq_addr s) (sq_fd s) (sq_state s) (sq_perm s) (sq_retry s) (sq_connect_time s)
       (sq_restart_time s) (sq_ns_addr s) (sq_ns_src s) v.

(** [memset(&sq, 0, sizeof(sq))]: every member zero.  [SOCKS_NEW] is the
    state of a zeroed entry (the entry [socks_queue] posts is zeroed and
    enters the state machine at [SOCKS_NEW]). *)
Definition sq_zero : SocksQueue_t :=
  mkSQ 0 0 SOCKS_NEW 0 0 0 0 sockaddr_in6_zero 0 0.

(** The process-wide configuration [CNF(...)], the members this file reads. *)
Record OcatSetup : Type := mkSetup {
  hosts_lookup : bool;
  dns_lookup : bool;
  socks5 : conntype;
  rand_addr : bool;
  domain : string;
  usrname : string;
  ocat_dest_port : Z;
  ocat_ns_port : Z;
  socks_dst_family : Z;
  socksfd0 : Z
}.

(** What the connector does to the outside world. *)
Inductive event : Type :=
| EvClose (fd : Z)
| EvDnsSend (a : in6_addr) (fd : Z)
| EvConnect (a : in6_addr) (fd : Z)
| EvWrite (fd : Z) (frame : list Z)
| EvActivate (a : in6_addr) (fd : Z) (elapsed : Z)
| EvDump (fd : Z) (lines : list (nat * SocksQueue_t)).

(** ** System calls *)

(** [read(fd, buf, len)]: the environment offers [incoming] ([None] for a
    failing call); at most [len] bytes are delivered. *)
Definition sys_read (incoming : option (list Z)) (len : nat) : option (list Z) :=
  option_map (firstn len) incoming.

(** A [write] that was asked for [len] bytes and returned [ret]: the shared
    tail of the four senders ([-1] on error or truncation, [0] otherwise). *)
Definition write_result (ret : Z) (len : Z) : Z :=
  if ret =? -1 then -1 else if ret <? len then -1 else 0.

Definition bytes_of_string (s : string) : list Z :=
  map (fun c => Z.of_N (N_of_ascii c)) (list_ascii_of_string s).

Definition strlen (s : string) : Z := Z.of_nat (String.length s).

(** [strlcat(dst, src, size)]: appends as much of [src] as fits in a buffer
    of [size] bytes including the terminator; a [dst] that already fills
    the buffer is left alone. *)
Definition strlcat (dst src : string) (size : nat) : string :=
  if (size <=? String.length dst)%nat then dst
  else (dst ++ String.substring 0 (size - 1 - String.length dst) src)%string.

(** [NI_MAXHOST] of [<netdb.h>]. *)
Definition NI_MAXHOST : nat := 1025.

(** Modelled from the spec: [SocksHdr_t] is declared in [ocat.h], which is
    not part of the sources at hand.  The SOCKS4a reply is 8 bytes: VN, CD,
    a 2-byte port and a 4-byte address. *)
Definition sizeof_SocksHdr_t : nat := 8.

(** Modelled from the spec: [Socks5Hdr_t] is declared in [ocat.h].  The
    sender stores [ver], [cmd], [rsv], [atyp] and the length byte [addr] in
    it and puts the name at [buf + sizeof(Socks5Hdr_t)]; for the frame
    [{5, 1, 0, 3, LEN, name, port}] of the spec that makes it five
    single-byte members. *)
Definition sizeof_Socks5Hdr_t : nat := 5.

(** ** Answers of the environment *)

(** [hosts_get_name]: [None] when the call returns [-1]; [Some (rc, name)]
    when it returns the non-negative [rc] and, if a buffer was passed,
    stores [name] in it. *)
Definition hosts_dir : Type := in6_addr -> option (nat * string).

Definition is_some {A : Type} (o : option A) : bool :=
  match o with Some _ => true | None => false end.

(** [connect()] as [socks_tcp_connect] sees it. *)
Inductive connect_res : Type :=
| ConnectOk
| ConnectInProgress
| ConnectError.

(** What [read(CNF(socksfd[0]), &sq, sizeof(sq))] delivers: an error, fewer
    bytes than a record, or a record with its [next] member (the pointer as
    a number, [0] for [NULL]) and the other members. *)
Inductive pipe_read : Type :=
| PipeError
| PipeShort (n : nat)
| PipeRecord (next : Z) (sq : SocksQueue_t).

(** ** File descriptor sets *)

(** An [fd_set] as the list of its members, without repetition.  The macros
    are defined for descriptors from 0 up to [FD_SETSIZE]; for any other
    number, [-1] among them, [FD_ISSET] has no defined value in C, and
    membership in the list then answers that the descriptor is no member. *)
Definition fd_set : Type := list Z.

Definition FD_ISSET (fd : Z) (s : fd_set) : bool := existsb (Z.eqb fd) s.

Definition FD_SET (fd : Z) (s : fd_set) : fd_set :=
  if FD_ISSET fd s then s else fd :: s.

(** The two sets of the reactor and its [maxfd]. *)
Record fdsets : Type := mk_fdsets {
  rset : fd_set;
  wset : fd_set;
  maxfd : Z
}.

(** The macro [MFD_SET(fd, set, maxfd)] of [ocat.h]: [FD_SET] and the
    running maximum, for the read set and for the write set. *)
Definition MFD_SET_r (fd : Z) (fds : fdsets) : fdsets :=
  mk_fdsets (FD_SET fd (rset fds)) (wset fds) (Z.max fd (maxfd fds)).

Definition MFD_SET_w (fd : Z) (fds : fdsets) : fdsets :=
  mk_fdsets (rset fds) (FD_SET fd (wset fds)) (Z.max fd (maxfd fds)).

(** ** Environments *)

(** The answers one queue entry can receive during the state scan. *)
Record PhaseAEnv : Type := mk_PhaseAEnv {
  pa_hosts : hosts_dir;                (* hosts_get_name *)
  pa_udp_socket : Z;                   (* socket(AF_INET6, SOCK_DGRAM, 0) *)
  pa_rand : Z;                         (* rand(), as stored in id *)
  pa_get_ns : option (in6_addr * Z);   (* hosts_get_ns: None is -1 *)
  pa_sendto : Z;                       (* sendto() *)
  pa_hostname_addr : bool;             (* hostname_addr(...) == 0 *)
  pa_tcp_socket : Z;                   (* socket(ss.ss_family, SOCK_STREAM, 0) *)
  pa_connect : connect_res;            (* connect() *)
  pa_time : Z                          (* time(NULL) in socks_reschedule *)
}.

(** The answers one queue entry can receive during the fd dispatch. *)
Record DispEnv : Type := mk_DispEnv {
  de_so_error : option Z;              (* getsockopt(SO_ERROR): None is -1 *)
  de_write_w : Z;                      (* write() under the write set *)
  de_read : option (list Z);           (* read() under the read set *)
  de_write_r : Z;                      (* write() of the SOCKS5 request *)
  de_recvfrom : option (Z * in6_addr); (* recvfrom(): sender port and address *)
  de_proc_response : Z;                (* oc_proc_response *)
  de_hosts : hosts_dir;                (* hosts_get_name *)
  de_time : Z                          (* time(NULL) *)
}.

(** The answers of one iteration of the reactor; entries are told apart by
    their position in the queue. *)
Record IterEnv : Type := mk_IterEnv {
  ie_term_req : bool;                  (* term_req() *)
  ie_time : Z;                         (* t = time(NULL) before the scan *)
  ie_phaseA : nat -> PhaseAEnv;
  ie_select_error : bool;              (* oc_select0(...) == -1 *)
  ie_ready_r : Z -> bool;              (* fds select leaves in rset *)
  ie_ready_w : Z -> bool;              (* fds select leaves in wset *)
  ie_pipe : pipe_read;                 (* read() on the request pipe *)
  ie_malloc : bool;                    (* malloc() != NULL *)
  ie_dispatch : nat -> DispEnv
}.



(** The answers of one pass of the loop of [synchron_socks_connect]. *)
Record SyncEnv : Type := mk_SyncEnv {
  se_term_req : bool;
  se_socket : Z;
  se_connect : connect_res;
  se_hosts : hosts_dir;
  se_write : Z;
  se_read : option (list Z);
  se_write_r : Z
}.

(** Control after a piece of a loop body: [Continue] is the C [continue],
    [Proceed] falls through to what follows, [Exit] is [exit(1)]. *)
Inductive flow (A : Type) : Type :=
| Continue (a : A)
| Proceed (a : A)
| Exit.
Arguments Continue {A} a.
Arguments Proceed {A} a.
Arguments Exit {A}.

(** How one iteration of the reactor ends. *)
Inductive iter_outcome : Type :=
| IterTerminated
| IterExit
| IterSelectFailed (q : list SocksQueue_t) (evs : list event)
| IterDone (q : list SocksQueue_t) (evs : list event).

Section Connector.

Set Default Proof Using "Type".

(** Constants of [ocat.h] and the collaborator [ipv6tonion], which are not
    part of the sources at hand. *)
Variable SOCKS_MAX_RETRY : Z.
Variable SOCKS_DNS_RETRY : Z.
Variable SOCKS_DNS_RETRY_TIMEOUT : Z.
Variable TOR_SOCKS_CONN_TIMEOUT : Z.
Variable ipv6tonion : in6_addr -> string.

Variable cfg : OcatSetup.

(** [sizeof(SocksQueue_t)]; the type is declared in [ocat.h]. *)
Variable sizeof_SocksQueue_t : Z.

(** ** The name of a peer *)

(** [get_hostname(sq, onion, onion_size)]; [onion = None] is the call with a
    [NULL] buffer.  The result is the return value and the buffer after the
    call. *)
Definition get_hostname (hosts : hosts_dir) (sq : SocksQueue_t)
    (onion : option string) (onion_size : nat) : Z * option string :=
  let '(ret, onion1) :=
    if hosts_lookup cfg then
      match hosts (sq_addr sq) with
      | Some (rc, name) => (Z.of_nat rc, option_map (fun _ => name) onion)
      | None => (-1, onion)
      end
    else (-1, onion) in
  if (ret =? -1) && is_some onion1
  then (ret, Some (strlcat (ipv6tonion (sq_addr sq)) (domain cfg) onion_size))
  else (ret, onion1).

(** The name a sender puts on the wire: the buffer [onion] after
    [get_hostname(sq, onion, sizeof(onion))]. *)
Definition onion_of (hosts : hosts_dir) (sq : SocksQueue_t) : string :=
  match snd (get_hostname hosts sq (Some EmptyString) NI_MAXHOST) with
  | Some name => name
  | None => EmptyString
  end.

(** ** SOCKS codec *)

(** [htons(port)] as the two bytes that go on the wire. *)
Definition htons_bytes (port : Z) : list Z := [(port / 256) mod 256; port mod 256].

(** [socks_send_request]: the SOCKS4a CONNECT frame and the verdict on the
    [write]. *)
Definition socks_send_request (hosts : hosts_dir) (write_ret : Z) (sq : SocksQueue_t)
    : Z * list event :=
  let onion := onion_of hosts sq in
  let frame := [4; 1] ++ htons_bytes (ocat_dest_port cfg) ++ [0; 0; 0; 1]
               ++ bytes_of_string (usrname cfg) ++ [0]
               ++ bytes_of_string onion ++ [0] in
  let len := Z.of_nat sizeof_SocksHdr_t + strlen (usrname cfg) + strlen onion + 2 in
  (write_result write_ret len, [EvWrite (sq_fd sq) frame]).

(** [socks_rec_response].  The members [ver] and [cmd] are the first two
    bytes read; their tests against 0 and 90 (like those against 5 below)
    come out the same for a signed and an unsigned [char]. *)
Definition socks_rec_response (incoming : option (list Z)) : Z :=
  let len := sizeof_SocksHdr_t in
  match sys_read incoming len with
  | None => -1
  | Some shdr =>
      if (List.length shdr <? len)%nat then -1
      else
        let ver := nth 0 shdr 0 in
        let cmd := nth 1 shdr 0 in
        if negb (ver =? 0) || negb (cmd =? 90) then -1 else 0
  end.

Definition socks5_greet (write_ret : Z) (sq : SocksQueue_t) : Z * list event :=
  let buf := [5; 1; 0] in
  (write_result write_ret (Z.of_nat (List.length buf)), [EvWrite (sq_fd sq) buf]).

Definition socks5_greet_response (incoming : option (list Z)) : Z :=
  let len := 2%nat in
  match sys_read incoming len with
  | None => -1
  | Some buf =>
      if (List.length buf <? len)%nat then -1
      else if negb (nth 0 buf 0 =? 5) || negb (nth 1 buf 0 =? 0) then -1 else 0
  end.

Definition socks5_send_request (hosts : hosts_dir) (write_ret : Z) (sq : SocksQueue_t)
    : Z * list event :=
  let onion := onion_of hosts sq in
  let frame := [5; 1; 0; 3; strlen onion mod 256] ++ bytes_of_string onion
               ++ htons_bytes (ocat_dest_port cfg) in
  let len := Z.of_nat sizeof_Socks5Hdr_t + strlen onion + 2 in
  (write_result write_ret len, [EvWrite (sq_fd sq) frame]).

(** [socks5_rec_response]: one [read] into a buffer of
    [sizeof(Socks5Hdr_t) + sizeof(uint16_t) + NI_MAXHOST] bytes; [cmd] is the
    REP byte of the reply. *)
Definition socks5_rec_response (incoming : option (list Z)) : Z :=
  let len := (sizeof_Socks5Hdr_t + 2 + NI_MAXHOST)%nat in
  match sys_read incoming len with
  | None => -1
  | Some buf =>
      if (List.length buf <? sizeof_Socks5Hdr_t)%nat then -1
      else
        let ver := nth 0 buf 0 in
        let cmd := nth 1 buf 0 in
        let rsv := nth 2 buf 0 in
        if negb (ver =? 5) || negb (rsv =? 0) then -1
        else if negb (cmd =? 0) then -1
        else 0
  end.

(** [socks_tcp_connect]: [-1] unless [connect] succeeded or is in
    progress. *)
Definition socks_tcp_connect (r : connect_res) : Z :=
  match r with
  | ConnectError => -1
  | ConnectInProgress | ConnectOk => 0
  end.

(** [socks_activate_peer]: [insert_peer(fd, sq, time(NULL) - connect_time)]
    and the first keepalive; always returns 0. *)
Definition socks_activate_peer (now : Z) (sq : SocksQueue_t) : list event :=
  [EvActivate (sq_addr sq) (sq_fd sq) (now - sq_connect_time sq)].

(** ** Reset and reschedule *)

Definition socks_reset (squeue : SocksQueue_t) : SocksQueue_t * list event :=
  let '(s1, evs) :=
    if sq_fd squeue >? 0
    then (set_fd 0 squeue, [EvClose (sq_fd squeue)])
    else (squeue, []) in
  (set_state SOCKS_NEW (set_restart_time 0 s1), evs).

Definition socks_reschedule (now : Z) (squeue : SocksQueue_t) : SocksQueue_t * list event :=
  let '(s1, evs) := socks_reset squeue in
  (set_restart_time (now + TOR_SOCKS_CONN_TIMEOUT) s1, evs).

(** ** Request queue *)

(** The list [socks_queue_], head first.  A pointer to a queued entry is its
    position in the list. *)
Definition queue : Type := list SocksQueue_t.

Definition socks_get_req (q : queue) (a : in6_addr) : option SocksQueue_t :=
  find (fun squeue => IN6_ARE_ADDR_EQUAL (sq_addr squeue) a) q.

(** [socks_enqueue]; [None] is [exit(1)] after a failed [malloc]. *)
Definition socks_enqueue (malloc_ok : bool) (sq : SocksQueue_t) (q : queue) : option queue :=
  match socks_get_req q (sq_addr sq) with
  | Some _ => Some q
  | None => if malloc_ok then Some (sq :: q) else None
  end.

(** [socks_unqueue(squeue)] for the entry at position [i]: the first node
    whose address is that pointer is unlinked; with no such node the list
    is left alone. *)
Fixpoint socks_unqueue (i : nat) (q : queue) {struct q} : queue :=
  match q, i with
  | [], _ => []
  | _ :: rest, O => rest
  | x :: rest, S j => x :: socks_unqueue j rest
  end.

(** [socks_output_queue(fd)]: one line per entry in list order, then the
    zero byte. *)
Fixpoint number_from {A : Type} (i : nat) (l : list A) : list (nat * A) :=
  match l with
  | [] => []
  | x :: rest => (i, x) :: number_from (S i) rest
  end.

Definition socks_output_queue (fd : Z) (q : queue) : list event :=
  [EvDump fd (number_from 0 q)].

(** ** Request pipe *)

(** The records the three writers of this file hand to
    [socks_pipe_request]. *)
Definition sig_socks_connector_record : pipe_read := PipeRecord 0 sq_zero.

Definition socks_queue_record (a : in6_addr) (perm : Z) : pipe_read :=
  PipeRecord 0 (mkSQ a 0 SOCKS_NEW perm 0 0 0 sockaddr_in6_zero 0 0).

Definition print_socks_queue_record (fd : Z) : pipe_read := PipeRecord fd sq_zero.







(** The block under [if (FD_ISSET(CNF(socksfd[0]), &rset))], after the
    [read]; [None] is [exit(1)].  The dump goes to
    [socks_output_queue((intptr_t) sq.next)], whose parameter is an [int]. *)
Definition pipe_drain (malloc_ok : bool) (rec : pipe_read) (q : queue)
    : option (queue * list event) :=
  match rec with
  | PipeError | PipeShort _ => Some (q, [])
  | PipeRecord next sq =>
      if negb (next =? 0) then Some (q, socks_output_queue (wrap_int next) q)
      else if IN6_IS_ADDR_UNSPECIFIED (sq_addr sq) then Some (q, [])
      else option_map (fun q' => (q', [])) (socks_enqueue malloc_ok sq q)
  end.

(** ** DNS probe *)

(** [socks_dns_req]: the return value, the entry (its [ns_addr] and [ns_src]
    are written) and the [sendto] made. *)
Definition socks_dns_req (e : PhaseAEnv) (sq : SocksQueue_t)
    : Z * SocksQueue_t * list event :=
  let sq0 := set_ns_addr sockaddr_in6_zero sq in
  match pa_get_ns e with
  | None => (-1, sq0, [])
  | Some (ns, src) =>
      let sq1 := set_ns_addr (mk_sockaddr_in6 true (htons (ocat_ns_port cfg)) ns)
                   (set_ns_src src sq0) in
      let n := pa_sendto e in
      if n =? -1 then (-1, sq1, [EvDnsSend (sq_addr sq) (sq_fd sq)])
      else (n, sq1, [EvDnsSend (sq_addr sq) (sq_fd sq)])
  end.

(** [socks_dns_recv]. *)
Definition socks_dns_recv (e : DispEnv) (sq : SocksQueue_t) : Z :=
  match de_recvfrom e with
  | None => -1
  | Some (port, src) =>
      if negb (port =? sin6_port (sq_ns_addr sq))
         || negb (IN6_ARE_ADDR_EQUAL src (sin6_addr (sq_ns_addr sq)))
      then -1
      else de_proc_response e
  end.

(** ** Reactor, phase A: the state scan *)

(** [case SOCKS_NEW], from the choice of the TCP destination on; [evs] are
    the events of the part before. *)
Definition phaseA_connect (t : Z) (e : PhaseAEnv) (squeue : SocksQueue_t)
    (fds : fdsets) (evs : list event) : SocksQueue_t * fdsets * list event :=
  let have_dst :=
    match socks5 cfg with
    | CONNTYPE_DIRECT =>
        if fst (get_hostname (pa_hosts e) squeue (Some EmptyString) NI_MAXHOST) =? -1
        then false
        else pa_hostname_addr e
    | _ => true
    end in
  if negb have_dst then (squeue, fds, evs)
  else
    let s1 := set_fd (pa_tcp_socket e) squeue in
    if sq_fd s1 =? -1 then (s1, fds, evs)
    else
      let s2 := set_connect_time t s1 in
      let evs2 := evs ++ [EvConnect (sq_addr s2) (sq_fd s2)] in
      if socks_tcp_connect (pa_connect e) =? -1 then
        let '(s3, evs3) := socks_reschedule (pa_time e) s2 in
        (s3, fds, evs2 ++ evs3)
      else (set_state SOCKS_CONNECTING s2, MFD_SET_w (sq_fd s2) fds, evs2).

(** [case SOCKS_NEW]. *)
Definition phaseA_new (t : Z) (e : PhaseAEnv) (squeue : SocksQueue_t) (fds : fdsets)
    : SocksQueue_t * fdsets * list event :=
  if t <? sq_restart_time squeue then (squeue, fds, [])
  else
    let s1 := set_retry (int_incr (sq_retry squeue)) squeue in
    if (sq_perm s1 =? 0) && (sq_retry s1 >? SOCKS_MAX_RETRY)
    then (set_state SOCKS_DELETE s1, fds, [])
    else if dns_lookup cfg
            && (fst (get_hostname (pa_hosts e) s1 None 0) =? -1)
            && (sq_retry s1 <=? 1)
    then
      let s2 := set_fd (pa_udp_socket e) s1 in
      if negb (sq_fd s2 =? -1) then
        let s3 := set_id (pa_rand e) s2 in
        let '(r, s4, evs) := socks_dns_req e s3 in
        if negb (r =? -1) then
          (set_restart_time (t + SOCKS_DNS_RETRY_TIMEOUT)
             (set_retry 0 (set_state SOCKS_DNS_SENT s4)),
           MFD_SET_r (sq_fd s4) fds, evs)
        else phaseA_connect t e s4 fds (evs ++ [EvClose (sq_fd s4)])
      else phaseA_connect t e s2 fds []
    else phaseA_connect t e s1 fds [].

(** The [else] branch of [case SOCKS_DNS_SENT]: fall back to the derived
    name. *)
Definition dns_fallback (squeue : SocksQueue_t) (fds : fdsets) (evs : list event)
    : SocksQueue_t * fdsets * list event :=
  (set_retry 1 (set_restart_time 0 (set_state SOCKS_NEW squeue)), fds,
   evs ++ [EvClose (sq_fd squeue)]).

(** [case SOCKS_DNS_SENT]. *)
Definition phaseA_dns_sent (t : Z) (e : PhaseAEnv) (squeue : SocksQueue_t) (fds : fdsets)
    : SocksQueue_t * fdsets * list event :=
  if t <? sq_restart_time squeue then (squeue, MFD_SET_r (sq_fd squeue) fds, [])
  else if sq_retry squeue <? SOCKS_DNS_RETRY then
    let '(r, s1, evs) := socks_dns_req e squeue in
    if negb (r =? -1) then
      (set_restart_time (t + SOCKS_DNS_RETRY_TIMEOUT)
         (set_retry (int_incr (sq_retry s1)) s1),
       MFD_SET_r (sq_fd s1) fds, evs)
    else dns_fallback s1 fds evs
  else dns_fallback squeue fds [].

(** The [switch (squeue->state)] of the first loop over the queue.
    [SOCKS_CONNECTING] and [SOCKS_READY] have no case of their own and take
    the [default]. *)
Definition phaseA_entry (t : Z) (e : PhaseAEnv) (squeue : SocksQueue_t) (fds : fdsets)
    : SocksQueue_t * fdsets * list event :=
  match sq_state squeue with
  | SOCKS_NEW => phaseA_new t e squeue fds
  | SOCKS_4AREQ_SENT | SOCKS_5GREET_SENT | SOCKS_5REQ_SENT =>
      (squeue, MFD_SET_r (sq_fd squeue) fds, [])
  | SOCKS_DNS_SENT => phaseA_dns_sent t e squeue fds
  | SOCKS_DELETE => (squeue, fds, [])
  | SOCKS_CONNECTING | SOCKS_READY =>
      let '(s, evs) := socks_reset squeue in (s, fds, evs)
  end.

Fixpoint phaseA_loop (t : Z) (envs : nat -> PhaseAEnv) (i : nat) (q : queue)
    (fds : fdsets) : queue * fdsets * list event :=
  match q with
  | [] => ([], fds, [])
  | squeue :: rest =>
      let '(s, fds1, evs1) := phaseA_entry t (envs i) squeue fds in
      let '(rest', fds2, evs2) := phaseA_loop t envs (S i) rest fds1 in
      (s :: rest', fds2, evs1 ++ evs2)
  end.

(** ** Reactor, phase B: the fd dispatch *)

Definition reschedule_continue (e : DispEnv) (squeue : SocksQueue_t) (n : Z)
    (evs : list event) : flow (SocksQueue_t * Z * list event) :=
  let '(s, evs') := socks_reschedule (de_time e) squeue in
  Continue (s, n, evs ++ evs').

(** [if (FD_ISSET(squeue->fd, &wset)) ...]; [n] is [maxfd], the count of
    ready descriptors still to be served. *)
Definition dispatch_write (e : DispEnv) (ws : fd_set) (squeue : SocksQueue_t) (n : Z)
    : flow (SocksQueue_t * Z * list event) :=
  if FD_ISSET (sq_fd squeue) ws then
    let n1 := n - 1 in
    match sq_state squeue with
    | SOCKS_CONNECTING =>
        match de_so_error e with
        | None => reschedule_continue e squeue n1 []
        | Some so_err =>
            if negb (so_err =? 0) then reschedule_continue e squeue n1 []
            else
              match socks5 cfg with
              | CONNTYPE_SOCKS4A =>
                  let '(r, evs) := socks_send_request (de_hosts e) (de_write_w e) squeue in
                  if r =? -1 then reschedule_continue e squeue n1 evs
                  else Proceed (set_state SOCKS_4AREQ_SENT squeue, n1, evs)
              | CONNTYPE_SOCKS5 =>
                  let '(r, evs) := socks5_greet (de_write_w e) squeue in
                  if r =? -1 then reschedule_continue e squeue n1 evs
                  else Proceed (set_state SOCKS_5GREET_SENT squeue, n1, evs)
              | CONNTYPE_DIRECT =>
                  Proceed (set_state SOCKS_DELETE squeue, n1,
                           socks_activate_peer (de_time e) squeue)
              | CONNTYPE_OTHER => Exit
              end
        end
    | _ => Proceed (squeue, n1, [])
    end
  else Proceed (squeue, n, []).

(** [if (FD_ISSET(squeue->fd, &rset)) ...]. *)
Definition dispatch_read (e : DispEnv) (rs : fd_set) (squeue : SocksQueue_t) (n : Z)
    (evs : list event) : SocksQueue_t * Z * list event :=
  if FD_ISSET (sq_fd squeue) rs then
    let n1 := n - 1 in
    match sq_state squeue with
    | SOCKS_4AREQ_SENT =>
        if socks_rec_response (de_read e) =? -1 then
          let '(s, evs') := socks_reschedule (de_time e) squeue in (s, n1, evs ++ evs')
        else (set_state SOCKS_DELETE squeue, n1,
              evs ++ socks_activate_peer (de_time e) squeue)
    | SOCKS_5GREET_SENT =>
        if socks5_greet_response (de_read e) =? -1 then
          let '(s, evs') := socks_reschedule (de_time e) squeue in (s, n1, evs ++ evs')
        else
          let '(r, evs1) := socks5_send_request (de_hosts e) (de_write_r e) squeue in
          if r =? -1 then
            let '(s, evs') := socks_reschedule (de_time e) squeue in
            (s, n1, evs ++ evs1 ++ evs')
          else (set_state SOCKS_5REQ_SENT squeue, n1, evs ++ evs1)
    | SOCKS_5REQ_SENT =>
        if socks5_rec_response (de_read e) =? -1 then
          let '(s, evs') := socks_reschedule (de_time e) squeue in (s, n1, evs ++ evs')
        else (set_state SOCKS_DELETE squeue, n1,
              evs ++ socks_activate_peer (de_time e) squeue)
    | SOCKS_DNS_SENT =>
        if negb (socks_dns_recv e squeue =? -1) then
          (set_restart_time 0 (set_retry 0 (set_state SOCKS_NEW squeue)), n1,
           evs ++ [EvClose (sq_fd squeue)])
        else (set_state SOCKS_DELETE squeue, n1, evs ++ [EvClose (sq_fd squeue)])
    | SOCKS_DELETE => (squeue, n1, evs)
    | SOCKS_NEW | SOCKS_CONNECTING | SOCKS_READY =>
        let '(s, evs') := socks_reset squeue in (s, n1, evs ++ evs')
    end
  else (squeue, n, evs).

(** The body of the second loop over the queue for one entry; [None] is
    [exit(1)]. *)
Definition dispatch_entry (e : DispEnv) (rs ws : fd_set) (squeue : SocksQueue_t) (n : Z)
    : option (SocksQueue_t * Z * list event) :=
  match dispatch_write e ws squeue n with
  | Exit => None
  | Continue r => Some r
  | Proceed (s, n1, evs) => Some (dispatch_read e rs s n1 evs)
  end.

(** [for (squeue = socks_queue_; maxfd && squeue; squeue = squeue->next)]. *)
Fixpoint dispatch_loop (envs : nat -> DispEnv) (i : nat) (rs ws : fd_set) (q : queue)
    (n : Z) : option (queue * list event) :=
  match q with
  | [] => Some ([], [])
  | squeue :: rest =>
      if n =? 0 then Some (q, [])
      else
        match dispatch_entry (envs i) rs ws squeue n with
        | None => None
        | Some (s, n1, evs1) =>
            match dispatch_loop envs (S i) rs ws rest n1 with
            | None => None
            | Some (rest', evs2) => Some (s :: rest', evs1 ++ evs2)
            end
        end
  end.

(** ** Reactor, phase C: the reap walk *)

(** The last loop of [socks_connector_sel], with the cursor [squeue] at
    position [i] of the queue [q]:

      for (squeue = socks_queue_; squeue; squeue = squeue->next)
         if (squeue->state == SOCKS_DELETE)
         { socks_unqueue(squeue); squeue = socks_queue_; if (!squeue) break; }

    After an unlink the cursor is put on the head and the [for] increment
    then moves it to the second entry. *)
Equations? reap_loop (q : queue) (i : nat) : queue
  by wf (List.length q * S (List.length q) + (List.length q - i))%nat lt :=
reap_loop q i with inspect (nth_error q i) := {
  | exist _ None _ => q
  | exist _ (Some squeue) Hcur
      with inspect (socks_state_eqb (sq_state squeue) SOCKS_DELETE) := {
      | exist _ false _ => reap_loop q (S i)
      | exist _ true _ with inspect (socks_unqueue i q) := {
          | exist _ [] _ => []
          | exist _ (first :: rest) Hunq => reap_loop (first :: rest) 1 } } }.
Proof.
  - assert (Hi : (i < List.length q)%nat) by (apply nth_error_Some; congruence).
    assert (Hlen : forall (l : queue) (j : nat), (j < List.length l)%nat ->
              S (List.length (socks_unqueue j l)) = List.length l).
    { induction l as [|x l IH]; intros j Hj; simpl in *; [lia|].
      destruct j; simpl; [reflexivity|]. rewrite IH by lia. reflexivity. }
    specialize (Hlen q i Hi). rewrite Hunq in Hlen. simpl in *. nia.
  - assert (i < List.length q)%nat by (apply nth_error_Some; congruence). lia.
Defined.

(** ** The reactor *)

(** One pass of the [for (;;)] body of [socks_connector_sel].  [select]
    leaves in each set the members the environment reports ready and
    returns their number. *)
Definition socks_connector_iter (e : IterEnv) (q : queue) : iter_outcome :=
  if ie_term_req e then IterTerminated
  else
    let fds0 := MFD_SET_r (socksfd0 cfg) (mk_fdsets [] [] 0) in
    let t := ie_time e in
    let '(q1, fds1, evs1) := phaseA_loop t (ie_phaseA e) 0 q fds0 in
    if ie_select_error e then IterSelectFailed q1 evs1
    else
      let rs := filter (ie_ready_r e) (rset fds1) in
      let ws := filter (ie_ready_w e) (wset fds1) in
      let n := Z.of_nat (List.length rs + List.length ws) in
      let piped :=
        if FD_ISSET (socksfd0 cfg) rs
        then option_map (fun r => (fst r, snd r, n - 1))
                        (pipe_drain (ie_malloc e) (ie_pipe e) q1)
        else Some (q1, [], n) in
      match piped with
      | None => IterExit
      | Some (q2, evs2, n2) =>
          match dispatch_loop (ie_dispatch e) 0 rs ws q2 n2 with
          | None => IterExit
          | Some (q3, evs3) => IterDone (reap_loop q3 0) (evs1 ++ evs2 ++ evs3)
          end
      end.

(** The queue after the iterations answered by [envs], starting from [q];
    the run stops early when the thread returns or the process exits. *)
Fixpoint socks_connector_sel (envs : list IterEnv) (q : queue) : queue :=
  match envs with
  | [] => q
  | e :: rest =>
      match socks_connector_iter e q with
      | IterTerminated | IterExit => q
      | IterSelectFailed q' _ | IterDone q' _ => socks_connector_sel rest q'
      end
  end.

(** ** The synchronous probe *)

(** One pass of the [while (sq.state != SOCKS_READY)] body of
    [synchron_socks_connect]: [inl] is [goto rlr_exit], [inr] is the way back
    to the loop condition (by [continue], or by [break] and the pause). *)
Definition synchron_body (e : SyncEnv) (sq : SocksQueue_t)
    : (SocksQueue_t * list event) + (SocksQueue_t * list event) :=
  if se_term_req e then inl (sq, [])
  else
    match sq_state sq with
    | SOCKS_NEW =>
        let sq1 := set_fd (se_socket e) sq in
        if sq_fd sq1 =? -1 then inl (sq1, [])
        else
          let evs := [EvConnect (sq_addr sq1) (sq_fd sq1)] in
          if socks_tcp_connect (se_connect e) =? 0 then
            if rand_addr cfg then inl (sq1, evs)
            else inr (set_state SOCKS_CONNECTING sq1, evs)
          else inr (sq1, evs)
    | SOCKS_CONNECTING =>
        match socks5 cfg with
        | CONNTYPE_SOCKS4A =>
            let '(r, evs) := socks_send_request (se_hosts e) (se_write e) sq in
            if r =? -1 then inr (set_state SOCKS_DELETE sq, evs)
            else inr (set_state SOCKS_4AREQ_SENT sq, evs)
        | CONNTYPE_SOCKS5 =>
            let '(r, evs) := socks5_greet (se_write e) sq in
            if r =? -1 then inr (set_state SOCKS_DELETE sq, evs)
            else inr (set_state SOCKS_5GREET_SENT sq, evs)
        | CONNTYPE_DIRECT | CONNTYPE_OTHER => inr (sq, [])
        end
    | SOCKS_4AREQ_SENT =>
        if socks_rec_response (se_read e) =? -1 then inr (set_state SOCKS_DELETE sq, [])
        else inr (set_state SOCKS_READY sq, [])
    | SOCKS_5GREET_SENT =>
        if socks5_greet_response (se_read e) =? -1
        then inr (set_state SOCKS_DELETE sq, [])
        else
          let '(r, evs) := socks5_send_request (se_hosts e) (se_write_r e) sq in
          if r =? -1 then inr (set_state SOCKS_DELETE sq, evs)
          else inr (set_state SOCKS_5REQ_SENT sq, evs)
    | SOCKS_5REQ_SENT =>
        if socks5_rec_response (se_read e) =? -1 then inr (set_state SOCKS_DELETE sq, [])
        else inr (set_state SOCKS_READY sq, [])
    | SOCKS_DELETE =>
        inr (set_state SOCKS_NEW (set_fd (-1) sq), [EvClose (sq_fd sq)])
    | SOCKS_DNS_SENT | SOCKS_READY => inr (set_state SOCKS_DELETE sq, [])
    end.

(** The loop, one element of [envs] for each pass; [None] when the answers
    run out while the loop is still going. *)
Fixpoint synchron_loop (envs : list SyncEnv) (sq : SocksQueue_t)
    : option (SocksQueue_t * list event) :=
  if socks_state_eqb (sq_state sq) SOCKS_READY then Some (sq, [])
  else
    match envs with
    | [] => None
    | e :: rest =>
        match synchron_body e sq with
        | inl r => Some r
        | inr (sq', evs) =>
            option_map (fun r => (fst r, evs ++ snd r)) (synchron_loop rest sq')
        end
    end.

(** The entry the probe starts from. *)
Definition synchron_init (a : in6_addr) : SocksQueue_t :=
  set_fd (-1) (set_state SOCKS_NEW (mkSQ a 0 SOCKS_NEW 0 0 0 0 sockaddr_in6_zero 0 0)).

(** [synchron_socks_connect(addr)]: the value of [return sq.fd]. *)
Definition synchron_socks_connect (envs : list SyncEnv) (a : in6_addr) : option Z :=
  option_map (fun r => sq_fd (fst r)) (synchron_loop envs (synchron_init a)).

(** ** The life of one queue entry *)

(** What the reactor can do to one entry: the state scan of an iteration, or
    the fd dispatch of an iteration (with whatever sets [select] left). *)
Inductive entry_op : Type :=
| OpScan (t : Z) (e : PhaseAEnv) (fds : fdsets)
| OpDispatch (e : DispEnv) (rs ws : fd_set) (n : Z).

Definition entry_step (op : entry_op) (squeue : SocksQueue_t)
    : option (SocksQueue_t * list event) :=
  match op with
  | OpScan t e fds =>
      let '(s, _, evs) := phaseA_entry t e squeue fds in Some (s, evs)
  | OpDispatch e rs ws n =>
      option_map (fun r => (fst (fst r), snd r)) (dispatch_entry e rs ws squeue n)
  end.

(** The entry and the events after a sequence of operations; [exit(1)] ends
    the run. *)
Fixpoint entry_run (ops : list entry_op) (squeue : SocksQueue_t)
    : SocksQueue_t * list event :=
  match ops with
  | [] => (squeue, [])
  | op :: rest =>
      match entry_step op squeue with
      | None => (squeue, [])
      | Some (s, evs) =>
          let '(s', evs') := entry_run rest s in (s', evs ++ evs')
      end
  end.

Definition is_connect (ev : event) : bool :=
  match ev with EvConnect _ _ => true | _ => false end.

Definition is_dns_send (ev : event) : bool :=
  match ev with EvDnsSend _ _ => true | _ => false end.

(** The number of [connect()] calls among the events. *)
Definition connect_attempts (evs : list event) : nat :=
  List.length (filter is_connect evs).

(** No [connect()] among the events. *)
Definition no_connect (evs : list event) : Prop :=
  List.length (filter is_connect evs) = 0%nat.

(** The invariant behind the bound on the connection attempts of a
    temporary entry; [n] is the number of [connect()] calls made for the
    entry so far.  While a DNS probe is out no connect was made yet;
    otherwise the attempts are covered by the retry counter. *)
Definition attempts_inv (squeue : SocksQueue_t) (n : nat) : Prop :=
  sq_perm squeue = 0 /\
  match sq_state squeue with
  | SOCKS_DNS_SENT => n = 0%nat
  | SOCKS_DELETE => Z.of_nat n <= SOCKS_MAX_RETRY
  | _ => Z.of_nat n <= sq_retry squeue
         /\ sq_retry squeue <= Z.max SOCKS_MAX_RETRY 1
         /\ Z.of_nat n <= SOCKS_MAX_RETRY
  end.

(** ** Sample data for the closed examples *)

Definition no_hosts : hosts_dir := fun _ => None.

Definition sample_ipv6tonion (a : in6_addr) : string := "aaaaaaaaaaaaaaaa"%string.

Definition sample_setup (mode : conntype) (dns rand : bool) : OcatSetup :=
  mkSetup false dns mode rand ".onion"%string "tor"%string 8060 8060 2 3.

Definition sample_disp_env (reply : list Z) : DispEnv :=
  mk_DispEnv (Some 0) 100 (Some reply) 100 None 0 no_hosts 1000.

Definition sample_entry (a : in6_addr) (fd : Z) (st : socks_state) (retry : Z)
    : SocksQueue_t :=
  mkSQ a fd st 0 retry 0 0 sockaddr_in6_zero 0 0.

Definition sample_sync_env (fd : Z) (c : connect_res) (reply : list Z) : SyncEnv :=
  mk_SyncEnv false fd c no_hosts 100 (Some reply) 100.

(** Sample values of the constants of [ocat.h]. *)
Definition sample_MAX_RETRY : Z := 3.
Definition sample_DNS_RETRY : Z := 3.
Definition sample_DNS_RETRY_TIMEOUT : Z := 5.
Definition sample_CONN_TIMEOUT : Z := 30.

(** A scan in which [socket()] answers [sock] and [connect()] answers [c]. *)
Definition sample_scan_env (sock : Z) (c : connect_res) : PhaseAEnv :=
  mk_PhaseAEnv no_hosts 9 4242 (Some (77, 1)) 40 true sock c 1000.

(** An iteration at time [t] in which [select] reports [rr] readable and
    [rw] writable, the pipe delivers [p] and every SOCKS4a reply read is a
    success reply. *)
Definition sample_iter (t sock : Z) (rr rw : list Z) (p : pipe_read) : IterEnv :=
  mk_IterEnv false t (fun _ => sample_scan_env sock ConnectInProgress) false
    (fun fd => FD_ISSET fd rr) (fun fd => FD_ISSET fd rw) p true
    (fun _ => sample_disp_env [0; 90; 0; 0; 0; 0; 0; 0]).

(** Four iterations: address 1 is posted, connects on descriptor 7 and sends
    its request while address 2 is posted; address 2 connects on descriptor 8
    and sends its request; both replies arrive together. *)
Definition sample_run : list IterEnv :=
  [ sample_iter 100 0 [3] [] (socks_queue_record 1 0);
    sample_iter 101 7 [3] [7] (socks_queue_record 2 0);
    sample_iter 102 8 [] [8] sig_socks_connector_record;
    sample_iter 103 0 [7; 8] [] sig_socks_connector_record ].

(** An entry whose DNS probe has used up its retries. *)
Definition sample_dns_entry : SocksQueue_t :=
  mkSQ 1 9 SOCKS_DNS_SENT 0 3 0 10 (mk_sockaddr_in6 true 8060 77) 1 4242.

(** Replies of a proxy. *)
Definition sample_reply4_ok : list Z := [0; 90; 0; 0; 0; 0; 0; 0].
Definition sample_reply4_rejected : list Z := [0; 91; 0; 0; 0; 0; 0; 0].
Definition sample_reply4_short : list Z := [0; 90; 0].
Definition sample_reply5_four : list Z := [5; 0; 0; 1].
Definition sample_reply5_refused : list Z := [5; 1; 0; 1; 0; 0; 0; 0; 0; 0].

(** Scans of one entry in which every [connect()] fails: four scans far
    enough apart, and a life that starts with a DNS probe whose retries run
    out. *)
Definition sample_fds : fdsets := mk_fdsets [] [] 0.

Definition sample_failing_scans : list entry_op :=
  map (fun t => OpScan t (sample_scan_env 7 ConnectError) sample_fds)
      [2000; 3000; 4000; 5000].

Definition sample_dns_then_failing_scans : list entry_op :=
  map (fun t => OpScan t (sample_scan_env 7 ConnectError) sample_fds)
      [100; 200; 300; 400; 500; 2000; 4000; 6000].

(** The name [aaaaaaaaaaaaaaaa.onion] as bytes, and the SOCKS4a and SOCKS5
    requests for it with user id [tor] and port 8060. *)
Definition sample_name_bytes : list Z :=
  bytes_of_string "aaaaaaaaaaaaaaaa.onion"%string.

Definition sample_frame4 : list Z :=
  [4; 1; 31; 124; 0; 0; 0; 1] ++ bytes_of_string "tor"%string ++ [0]
  ++ sample_name_bytes ++ [0].

Definition sample_frame5 : list Z :=
  [5; 1; 0; 3; 22] ++ sample_name_bytes ++ [31; 124].

Definition sample_reply5_ok : list Z := [5; 0; 0; 1; 0; 0; 0; 0; 0; 0].
Definition sample_greet_ok : list Z := [5; 0].

(** An iteration in which the request for address 1 is read from the pipe. *)
Definition sample_post_iter : IterEnv :=
  sample_iter 100 0 [3] [] (socks_queue_record 1 0).

(** Two scans and a dispatch round between times 1010 and 1029, with only
    descriptor 3 ready. *)
Definition sample_early_ops : list entry_op :=
  [OpScan 1010 (sample_scan_env 7 ConnectOk) sample_fds;
   OpDispatch (sample_disp_env sample_reply4_ok) [3] [] 1;
   OpScan 1029 (sample_scan_env 7 ConnectOk) sample_fds].

(** A hosts database that names address 1, and a setup that consults it. *)
Definition sample_hosts : hosts_dir :=
  fun a => if a =? 1 then Some (3%nat, "example.onion"%string) else None.

Definition sample_setup_hosts : OcatSetup :=
  mkSetup true false CONNTYPE_DIRECT false ".onion"%string "tor"%string 8060 8060 2 3.


(** The first three iterations of [sample_run]. *)
Definition sample_run_waiting : list IterEnv := firstn 3 sample_run.

(** A setup whose name server port does not fit 16 bits, and a dispatch
    round in which the datagram read comes from port 4464 of the name
    server 77. *)
Definition sample_setup_port : OcatSetup :=
  mkSetup false true CONNTYPE_SOCKS4A false ".onion"%string "tor"%string 8060 70000 2 3.

Definition sample_dns_disp_env_port : DispEnv :=
  mk_DispEnv (Some 0) 100 None 100 (Some (4464, 77)) 0 no_hosts 1000.

(** A pass of the probe that finds a termination request. *)
Definition sample_term_env : SyncEnv :=
  mk_SyncEnv true 0 ConnectOk no_hosts 0 None 0.

(** A dispatch round in which the datagram read comes from port 8060 of the
    name server 77 and [oc_proc_response] returns 0. *)
Definition sample_dns_disp_env : DispEnv :=
  mk_DispEnv (Some 0) 100 None 100 (Some (8060, 77)) 0 no_hosts 1000.

(** ** Notions for the further properties *)

(** The states in which an entry waits on its descriptor. *)
Definition waiting_state (st : socks_state) : bool :=
  match st with
  | SOCKS_CONNECTING | SOCKS_4AREQ_SENT | SOCKS_5GREET_SENT | SOCKS_5REQ_SENT
  | SOCKS_DNS_SENT => true
  | SOCKS_NEW | SOCKS_READY | SOCKS_DELETE => false
  end.

(** An entry that waits on a descriptor holds one that [socket()] returned. *)
Definition has_descriptor (squeue : SocksQueue_t) : Prop :=
  waiting_state (sq_state squeue) = true -> sq_fd squeue <> -1.

(** Not marked for deletion. *)
Definition is_live (squeue : SocksQueue_t) : bool :=
  negb (socks_state_eqb (sq_state squeue) SOCKS_DELETE).

Definition is_activate (ev : event) : bool :=
  match ev with EvActivate _ _ _ => true | _ => false end.

(** The number of [insert_peer] calls among the events. *)
Definition activations (evs : list event) : nat :=
  List.length (filter is_activate evs).

(** The descriptor of an entry that waits is in the set [select] is called
    with: the write set while connecting, the read set otherwise. *)
Definition registered (squeue : SocksQueue_t) (fds : fdsets) : Prop :=
  match sq_state squeue with
  | SOCKS_CONNECTING => FD_ISSET (sq_fd squeue) (wset fds) = true
  | SOCKS_4AREQ_SENT | SOCKS_5GREET_SENT | SOCKS_5REQ_SENT | SOCKS_DNS_SENT =>
      FD_ISSET (sq_fd squeue) (rset fds) = true
  | SOCKS_NEW | SOCKS_READY | SOCKS_DELETE => True
  end.

(** Every member of the sets [a] is a member of the sets [b]. *)
Definition fds_le (a b : fdsets) : Prop :=
  (forall fd, FD_ISSET fd (rset a) = true -> FD_ISSET fd (rset b) = true)
  /\ (forall fd, FD_ISSET fd (wset a) = true -> FD_ISSET fd (wset b) = true).

(** The address carried by a record of the pipe, if it is a record. *)
Definition pipe_addr (rec : pipe_read) : list in6_addr :=
  match rec with
  | PipeRecord _ sq => [sq_addr sq]
  | PipeError | PipeShort _ => []
  end.

(** The entry carried by a record of the pipe, if it is a record. *)
Definition pipe_entry (rec : pipe_read) : list SocksQueue_t :=
  match rec with
  | PipeRecord _ sq => [sq]
  | PipeError | PipeShort _ => []
  end.

(** * Properties *)

(** Forget the constants of the section that a statement does not mention,
    so that no proof comes to depend on them. *)
Ltac drop_unused :=
  try clear SOCKS_MAX_RETRY; try clear SOCKS_DNS_RETRY;
  try clear SOCKS_DNS_RETRY_TIMEOUT; try clear TOR_SOCKS_CONN_TIMEOUT;
  try clear cfg; try clear ipv6tonion; try clear sizeof_SocksQueue_t.

(** ** Basic facts *)

Lemma wrap_int_in_range (z : Z) : INT_MIN <= z <= INT_MAX -> wrap_int z = z.
Proof.
  drop_unused.
  unfold wrap_int, INT_MIN, INT_MAX. intros H.
  rewrite Z.mod_small by lia. lia.
Qed.


Lemma socks_state_eqb_eq (a b : socks_state) : socks_state_eqb a b = true <-> a = b.
Proof.
  drop_unused. destruct a, b; simpl; split; intro H; try reflexivity; discriminate H. Qed.

Lemma int_incr_exact (x : Z) : INT_MIN <= x < INT_MAX -> int_incr x = x + 1.
Proof.
  drop_unused.
  unfold int_incr, wrap_int, INT_MIN, INT_MAX. intros H.
  rewrite Z.mod_small by lia. lia.
Qed.

Lemma firstn_nth_below {A : Type} (n i : nat) (l : list A) (d : A) :
  (i < n)%nat -> nth i (firstn n l) d = nth i l d.
Proof.
  drop_unused.
  revert i l. induction n as [|n IH]; intros i l Hi; [lia|].
  destruct l as [|x l]; [reflexivity|].
  destruct i as [|i]; [reflexivity|]. simpl. apply IH. lia.
Qed.

Lemma firstn_length_ge {A : Type} (n m : nat) (l : list A) :
  (m <= n)%nat -> ((List.length (firstn n l) <? m)%nat = (List.length l <? m)%nat).
Proof.
  drop_unused.
  intros H. rewrite length_firstn.
  destruct (Nat.ltb_spec (List.length l) m), (Nat.ltb_spec (Nat.min n (List.length l)) m);
    try reflexivity; lia.
Qed.

(** ** SOCKS4a reply *)

(** C6.  [socks_rec_response] on a reply of eight bytes (or more on offer,
    of which eight are read) returns 0 exactly when VN = 0 and CD = 90 and
    [-1] for every other VN or CD; a read of fewer than eight bytes and a
    failing read return [-1]. *)
Theorem socks_rec_response_success_iff :
  (forall reply : list Z, (8 <= List.length reply)%nat ->
     (socks_rec_response (Some reply) = 0 <-> nth 0 reply 0 = 0 /\ nth 1 reply 0 = 90)
     /\ (nth 0 reply 0 <> 0 \/ nth 1 reply 0 <> 90 -> socks_rec_response (Some reply) = -1))
  /\ (forall reply : list Z, (List.length reply < 8)%nat ->
        socks_rec_response (Some reply) = -1)
  /\ socks_rec_response None = -1.
Proof.
  drop_unused.
  split; [|split].
  - intros reply Hlen. unfold socks_rec_response, sys_read, option_map.
    rewrite (firstn_length_ge sizeof_SocksHdr_t sizeof_SocksHdr_t) by lia.
    replace (List.length reply <? sizeof_SocksHdr_t)%nat with false
      by (symmetry; apply Nat.ltb_ge; exact Hlen).
    rewrite !firstn_nth_below by (unfold sizeof_SocksHdr_t; lia).
    destruct (Z.eqb_spec (nth 0 reply 0) 0) as [Hv|Hv];
      destruct (Z.eqb_spec (nth 1 reply 0) 90) as [Hc|Hc]; simpl;
      (split; [split|]); try tauto; try lia; try discriminate.
  - intros reply Hlen. unfold socks_rec_response, sys_read, option_map.
    rewrite (firstn_length_ge sizeof_SocksHdr_t sizeof_SocksHdr_t) by lia.
    replace (List.length reply <? sizeof_SocksHdr_t)%nat with true
      by (symmetry; apply Nat.ltb_lt; exact Hlen).
    reflexivity.
  - reflexivity.
Qed.

(** ** SOCKS5 reply *)

Lemma socks5_rec_response_cases (incoming : option (list Z)) :
  socks5_rec_response incoming = 0 \/ socks5_rec_response incoming = -1.
Proof.
  drop_unused.
  unfold socks5_rec_response. destruct (sys_read incoming _) as [buf|]; [|now right].
  destruct (_ <? _)%nat; [now right|].
  destruct (negb _ || negb _); [now right|].
  destruct (negb _); [now right | now left].
Qed.

Lemma socks5_rec_response_zero_iff (incoming : option (list Z)) :
  socks5_rec_response incoming = 0 <->
  exists reply, incoming = Some reply /\ (5 <= List.length reply)%nat /\
    nth 0 reply 0 = 5 /\ nth 2 reply 0 = 0 /\ nth 1 reply 0 = 0.
Proof.
  drop_unused.
  unfold socks5_rec_response, sys_read, option_map.
  destruct incoming as [reply|].
  - rewrite (firstn_length_ge _ sizeof_Socks5Hdr_t) by (unfold sizeof_Socks5Hdr_t; lia).
    rewrite !firstn_nth_below by (unfold sizeof_Socks5Hdr_t; lia).
    unfold sizeof_Socks5Hdr_t.
    destruct (Nat.ltb_spec (List.length reply) 5) as [Hl|Hl].
    + split; [discriminate|]. intros (r & Hr & Hlen & _). injection Hr as <-. lia.
    + destruct (Z.eqb_spec (nth 0 reply 0) 5) as [Hv|Hv];
        destruct (Z.eqb_spec (nth 2 reply 0) 0) as [Hr|Hr];
        destruct (Z.eqb_spec (nth 1 reply 0) 0) as [Hc|Hc]; simpl;
        (split; [try discriminate; intros _; exists reply; repeat split; assumption
                | try reflexivity; intros (r & Heq & _ & H0 & H2 & H1);
                  injection Heq as <-; congruence]).
  - split; [discriminate|]. intros (r & Hr & _). discriminate Hr.
Qed.

(** C5 (amended).  [socks5_rec_response] returns 0 exactly for the replies of
    which at least [sizeof(Socks5Hdr_t)] = 5 bytes were received and whose
    VER is 5, RSV is 0 and REP is 0; every other outcome of the read is [-1],
    and the reactor then reschedules the entry. *)
Theorem socks5_rec_response_success_iff :
  (forall incoming : option (list Z),
     (socks5_rec_response incoming = 0 <->
      exists reply, incoming = Some reply /\ (5 <= List.length reply)%nat /\
        nth 0 reply 0 = 5 /\ nth 2 reply 0 = 0 /\ nth 1 reply 0 = 0)
     /\ (socks5_rec_response incoming = 0 \/ socks5_rec_response incoming = -1))
  /\ (forall (e : DispEnv) (rs : fd_set) (squeue : SocksQueue_t) (n : Z) (evs : list event),
        sq_state squeue = SOCKS_5REQ_SENT ->
        FD_ISSET (sq_fd squeue) rs = true ->
        socks5_rec_response (de_read e) <> 0 ->
        dispatch_read e rs squeue n evs =
          (fst (socks_reschedule (de_time e) squeue), n - 1,
           evs ++ snd (socks_reschedule (de_time e) squeue))).
Proof.
  drop_unused.
  split.
  - intros incoming. split.
    + apply socks5_rec_response_zero_iff.
    + apply socks5_rec_response_cases.
  - intros e rs squeue n evs Hst Hrs Hfail.
    unfold dispatch_read. rewrite Hrs, Hst.
    destruct (socks5_rec_response_cases (de_read e)) as [H|H]; [contradiction|].
    rewrite H. simpl. destruct (socks_reschedule (de_time e) squeue). reflexivity.
Qed.

(** ** Reset and reschedule *)

(** C7 (amended).  [socks_reschedule] closes a descriptor greater than 0 and
    sets [fd] to 0 in that case only: a descriptor that is 0 stays 0 and a
    negative one is left as it is.  The state becomes [SOCKS_NEW],
    [restart_time] becomes [now + TOR_SOCKS_CONN_TIMEOUT], and the retry
    counter and every other member are unchanged. *)
Theorem socks_reschedule_frame (now : Z) (squeue : SocksQueue_t) :
  let s := fst (socks_reschedule now squeue) in
  let evs := snd (socks_reschedule now squeue) in
  (0 <= sq_fd squeue -> sq_fd s = 0)
  /\ (sq_fd squeue < 0 -> sq_fd s = sq_fd squeue)
  /\ (0 < sq_fd squeue -> evs = [EvClose (sq_fd squeue)])
  /\ (sq_fd squeue <= 0 -> evs = [])
  /\ sq_state s = SOCKS_NEW
  /\ sq_restart_time s = now + TOR_SOCKS_CONN_TIMEOUT
  /\ sq_retry s = sq_retry squeue
  /\ sq_addr s = sq_addr squeue
  /\ sq_perm s = sq_perm squeue
  /\ sq_connect_time s = sq_connect_time squeue
  /\ sq_ns_addr s = sq_ns_addr squeue
  /\ sq_ns_src s = sq_ns_src squeue
  /\ sq_id s = sq_id squeue.
Proof.
  drop_unused.
  unfold socks_reschedule, socks_reset.
  destruct (Z.gtb_spec (sq_fd squeue) 0) as [Hfd|Hfd]; simpl;
    repeat split; try reflexivity; intros; try lia.
Qed.

(** ** What the per-entry steps leave alone *)

(** Case analysis on an innermost scrutinee of the goal. *)
Ltac break_match :=
  match goal with
  | |- context [match ?x with _ => _ end] =>
      lazymatch x with
      | context [match _ with _ => _ end] => fail
      | _ => destruct x eqn:?
      end
  end.

Ltac crush_entry := repeat (break_match; simpl in *; subst); try reflexivity.

Lemma socks_reset_addr (s : SocksQueue_t) :
  sq_addr (fst (socks_reset s)) = sq_addr s /\ sq_perm (fst (socks_reset s)) = sq_perm s.
Proof.
  drop_unused. unfold socks_reset. crush_entry; split; reflexivity. Qed.

Lemma socks_reschedule_addr (now : Z) (s : SocksQueue_t) :
  sq_addr (fst (socks_reschedule now s)) = sq_addr s
  /\ sq_perm (fst (socks_reschedule now s)) = sq_perm s.
Proof.
  drop_unused. unfold socks_reschedule, socks_reset. crush_entry; split; reflexivity. Qed.

Lemma socks_dns_req_addr (e : PhaseAEnv) (s : SocksQueue_t) :
  sq_addr (snd (fst (socks_dns_req e s))) = sq_addr s
  /\ sq_perm (snd (fst (socks_dns_req e s))) = sq_perm s.
Proof.
  drop_unused. unfold socks_dns_req. crush_entry; split; reflexivity. Qed.

Lemma phaseA_entry_addr (t : Z) (e : PhaseAEnv) (s : SocksQueue_t) (fds : fdsets) :
  sq_addr (fst (fst (phaseA_entry t e s fds))) = sq_addr s
  /\ sq_perm (fst (fst (phaseA_entry t e s fds))) = sq_perm s.
Proof.
  drop_unused.
  unfold phaseA_entry, phaseA_new, phaseA_dns_sent, phaseA_connect, dns_fallback,
    socks_dns_req, socks_reschedule, socks_reset.
  crush_entry; split; reflexivity.
Qed.

(** What the write half of the dispatch can do to an entry. *)
Lemma dispatch_write_spec (e : DispEnv) (ws : fd_set) (s : SocksQueue_t) (k : Z) :
  match dispatch_write e ws s k with
  | Exit => True
  | Continue (s', _, evs) | Proceed (s', _, evs) =>
      no_connect evs /\ sq_addr s' = sq_addr s /\ sq_perm s' = sq_perm s
      /\ sq_retry s' = sq_retry s
      /\ (s' = s \/
          (sq_state s = SOCKS_CONNECTING /\
           (sq_state s' = SOCKS_NEW \/ sq_state s' = SOCKS_4AREQ_SENT \/
            sq_state s' = SOCKS_5GREET_SENT \/ sq_state s' = SOCKS_DELETE)))
  end.
Proof.
  drop_unused.
  unfold dispatch_write.
  destruct (FD_ISSET (sq_fd s) ws); [|repeat split; left; reflexivity].
  destruct (sq_state s) eqn:Est; try (repeat split; left; reflexivity).
  unfold reschedule_continue, socks_reschedule, socks_reset, socks_send_request,
    socks5_greet, socks_activate_peer.
  repeat (break_match; simpl; subst); try exact I;
    repeat split; right; (split; [reflexivity|]); simpl; auto.
Qed.

(** What the read half of the dispatch can do to an entry. *)
Lemma dispatch_read_spec (e : DispEnv) (rs : fd_set) (s : SocksQueue_t) (k : Z)
    (evs0 : list event) :
  let r := dispatch_read e rs s k evs0 in
  (exists evs1, snd r = evs0 ++ evs1 /\ no_connect evs1)
  /\ sq_addr (fst (fst r)) = sq_addr s /\ sq_perm (fst (fst r)) = sq_perm s
  /\ (fst (fst r) = s
      \/ (sq_state s = SOCKS_DNS_SENT /\
          (sq_state (fst (fst r)) = SOCKS_DELETE \/
           (sq_state (fst (fst r)) = SOCKS_NEW /\ sq_retry (fst (fst r)) = 0)))
      \/ (sq_state s <> SOCKS_DNS_SENT /\ sq_state s <> SOCKS_DELETE /\
          sq_retry (fst (fst r)) = sq_retry s /\
          (sq_state (fst (fst r)) = SOCKS_NEW \/ sq_state (fst (fst r)) = SOCKS_DELETE
           \/ sq_state (fst (fst r)) = SOCKS_5REQ_SENT))).
Proof.
  drop_unused.
  unfold dispatch_read.
  destruct (FD_ISSET (sq_fd s) rs);
    [|simpl; repeat split; [exists []; split; [symmetry; apply app_nil_r|reflexivity]
                           | left; reflexivity]].
  unfold socks_reschedule, socks_reset, socks5_send_request, socks_activate_peer.
  destruct (sq_state s) eqn:Est;
    repeat (break_match; simpl; subst);
    (split; [eexists; split; [try reflexivity; try (symmetry; apply app_nil_r)
                             | reflexivity]
            | split; [reflexivity | split; [reflexivity|]]]);
    try (left; reflexivity);
    try (right; left; split; [reflexivity|]; simpl; auto; fail);
    try (right; right; repeat split; try congruence; simpl; auto; fail).
Qed.

Lemma dispatch_entry_addr (e : DispEnv) (rs ws : fd_set) (s s' : SocksQueue_t)
    (n n' : Z) (evs : list event) :
  dispatch_entry e rs ws s n = Some (s', n', evs) ->
  sq_addr s' = sq_addr s /\ sq_perm s' = sq_perm s.
Proof.
  drop_unused.
  unfold dispatch_entry. intros H.
  pose proof (dispatch_write_spec e ws s n) as Hw.
  destruct (dispatch_write e ws s n) as [[[s1 n1] evs1]|[[s1 n1] evs1]|];
    [| |discriminate H].
  - inversion H; subst. tauto.
  - destruct Hw as (_ & Ha & Hp & _).
    pose proof (dispatch_read_spec e rs s1 n1 evs1) as (_ & Ha2 & Hp2 & _).
    inversion H as [Hr]. rewrite Hr in Ha2, Hp2. simpl in Ha2, Hp2.
    split; congruence.
Qed.

Lemma phaseA_loop_addrs (t : Z) (envs : nat -> PhaseAEnv) (q : queue) :
  forall (i : nat) (fds : fdsets),
    map sq_addr (fst (fst (phaseA_loop t envs i q fds))) = map sq_addr q.
Proof.
  drop_unused.
  induction q as [|s q IH]; intros i fds; simpl; [reflexivity|].
  destruct (phaseA_entry t (envs i) s fds) as [[s1 fds1] evs1] eqn:He.
  specialize (IH (S i) fds1).
  destruct (phaseA_loop t envs (S i) q fds1) as [[q1 fds2] evs2]. simpl in *.
  f_equal; [|exact IH].
  pose proof (phaseA_entry_addr t (envs i) s fds) as [Ha _]. rewrite He in Ha. exact Ha.
Qed.

Lemma dispatch_loop_addrs (envs : nat -> DispEnv) (rs ws : fd_set) (q : queue) :
  forall (i : nat) (n : Z) (q' : queue) (evs : list event),
    dispatch_loop envs i rs ws q n = Some (q', evs) -> map sq_addr q' = map sq_addr q.
Proof.
  drop_unused.
  induction q as [|s q IH]; intros i n q' evs H; simpl in H.
  - inversion H. reflexivity.
  - destruct (n =? 0); [inversion H; reflexivity|].
    destruct (dispatch_entry (envs i) rs ws s n) as [[[s1 n1] evs1]|] eqn:He;
      [|discriminate H].
    destruct (dispatch_loop envs (S i) rs ws q n1) as [[q1 evs2]|] eqn:Hl;
      [|discriminate H].
    inversion H; subst. simpl. f_equal.
    + apply (dispatch_entry_addr _ _ _ _ _ _ _ _ He).
    + apply (IH _ _ _ _ Hl).
Qed.

(** ** The queue holds each address once *)

Lemma socks_get_req_none (q : queue) (a : in6_addr) :
  socks_get_req q a = None <-> ~ In a (map sq_addr q).
Proof.
  drop_unused.
  unfold socks_get_req, IN6_ARE_ADDR_EQUAL. induction q as [|s q IH]; simpl.
  - split; [intros _ H; exact H | reflexivity].
  - destruct (Z.eqb_spec (sq_addr s) a) as [Heq|Hne].
    + split; [discriminate|]. intros H. exfalso. apply H. left. exact Heq.
    + rewrite IH. split; [intros H [H1|H1]; [contradiction|auto] | intros H H1; auto].
Qed.

Lemma socks_enqueue_NoDup (m : bool) (sq : SocksQueue_t) (q q' : queue) :
  NoDup (map sq_addr q) -> socks_enqueue m sq q = Some q' -> NoDup (map sq_addr q').
Proof.
  drop_unused.
  unfold socks_enqueue. intros Hnd H.
  destruct (socks_get_req q (sq_addr sq)) eqn:Hget.
  - inversion H; subst. exact Hnd.
  - destruct m; [|discriminate H]. inversion H; subst. simpl.
    constructor; [|exact Hnd]. apply socks_get_req_none. exact Hget.
Qed.

Lemma pipe_drain_NoDup (m : bool) (rec : pipe_read) (q q' : queue) (evs : list event) :
  NoDup (map sq_addr q) -> pipe_drain m rec q = Some (q', evs) -> NoDup (map sq_addr q').
Proof.
  drop_unused.
  unfold pipe_drain. intros Hnd H.
  destruct rec as [| k | next sq]; try (inversion H; subst; exact Hnd).
  destruct (negb (next =? 0)); [inversion H; subst; exact Hnd|].
  destruct (IN6_IS_ADDR_UNSPECIFIED (sq_addr sq)); [inversion H; subst; exact Hnd|].
  destruct (socks_enqueue m sq q) as [q1|] eqn:He; [|discriminate H].
  inversion H; subst. apply (socks_enqueue_NoDup _ _ _ _ Hnd He).
Qed.

Lemma socks_unqueue_incl (q : queue) :
  forall (i : nat) (a : in6_addr),
    In a (map sq_addr (socks_unqueue i q)) -> In a (map sq_addr q).
Proof.
  drop_unused.
  induction q as [|s q IH]; intros i a H; simpl in *; [exact H|].
  destruct i as [|i]; simpl in H; [right; exact H|].
  destruct H as [H|H]; [left; exact H | right; apply (IH i a H)].
Qed.

Lemma socks_unqueue_NoDup (q : queue) :
  forall i : nat, NoDup (map sq_addr q) -> NoDup (map sq_addr (socks_unqueue i q)).
Proof.
  drop_unused.
  induction q as [|s q IH]; intros i H; simpl in *; [exact H|].
  inversion H as [|a l Hnotin Hnd]; subst.
  destruct i as [|i]; simpl; [exact Hnd|].
  constructor; [|apply IH; exact Hnd].
  intros Hin. apply Hnotin. apply (socks_unqueue_incl q i _ Hin).
Qed.

Lemma reap_loop_NoDup (q : queue) (i : nat) :
  NoDup (map sq_addr q) -> NoDup (map sq_addr (reap_loop q i)).
Proof.
  drop_unused.
  apply (reap_loop_elim (fun q _ r => NoDup (map sq_addr q) -> NoDup (map sq_addr r)));
    clear q i.
  - intros q i _ _ H. exact H.
  - intros q i squeue _ _ IH _ _ H. apply IH. exact H.
  - intros q i _ squeue _ _ _ _ _ _. constructor.
  - intros q i first rest Hunq squeue _ _ IH _ _ _ H.
    apply IH. rewrite <- Hunq. apply socks_unqueue_NoDup. exact H.
Qed.

Lemma socks_connector_iter_NoDup (e : IterEnv) (q : queue) :
  NoDup (map sq_addr q) ->
  match socks_connector_iter e q with
  | IterTerminated | IterExit => True
  | IterSelectFailed q' _ | IterDone q' _ => NoDup (map sq_addr q')
  end.
Proof.
  drop_unused.
  intros Hnd. unfold socks_connector_iter.
  destruct (ie_term_req e); [exact I|].
  pose proof (phaseA_loop_addrs (ie_time e) (ie_phaseA e) q 0
                (MFD_SET_r (socksfd0 cfg) (mk_fdsets [] [] 0))) as Ha.
  destruct (phaseA_loop _ _ _ _ _) as [[q1 fds1] evs1]. simpl in Ha.
  assert (Hnd1 : NoDup (map sq_addr q1)) by (rewrite Ha; exact Hnd).
  destruct (ie_select_error e); [exact Hnd1|].
  set (rs := filter (ie_ready_r e) (rset fds1)).
  set (ws := filter (ie_ready_w e) (wset fds1)).
  set (n := Z.of_nat (List.length rs + List.length ws)).
  assert (Hafter : forall q2 n2 q3 evs3, NoDup (map sq_addr q2) ->
            dispatch_loop (ie_dispatch e) 0 rs ws q2 n2 = Some (q3, evs3) ->
            NoDup (map sq_addr (reap_loop q3 0))).
  { intros q2 n2 q3 evs3 H2 Hd. apply reap_loop_NoDup.
    rewrite (dispatch_loop_addrs _ _ _ _ _ _ _ _ Hd). exact H2. }
  destruct (FD_ISSET (socksfd0 cfg) rs).
  - destruct (pipe_drain (ie_malloc e) (ie_pipe e) q1) as [[q2 evs2]|] eqn:Hp;
      simpl; [|exact I].
    destruct (dispatch_loop (ie_dispatch e) 0 rs ws q2 (n - 1)) as [[q3 evs3]|] eqn:Hd;
      [|exact I].
    apply (Hafter _ _ _ _ (pipe_drain_NoDup _ _ _ _ _ Hnd1 Hp) Hd).
  - destruct (dispatch_loop (ie_dispatch e) 0 rs ws q1 n) as [[q3 evs3]|] eqn:Hd;
      [|exact I].
    apply (Hafter _ _ _ _ Hnd1 Hd).
Qed.

Lemma socks_connector_sel_NoDup (envs : list IterEnv) :
  forall q : queue, NoDup (map sq_addr q) -> NoDup (map sq_addr (socks_connector_sel envs q)).
Proof.
  drop_unused.
  induction envs as [|e envs IH]; intros q Hnd; simpl; [exact Hnd|].
  pose proof (socks_connector_iter_NoDup e q Hnd) as Hi.
  destruct (socks_connector_iter e q); try exact Hnd; apply IH; exact Hi.
Qed.

(** C9.  [socks_enqueue] leaves the queue as it is when an entry with the
    address of the template is queued, and otherwise puts the copy of the
    template in front of the queue; and whatever the reactor is answered,
    starting from the empty queue, no two entries of the queue ever have
    the same address. *)
Theorem socks_enqueue_one_entry_per_addr :
  (forall (m : bool) (sq : SocksQueue_t) (q : queue),
     socks_get_req q (sq_addr sq) <> None -> socks_enqueue m sq q = Some q)
  /\ (forall (sq : SocksQueue_t) (q : queue),
        socks_get_req q (sq_addr sq) = None -> socks_enqueue true sq q = Some (sq :: q))
  /\ (forall (m : bool) (sq : SocksQueue_t) (q q' : queue),
        NoDup (map sq_addr q) -> socks_enqueue m sq q = Some q' ->
        NoDup (map sq_addr q'))
  /\ (forall envs : list IterEnv, NoDup (map sq_addr (socks_connector_sel envs []))).
Proof.
  drop_unused.
  split; [|split; [|split]].
  - intros m sq q H. unfold socks_enqueue.
    destruct (socks_get_req q (sq_addr sq)); [reflexivity|contradiction].
  - intros sq q H. unfold socks_enqueue. rewrite H. reflexivity.
  - apply socks_enqueue_NoDup.
  - intros envs. apply socks_connector_sel_NoDup. constructor.
Qed.

(** ** Records of the request pipe *)

(** C2 (amended).  A record of the request pipe is told by its [next] member
    first: with [next] non-NULL it triggers the dump of the queue to the
    descriptor carried in [next], that is to [next] converted to [int],
    whatever its address is; this is [next] itself when [next] is in the
    range of [int], as in the record of [print_socks_queue].  With [next]
    NULL and the unspecified address it is a pure wakeup; with [next] NULL
    and any other address it is enqueued (no second entry for a queued
    address). *)
Theorem pipe_drain_by_next_then_addr (m : bool) (next : Z) (sq : SocksQueue_t) (q : queue) :
  (next <> 0 ->
     pipe_drain m (PipeRecord next sq) q
       = Some (q, [EvDump (wrap_int next) (number_from 0 q)]))
  /\ (next <> 0 -> INT_MIN <= next <= INT_MAX ->
      pipe_drain m (PipeRecord next sq) q = Some (q, [EvDump next (number_from 0 q)]))
  /\ (next = 0 -> sq_addr sq = 0 -> pipe_drain m (PipeRecord next sq) q = Some (q, []))
  /\ (next = 0 -> sq_addr sq <> 0 ->
        pipe_drain m (PipeRecord next sq) q =
          option_map (fun q' => (q', [])) (socks_enqueue m sq q)).
Proof.
  drop_unused.
  unfold pipe_drain, IN6_IS_ADDR_UNSPECIFIED, socks_output_queue.
  split; [|split; [|split]].
  - intros H. destruct (Z.eqb_spec next 0); [contradiction|reflexivity].
  - intros H Hr. destruct (Z.eqb_spec next 0); [contradiction|]. simpl.
    rewrite (wrap_int_in_range next Hr). reflexivity.
  - intros -> Ha. rewrite Ha. reflexivity.
  - intros -> Ha. simpl. destruct (Z.eqb_spec (sq_addr sq) 0); [contradiction|reflexivity].
Qed.

(** ** The name of the peer *)

Lemma get_hostname_miss (hosts : hosts_dir) (sq : SocksQueue_t) (onion : option string)
    (size : nat) :
  hosts_lookup cfg = false \/ hosts (sq_addr sq) = None ->
  fst (get_hostname hosts sq onion size) = -1.
Proof.
  drop_unused.
  unfold get_hostname. intros [H|H].
  - rewrite H. destruct onion; reflexivity.
  - rewrite H. destruct (hosts_lookup cfg); destruct onion; reflexivity.
Qed.

Lemma get_hostname_buffer (hosts : hosts_dir) (sq : SocksQueue_t) (buf : string)
    (size : nat) :
  let r := get_hostname hosts sq (Some buf) size in
  (exists name, snd r = Some name)
  /\ (fst r = -1 <-> hosts_lookup cfg = false \/ hosts (sq_addr sq) = None)
  /\ (fst r = -1 ->
      snd r = Some (strlcat (ipv6tonion (sq_addr sq)) (domain cfg) size))
  /\ (fst r <> -1 ->
      exists rc name, hosts (sq_addr sq) = Some (rc, name) /\ snd r = Some name).
Proof.
  drop_unused.
  unfold get_hostname.
  destruct (hosts_lookup cfg) eqn:Hl.
  - destruct (hosts (sq_addr sq)) as [[rc name]|] eqn:Hh; simpl.
    + assert (Hrc : (Z.of_nat rc =? -1) = false) by (apply Z.eqb_neq; lia).
      rewrite Hrc. simpl. repeat split.
      * exists name. reflexivity.
      * intros H. lia.
      * intros [H|H]; discriminate H.
      * intros H. lia.
      * intros _. exists rc, name. split; reflexivity.
    + repeat split; try (intros; reflexivity).
      * eexists. reflexivity.
      * intros _. right. reflexivity.
      * intros H. contradiction H. reflexivity.
  - simpl. repeat split; try (intros; reflexivity).
    + eexists. reflexivity.
    + intros _. left. reflexivity.
    + intros H. contradiction H. reflexivity.
Qed.

Lemma phaseA_connect_direct_skip (t : Z) (e : PhaseAEnv) (squeue : SocksQueue_t)
    (fds : fdsets) (evs : list event) :
  socks5 cfg = CONNTYPE_DIRECT ->
  fst (get_hostname (pa_hosts e) squeue (Some EmptyString) NI_MAXHOST) = -1 ->
  phaseA_connect t e squeue fds evs = (squeue, fds, evs).
Proof.
  drop_unused.
  intros Hd Hr. unfold phaseA_connect. rewrite Hd, Hr. reflexivity.
Qed.

Arguments int_incr : simpl never.

Lemma phaseA_entry_direct_no_connect (t : Z) (e : PhaseAEnv) (squeue : SocksQueue_t)
    (fds : fdsets) :
  socks5 cfg = CONNTYPE_DIRECT ->
  hosts_lookup cfg = false \/ pa_hosts e (sq_addr squeue) = None ->
  sq_state (fst (fst (phaseA_entry t e squeue fds))) <> SOCKS_CONNECTING
  /\ connect_attempts (snd (phaseA_entry t e squeue fds)) = 0%nat.
Proof.
  drop_unused.
  intros Hd Hm.
  assert (Hskip : forall s fds' evs, sq_addr s = sq_addr squeue ->
            phaseA_connect t e s fds' evs = (s, fds', evs)).
  { intros s fds' evs Ha. apply phaseA_connect_direct_skip; [exact Hd|].
    apply get_hostname_miss. rewrite Ha. exact Hm. }
  unfold phaseA_entry.
  destruct (sq_state squeue) eqn:Est; simpl;
    try (split; [congruence | reflexivity]).
  - unfold phaseA_new.
    repeat (break_match; simpl in *; subst);
      try rewrite Hskip in * by (try reflexivity;
        match goal with
        | H : socks_dns_req ?e0 ?s0 = (_, ?s1, _) |- sq_addr ?s1 = _ =>
            pose proof (socks_dns_req_addr e0 s0) as [Hx _]; rewrite H in Hx;
            simpl in Hx; exact Hx
        end);
      simpl; try (split; [congruence | reflexivity]).
    all: match goal with
         | H : socks_dns_req _ _ = _ |- _ =>
             unfold socks_dns_req in H; revert H;
             repeat (break_match; simpl in *; subst); intros H; inversion H; subst;
             simpl; rewrite ?Est; split; try congruence; try reflexivity
         end.
  - unfold socks_reset. repeat (break_match; simpl in *; subst);
      split; try congruence; reflexivity.
  - unfold phaseA_dns_sent, dns_fallback, socks_dns_req.
    repeat (break_match; simpl in *; subst); rewrite ?Est;
      split; try congruence; try reflexivity.
  - unfold socks_reset. repeat (break_match; simpl in *; subst);
      split; try congruence; reflexivity.
Qed.

(** C10.  With a buffer, [get_hostname] always leaves a name in it, whatever
    the buffer held before: the name [hosts_get_name] stored when the hosts
    lookup succeeds, and the derived name [ipv6tonion] plus the configured
    domain whenever it does not; and it returns [-1] in exactly the latter
    cases.  So in DIRECT mode the [SOCKS_NEW] handler, which reads [-1] as
    "no valid destination name", makes no connect although the buffer
    holds the derived name. *)
Theorem get_hostname_minus_one_with_fallback :
  (forall (hosts : hosts_dir) (sq : SocksQueue_t) (buf : string) (size : nat),
     let r := get_hostname hosts sq (Some buf) size in
     (exists name, snd r = Some name)
     /\ (fst r = -1 <-> hosts_lookup cfg = false \/ hosts (sq_addr sq) = None)
     /\ (fst r = -1 ->
         snd r = Some (strlcat (ipv6tonion (sq_addr sq)) (domain cfg) size))
     /\ (fst r <> -1 ->
         exists (rc : nat) (name : string),
           hosts (sq_addr sq) = Some (rc, name) /\ fst r = Z.of_nat rc
           /\ snd r = Some name)
     /\ snd r
        = Some (match (if hosts_lookup cfg then hosts (sq_addr sq) else None) with
                | Some (_, name) => name
                | None => strlcat (ipv6tonion (sq_addr sq)) (domain cfg) size
                end))
  /\ (forall (t : Z) (e : PhaseAEnv) (squeue : SocksQueue_t) (fds : fdsets)
        (evs : list event),
        socks5 cfg = CONNTYPE_DIRECT ->
        fst (get_hostname (pa_hosts e) squeue (Some EmptyString) NI_MAXHOST) = -1 ->
        snd (get_hostname (pa_hosts e) squeue (Some EmptyString) NI_MAXHOST)
          = Some (strlcat (ipv6tonion (sq_addr squeue)) (domain cfg) NI_MAXHOST)
        /\ phaseA_connect t e squeue fds evs = (squeue, fds, evs))
  /\ (forall (t : Z) (e : PhaseAEnv) (squeue : SocksQueue_t) (fds : fdsets),
        socks5 cfg = CONNTYPE_DIRECT ->
        hosts_lookup cfg = false \/ pa_hosts e (sq_addr squeue) = None ->
        sq_state (fst (fst (phaseA_entry t e squeue fds))) <> SOCKS_CONNECTING
        /\ connect_attempts (snd (phaseA_entry t e squeue fds)) = 0%nat).
Proof.
  drop_unused.
  split; [|split].
  - intros hosts sq buf size.
    destruct (get_hostname_buffer hosts sq buf size) as (H1 & H2 & H3 & _).
    split; [exact H1|]. split; [exact H2|]. split; [exact H3|].
    unfold get_hostname. destruct (hosts_lookup cfg).
    + destruct (hosts (sq_addr sq)) as [[rc name]|]; cbn [fst snd option_map is_some].
      * assert (Hrc : (Z.of_nat rc =? -1) = false) by (apply Z.eqb_neq; lia).
        rewrite Hrc. cbn [andb fst snd]. split; [|reflexivity].
        intros _. exists rc, name. repeat split.
      * cbn [Z.eqb andb fst snd]. split; [|reflexivity].
        intros H. contradiction H. reflexivity.
    + cbn [Z.eqb andb fst snd is_some]. split; [|reflexivity].
      intros H. contradiction H. reflexivity.
  - intros t e squeue fds evs Hd Hr. split.
    + destruct (get_hostname_buffer (pa_hosts e) squeue EmptyString NI_MAXHOST)
        as (_ & _ & H3 & _). apply H3. exact Hr.
    + apply phaseA_connect_direct_skip; assumption.
  - apply phaseA_entry_direct_no_connect.
Qed.

(** ** Connection attempts of a temporary entry *)

Lemma connect_attempts_app (a b : list event) :
  connect_attempts (a ++ b) = (connect_attempts a + connect_attempts b)%nat.
Proof.
  drop_unused. unfold connect_attempts. rewrite filter_app, length_app. reflexivity. Qed.

Lemma socks_reset_frame (s : SocksQueue_t) :
  sq_retry (fst (socks_reset s)) = sq_retry s
  /\ sq_state (fst (socks_reset s)) = SOCKS_NEW
  /\ connect_attempts (snd (socks_reset s)) = 0%nat.
Proof.
  drop_unused. unfold socks_reset. destruct (sq_fd s >? 0); repeat split. Qed.

Lemma socks_reschedule_keeps_retry (now : Z) (s : SocksQueue_t) :
  sq_retry (fst (socks_reschedule now s)) = sq_retry s
  /\ sq_state (fst (socks_reschedule now s)) = SOCKS_NEW
  /\ connect_attempts (snd (socks_reschedule now s)) = 0%nat.
Proof.
  drop_unused. unfold socks_reschedule, socks_reset. destruct (sq_fd s >? 0); repeat split. Qed.

Lemma socks_dns_req_frame (e : PhaseAEnv) (s : SocksQueue_t) :
  sq_retry (snd (fst (socks_dns_req e s))) = sq_retry s
  /\ sq_state (snd (fst (socks_dns_req e s))) = sq_state s
  /\ sq_fd (snd (fst (socks_dns_req e s))) = sq_fd s
  /\ connect_attempts (snd (socks_dns_req e s)) = 0%nat.
Proof.
  drop_unused.
  unfold socks_dns_req. destruct (pa_get_ns e) as [[ns src]|]; [|repeat split].
  destruct (pa_sendto e =? -1); repeat split.
Qed.

Lemma attempts_inv_new (s : SocksQueue_t) (n : nat) :
  sq_perm s = 0 -> sq_state s = SOCKS_NEW \/ sq_state s = SOCKS_CONNECTING ->
  Z.of_nat n <= sq_retry s -> sq_retry s <= Z.max SOCKS_MAX_RETRY 1 ->
  Z.of_nat n <= SOCKS_MAX_RETRY ->
  attempts_inv s n.
Proof.
  drop_unused.
  intros Hp Hs H1 H2 H3. unfold attempts_inv. split; [exact Hp|].
  destruct Hs as [Hs|Hs]; rewrite Hs; repeat split; assumption.
Qed.

Lemma phaseA_connect_attempts (t : Z) (e : PhaseAEnv) (fds : fdsets) (s : SocksQueue_t)
    (evs0 : list event) (n : nat) :
  sq_perm s = 0 -> sq_state s = SOCKS_NEW ->
  Z.of_nat n + 1 <= sq_retry s -> sq_retry s <= SOCKS_MAX_RETRY ->
  connect_attempts evs0 = 0%nat ->
  attempts_inv (fst (fst (phaseA_connect t e s fds evs0)))
               (n + connect_attempts (snd (phaseA_connect t e s fds evs0))).
Proof.
  drop_unused.
  intros Hp Hs Hn Hr He0. unfold phaseA_connect.
  destruct (negb _).
  { simpl. rewrite He0. apply attempts_inv_new; auto; lia. }
  destruct (sq_fd (set_fd (pa_tcp_socket e) s) =? -1).
  { simpl. rewrite He0. apply attempts_inv_new; simpl; auto; lia. }
  destruct (socks_tcp_connect (pa_connect e) =? -1).
  - pose proof (socks_reschedule_keeps_retry (pa_time e)
                  (set_connect_time t (set_fd (pa_tcp_socket e) s))) as (Hr1 & Hs1 & Hc1).
    pose proof (socks_reschedule_addr (pa_time e)
                  (set_connect_time t (set_fd (pa_tcp_socket e) s))) as (_ & Hp1).
    destruct (socks_reschedule _ _) as [s3 evs3]. simpl in *.
    rewrite !connect_attempts_app, He0, Hc1. unfold connect_attempts. simpl.
    apply attempts_inv_new; try lia; auto; congruence.
  - simpl. rewrite connect_attempts_app, He0. unfold connect_attempts. simpl.
    apply attempts_inv_new; simpl; auto; lia.
Qed.

Lemma phaseA_new_attempts (t : Z) (e : PhaseAEnv) (fds : fdsets) (s : SocksQueue_t)
    (n : nat) :
  0 <= SOCKS_MAX_RETRY < INT_MAX - 1 ->
  sq_perm s = 0 -> sq_state s = SOCKS_NEW ->
  Z.of_nat n <= sq_retry s -> sq_retry s <= Z.max SOCKS_MAX_RETRY 1 ->
  Z.of_nat n <= SOCKS_MAX_RETRY ->
  attempts_inv (fst (fst (phaseA_new t e s fds)))
               (n + connect_attempts (snd (phaseA_new t e s fds))).
Proof.
  drop_unused.
  intros Hmax Hp Hs Hn Hr Hm.
  assert (Hincr : int_incr (sq_retry s) = sq_retry s + 1)
    by (apply int_incr_exact; unfold INT_MIN, INT_MAX in *; lia).
  unfold phaseA_new. rewrite Hincr.
  destruct (t <? sq_restart_time s).
  { simpl. rewrite Nat.add_0_r. apply attempts_inv_new; auto. }
  set (s1 := set_retry (sq_retry s + 1) s).
  destruct ((sq_perm s1 =? 0) && (sq_retry s1 >? SOCKS_MAX_RETRY)) eqn:Hdel.
  { simpl. rewrite Nat.add_0_r. unfold attempts_inv. simpl. split; [exact Hp|exact Hm]. }
  assert (Hle : sq_retry s + 1 <= SOCKS_MAX_RETRY).
  { simpl in Hdel. rewrite Hp in Hdel. simpl in Hdel. rewrite Z.gtb_ltb in Hdel.
    apply Z.ltb_ge in Hdel. exact Hdel. }
  destruct (dns_lookup cfg && _ && (sq_retry s1 <=? 1)) eqn:Hdns.
  - apply andb_true_iff in Hdns. destruct Hdns as [_ Hone]. apply Z.leb_le in Hone.
    simpl in Hone. assert (Hn0 : n = 0%nat) by lia. subst n.
    destruct (negb (sq_fd (set_fd (pa_udp_socket e) s1) =? -1)).
    + pose proof (socks_dns_req_frame e (set_id (pa_rand e) (set_fd (pa_udp_socket e) s1)))
        as (Hr4 & Hs4 & _ & Hc4).
      pose proof (socks_dns_req_addr e (set_id (pa_rand e) (set_fd (pa_udp_socket e) s1)))
        as (_ & Hp4).
      destruct (socks_dns_req e _) as [[r s4] evs]. simpl in Hr4, Hs4, Hc4, Hp4.
      destruct (negb (r =? -1)).
      * simpl. unfold attempts_inv. simpl. split; [congruence|]. rewrite Hc4. reflexivity.
      * apply phaseA_connect_attempts; try congruence; try lia.
        rewrite connect_attempts_app, Hc4. reflexivity.
    + apply phaseA_connect_attempts; simpl; auto; lia.
  - apply phaseA_connect_attempts; simpl; auto; lia.
Qed.

Lemma phaseA_entry_attempts (t : Z) (e : PhaseAEnv) (fds : fdsets) (s : SocksQueue_t)
    (n : nat) :
  0 <= SOCKS_MAX_RETRY < INT_MAX - 1 ->
  attempts_inv s n ->
  attempts_inv (fst (fst (phaseA_entry t e s fds)))
               (n + connect_attempts (snd (phaseA_entry t e s fds))).
Proof.
  drop_unused.
  intros Hmax [Hperm Hst]. unfold phaseA_entry.
  assert (Hreset : Z.of_nat n <= sq_retry s /\ sq_retry s <= Z.max SOCKS_MAX_RETRY 1
                   /\ Z.of_nat n <= SOCKS_MAX_RETRY ->
            attempts_inv (fst (fst (let '(s0, evs) := socks_reset s in (s0, fds, evs))))
              (n + connect_attempts
                     (snd (let '(s0, evs) := socks_reset s in (s0, fds, evs))))).
  { intros (H1 & H2 & H3).
    pose proof (socks_reset_frame s) as (Hr1 & Hs1 & Hc1).
    pose proof (socks_reset_addr s) as (_ & Hp1).
    destruct (socks_reset s) as [s0 evs]. simpl in *. rewrite Hc1, Nat.add_0_r.
    apply attempts_inv_new; auto; congruence. }
  assert (Hsame : attempts_inv s (n + connect_attempts [])).
  { simpl. rewrite Nat.add_0_r. split; assumption. }
  destruct (sq_state s) eqn:Est; try exact Hsame; try (apply Hreset; exact Hst).
  - destruct Hst as (H1 & H2 & H3). apply phaseA_new_attempts; auto.
  - subst n. unfold phaseA_dns_sent, dns_fallback.
    destruct (t <? sq_restart_time s); [exact Hsame|].
    destruct (sq_retry s <? SOCKS_DNS_RETRY).
    + pose proof (socks_dns_req_frame e s) as (Hr4 & Hs4 & _ & Hc4).
      pose proof (socks_dns_req_addr e s) as (_ & Hp4).
      destruct (socks_dns_req e s) as [[r s1] evs]. simpl in Hr4, Hs4, Hc4, Hp4.
      destruct (negb (r =? -1)); simpl.
      * unfold attempts_inv. simpl. rewrite Hs4, Est, Hc4. split; [congruence|reflexivity].
      * rewrite connect_attempts_app, Hc4. simpl.
        apply attempts_inv_new; simpl; auto; try lia; congruence.
    + unfold connect_attempts. simpl. apply attempts_inv_new; simpl; auto; lia.
Qed.

Lemma connect_attempts_none (evs : list event) :
  no_connect evs -> connect_attempts evs = 0%nat.
Proof.
  drop_unused. intros H. exact H. Qed.

Lemma dispatch_entry_attempts (e : DispEnv) (rs ws : fd_set) (k k' : Z)
    (s s' : SocksQueue_t) (evs : list event) (n : nat) :
  0 <= SOCKS_MAX_RETRY < INT_MAX - 1 ->
  attempts_inv s n ->
  dispatch_entry e rs ws s k = Some (s', k', evs) ->
  attempts_inv s' (n + connect_attempts evs).
Proof.
  drop_unused.
  intros Hmax Hinv H. unfold dispatch_entry in H.
  pose proof (dispatch_write_spec e ws s k) as Hw.
  assert (Hstep1 : forall s1 evs1,
            no_connect evs1 -> sq_perm s1 = sq_perm s -> sq_retry s1 = sq_retry s ->
            s1 = s \/ (sq_state s = SOCKS_CONNECTING /\
                       (sq_state s1 = SOCKS_NEW \/ sq_state s1 = SOCKS_4AREQ_SENT \/
                        sq_state s1 = SOCKS_5GREET_SENT \/ sq_state s1 = SOCKS_DELETE)) ->
            attempts_inv s1 (n + connect_attempts evs1)).
  { intros s1 evs1 Hc Hp Hr Hcase. rewrite (connect_attempts_none _ Hc), Nat.add_0_r.
    destruct Hcase as [->|[Hs Hs1]]; [exact Hinv|].
    destruct Hinv as [Hperm Hst]. rewrite Hs in Hst. destruct Hst as (H1 & H2 & H3).
    unfold attempts_inv. rewrite Hp, Hr. split; [exact Hperm|].
    destruct Hs1 as [Hx|[Hx|[Hx|Hx]]]; rewrite Hx; auto. }
  destruct (dispatch_write e ws s k) as [[[s1 n1] evs1]|[[s1 n1] evs1]|];
    [| |discriminate H].
  - destruct Hw as (Hc & _ & Hp & Hr & Hcase). inversion H; subst.
    apply Hstep1; assumption.
  - destruct Hw as (Hc & _ & Hp & Hr & Hcase).
    specialize (Hstep1 s1 evs1 Hc Hp Hr Hcase).
    rewrite (connect_attempts_none _ Hc), Nat.add_0_r in Hstep1.
    pose proof (dispatch_read_spec e rs s1 n1 evs1) as ((evs2 & He2 & Hc2) & _ & Hp2 & Hcase2).
    inversion H as [Hr2]. rewrite Hr2 in He2, Hp2, Hcase2. simpl in He2, Hp2, Hcase2.
    subst evs. rewrite connect_attempts_app, (connect_attempts_none _ Hc),
      (connect_attempts_none _ Hc2), !Nat.add_0_r.
    destruct Hstep1 as [Hperm1 Hst1].
    destruct Hcase2 as [->|[[Hs Hs2]|(Hn1 & Hn2 & Hr3 & Hs2)]].
    + split; assumption.
    + rewrite Hs in Hst1. subst n. unfold attempts_inv. split; [congruence|].
      destruct Hs2 as [Hx|[Hx Hy]]; rewrite Hx; simpl; try rewrite Hy; lia.
    + unfold attempts_inv. split; [congruence|]. rewrite Hr3.
      destruct (sq_state s1); try contradiction;
        destruct Hst1 as (H1 & H2 & H3);
        destruct Hs2 as [Hx|[Hx|Hx]]; rewrite Hx; auto.
Qed.

Lemma entry_step_attempts (op : entry_op) (s s' : SocksQueue_t) (evs : list event)
    (n : nat) :
  0 <= SOCKS_MAX_RETRY < INT_MAX - 1 ->
  attempts_inv s n ->
  entry_step op s = Some (s', evs) ->
  attempts_inv s' (n + connect_attempts evs).
Proof.
  drop_unused.
  intros Hmax Hinv H. destruct op as [t e fds | e rs ws k]; simpl in H.
  - pose proof (phaseA_entry_attempts t e fds s n Hmax Hinv) as Ha.
    destruct (phaseA_entry t e s fds) as [[s1 fds1] evs1]. inversion H; subst. exact Ha.
  - destruct (dispatch_entry e rs ws s k) as [[[s1 k1] evs1]|] eqn:Hd; [|discriminate H].
    inversion H; subst. apply (dispatch_entry_attempts _ _ _ _ _ _ _ _ _ Hmax Hinv Hd).
Qed.

Lemma entry_run_attempts (ops : list entry_op) :
  0 <= SOCKS_MAX_RETRY < INT_MAX - 1 ->
  forall (s : SocksQueue_t) (n : nat),
    attempts_inv s n ->
    attempts_inv (fst (entry_run ops s)) (n + connect_attempts (snd (entry_run ops s))).
Proof.
  drop_unused.
  intros Hmax. induction ops as [|op ops IH]; intros s n Hinv; simpl.
  - rewrite Nat.add_0_r. exact Hinv.
  - destruct (entry_step op s) as [[s1 evs1]|] eqn:Hs.
    + specialize (IH s1 _ (entry_step_attempts _ _ _ _ _ Hmax Hinv Hs)).
      destruct (entry_run ops s1) as [s2 evs2]. simpl in *.
      rewrite connect_attempts_app, Nat.add_assoc. exact IH.
    + simpl. rewrite Nat.add_0_r. exact Hinv.
Qed.

Lemma attempts_inv_bound (s : SocksQueue_t) (n : nat) :
  0 <= SOCKS_MAX_RETRY -> attempts_inv s n -> Z.of_nat n <= SOCKS_MAX_RETRY.
Proof.
  drop_unused.
  intros Hmax [_ Hst]. destruct (sq_state s); try lia.
Qed.

(** The reactor treats each entry through the per-entry steps: an entry of
    the queue after an iteration is an entry of the queue before it (or
    the record just read from the pipe) after at most a scan step and a
    dispatch step. *)
Lemma phaseA_loop_nth (t : Z) (envs : nat -> PhaseAEnv) (q : queue) :
  forall (i : nat) (fds : fdsets) (k : nat) (s1 : SocksQueue_t),
    nth_error (fst (fst (phaseA_loop t envs i q fds))) k = Some s1 ->
    exists (s : SocksQueue_t) (fds' : fdsets),
      nth_error q k = Some s
      /\ s1 = fst (fst (phaseA_entry t (envs (i + k)%nat) s fds')).
Proof.
  drop_unused.
  induction q as [|s q IH]; intros i fds k s1 H; simpl in H.
  - destruct k; discriminate H.
  - destruct (phaseA_entry t (envs i) s fds) as [[s0 fds0] evs0] eqn:He.
    specialize (IH (S i) fds0).
    destruct (phaseA_loop t envs (S i) q fds0) as [[q0 fds1] evs1]. simpl in H, IH.
    destruct k as [|k]; simpl in H.
    + inversion H; subst. exists s, fds. split; [reflexivity|].
      rewrite Nat.add_0_r, He. reflexivity.
    + destruct (IH k s1 H) as (s2 & fds2 & Hn & Hs). exists s2, fds2.
      split; [exact Hn|]. rewrite Nat.add_succ_r. exact Hs.
Qed.

Lemma dispatch_loop_nth (envs : nat -> DispEnv) (rs ws : fd_set) (q : queue) :
  forall (i : nat) (n : Z) (q' : queue) (evs : list event) (k : nat) (s' : SocksQueue_t),
    dispatch_loop envs i rs ws q n = Some (q', evs) ->
    nth_error q' k = Some s' ->
    exists s : SocksQueue_t,
      nth_error q k = Some s
      /\ (s' = s \/
          exists (n' : Z) (r : SocksQueue_t * Z * list event),
            dispatch_entry (envs (i + k)%nat) rs ws s n' = Some r /\ s' = fst (fst r)).
Proof.
  drop_unused.
  induction q as [|s q IH]; intros i n q' evs k s' H Hn; simpl in H.
  - inversion H; subst. destruct k; discriminate Hn.
  - destruct (n =? 0).
    { inversion H; subst. exists s'. split; [exact Hn | left; reflexivity]. }
    destruct (dispatch_entry (envs i) rs ws s n) as [[[s0 n0] evs0]|] eqn:He;
      [|discriminate H].
    destruct (dispatch_loop envs (S i) rs ws q n0) as [[q0 evs1]|] eqn:Hl;
      [|discriminate H].
    inversion H; subst. destruct k as [|k]; simpl in Hn.
    + inversion Hn; subst. exists s. split; [reflexivity|]. right.
      exists n, (s', n0, evs0). rewrite Nat.add_0_r. split; [exact He | reflexivity].
    + destruct (IH (S i) n0 q0 evs1 k s' Hl Hn) as (s2 & Hn2 & Hs2).
      exists s2. split; [exact Hn2|]. rewrite Nat.add_succ_r. exact Hs2.
Qed.

Lemma reap_loop_incl (q : queue) (i : nat) (s : SocksQueue_t) :
  In s (reap_loop q i) -> In s q.
Proof.
  drop_unused.
  apply (reap_loop_elim (fun q _ r => In s r -> In s q)); clear q i.
  - intros q i _ _ H. exact H.
  - intros q i squeue _ _ IH _ _ H. apply IH. exact H.
  - intros q i _ squeue _ _ _ _ _ [].
  - intros q i first rest Hunq squeue _ _ IH _ _ _ H.
    specialize (IH H). rewrite <- Hunq in IH. clear - IH.
    revert i IH. induction q as [|x q IHq]; intros i H; simpl in H; [exact H|].
    destruct i as [|i]; [right; exact H|].
    destruct H as [H|H]; [left; exact H | right; apply (IHq i H)].
Qed.

Lemma socks_connector_iter_by_entry_steps (e : IterEnv) (q q' : queue)
    (evs : list event) :
  socks_connector_iter e q = IterDone q' evs ->
  forall s' : SocksQueue_t,
    In s' q' ->
    exists (s : SocksQueue_t) (ops : list entry_op),
      (In s q \/ exists next, ie_pipe e = PipeRecord next s)
      /\ (List.length ops <= 2)%nat
      /\ fst (entry_run ops s) = s'.
Proof.
  drop_unused.
  unfold socks_connector_iter. intros H s' Hin.
  destruct (ie_term_req e); [discriminate H|].
  pose proof (phaseA_loop_nth (ie_time e) (ie_phaseA e) q 0
                (MFD_SET_r (socksfd0 cfg) (mk_fdsets [] [] 0))) as Hscan.
  destruct (phaseA_loop _ _ _ _ _) as [[q1 fds1] evs1]. simpl in Hscan.
  destruct (ie_select_error e); [discriminate H|].
  set (rs := filter (ie_ready_r e) (rset fds1)) in *.
  set (ws := filter (ie_ready_w e) (wset fds1)) in *.
  set (n := Z.of_nat (List.length rs + List.length ws)) in *.
  assert (Hq2 : exists q2 n2 q3 evs3,
            dispatch_loop (ie_dispatch e) 0 rs ws q2 n2 = Some (q3, evs3)
            /\ q' = reap_loop q3 0
            /\ (forall s2, In s2 q2 ->
                  In s2 q1 \/ exists next, ie_pipe e = PipeRecord next s2)).
  { destruct (FD_ISSET (socksfd0 cfg) rs).
    - destruct (pipe_drain (ie_malloc e) (ie_pipe e) q1) as [[q2 evs2]|] eqn:Hp;
        simpl in H; [|discriminate H].
      destruct (dispatch_loop (ie_dispatch e) 0 rs ws q2 (n - 1)) as [[q3 evs3]|] eqn:Hd;
        [|discriminate H].
      inversion H; subst. exists q2, (n - 1), q3, evs3.
      split; [exact Hd|]. split; [reflexivity|].
      intros s2 Hs2. unfold pipe_drain in Hp.
      destruct (ie_pipe e) as [|m|next sq]; try (inversion Hp; subst; left; exact Hs2).
      destruct (negb (next =? 0)); [inversion Hp; subst; left; exact Hs2|].
      destruct (IN6_IS_ADDR_UNSPECIFIED (sq_addr sq));
        [inversion Hp; subst; left; exact Hs2|].
      unfold socks_enqueue in Hp.
      destruct (socks_get_req q1 (sq_addr sq)); [inversion Hp; subst; left; exact Hs2|].
      destruct (ie_malloc e); [|discriminate Hp]. inversion Hp; subst.
      destruct Hs2 as [<-|Hs2]; [right; exists next; reflexivity | left; exact Hs2].
    - destruct (dispatch_loop (ie_dispatch e) 0 rs ws q1 n) as [[q3 evs3]|] eqn:Hd;
        [|discriminate H].
      inversion H; subst. exists q1, n, q3, evs3.
      split; [exact Hd|]. split; [reflexivity|]. intros s2 Hs2. left. exact Hs2. }
  destruct Hq2 as (q2 & n2 & q3 & evs3 & Hd & -> & Hfrom).
  apply reap_loop_incl in Hin. apply In_nth_error in Hin. destruct Hin as [k Hk].
  destruct (dispatch_loop_nth _ _ _ _ _ _ _ _ _ _ Hd Hk) as (s2 & Hk2 & Hstep).
  assert (Hdisp : exists ops, (List.length ops <= 1)%nat /\ fst (entry_run ops s2) = s').
  { destruct Hstep as [->|(n' & r & Hr & ->)].
    - exists []. split; [simpl; lia | reflexivity].
    - exists [OpDispatch (ie_dispatch e (0 + k)%nat) rs ws n'].
      split; [simpl; lia|]. simpl in *. rewrite Hr. destruct r as [[s3 n3] evs4].
      reflexivity. }
  destruct Hdisp as (ops & Hlen & Hrun).
  destruct (Hfrom s2 (nth_error_In _ _ Hk2)) as [Hin1|Hpipe].
  - apply In_nth_error in Hin1. destruct Hin1 as [j Hj].
    destruct (Hscan j s2 Hj) as (s0 & fds' & Hj0 & Hs0).
    exists s0, (OpScan (ie_time e) (ie_phaseA e (0 + j)%nat) fds' :: ops).
    split; [left; apply (nth_error_In _ _ Hj0)|]. split; [simpl; lia|].
    simpl. destruct (phaseA_entry _ _ _ _) as [[s4 fds4] evs4]. simpl in Hs0. subst s4.
    destruct (entry_run ops s2). simpl in *. exact Hrun.
  - exists s2, ops. split; [right; exact Hpipe|]. split; [lia | exact Hrun].
Qed.

(** C4.  A connection attempt is a call of [connect()] ([EvConnect]).  For a
    temporary entry ([perm] = 0) that enters the queue as [socks_queue]
    posts it (state [SOCKS_NEW], retry 0), whatever the reactor does to it
    and whatever it is answered, DNS probe included, the number of
    connection attempts is at most [SOCKS_MAX_RETRY + 1]. *)
Theorem temporary_entry_attempts_bounded :
  0 <= SOCKS_MAX_RETRY < INT_MAX - 1 ->
  forall (ops : list entry_op) (squeue : SocksQueue_t),
    sq_perm squeue = 0 -> sq_state squeue = SOCKS_NEW -> sq_retry squeue = 0 ->
    Z.of_nat (connect_attempts (snd (entry_run ops squeue))) <= SOCKS_MAX_RETRY + 1.
Proof.
  drop_unused.
  intros Hmax ops squeue Hp Hs Hr.
  assert (Hinv : attempts_inv squeue 0).
  { unfold attempts_inv. rewrite Hs, Hr. split; [exact Hp|]. lia. }
  pose proof (entry_run_attempts ops Hmax squeue 0%nat Hinv) as H.
  apply attempts_inv_bound in H; [|lia]. simpl in H. lia.
Qed.

(** ** Fallback after the DNS probe *)

Lemma phaseA_dns_fallback_effect (t : Z) (e : PhaseAEnv) (squeue : SocksQueue_t)
    (fds : fdsets) :
  sq_state squeue = SOCKS_DNS_SENT ->
  sq_restart_time squeue <= t ->
  SOCKS_DNS_RETRY <= sq_retry squeue \/ fst (fst (socks_dns_req e squeue)) = -1 ->
  let r := phaseA_entry t e squeue fds in
  sq_state (fst (fst r)) = SOCKS_NEW
  /\ sq_restart_time (fst (fst r)) = 0
  /\ sq_retry (fst (fst r)) = 1
  /\ sq_addr (fst (fst r)) = sq_addr squeue
  /\ In (EvClose (sq_fd squeue)) (snd r)
  /\ snd (fst r) = fds.
Proof.
  drop_unused.
  intros Hs Ht Hex. unfold phaseA_entry. rewrite Hs. unfold phaseA_dns_sent.
  replace (t <? sq_restart_time squeue) with false by (symmetry; apply Z.ltb_ge; exact Ht).
  destruct (sq_retry squeue <? SOCKS_DNS_RETRY) eqn:Hlt.
  - destruct Hex as [Hex|Hex]; [apply Z.ltb_lt in Hlt; lia|].
    pose proof (socks_dns_req_frame e squeue) as (_ & _ & Hfd & _).
    pose proof (socks_dns_req_addr e squeue) as (Ha & _).
    destruct (socks_dns_req e squeue) as [[r s1] evs]. simpl in *. subst r. simpl.
    repeat split; try assumption. rewrite Hfd. apply in_or_app. right. left. reflexivity.
  - simpl. repeat split. left. reflexivity.
Qed.

Lemma phaseA_connect_no_dns (t : Z) (e : PhaseAEnv) (s : SocksQueue_t) (fds : fdsets)
    (evs0 : list event) :
  sq_state s = SOCKS_NEW -> filter is_dns_send evs0 = [] ->
  sq_state (fst (fst (phaseA_connect t e s fds evs0))) <> SOCKS_DNS_SENT
  /\ filter is_dns_send (snd (phaseA_connect t e s fds evs0)) = [].
Proof.
  drop_unused.
  intros Hs He. unfold phaseA_connect, socks_reschedule, socks_reset.
  repeat (break_match; simpl; subst); rewrite ?filter_app, ?He, ?Hs; simpl;
    split; try congruence; reflexivity.
Qed.

Lemma phaseA_new_skips_dns (t : Z) (e : PhaseAEnv) (s : SocksQueue_t) (fds : fdsets) :
  sq_state s = SOCKS_NEW -> sq_retry s = 1 ->
  sq_state (fst (fst (phaseA_entry t e s fds))) <> SOCKS_DNS_SENT
  /\ filter is_dns_send (snd (phaseA_entry t e s fds)) = [].
Proof.
  drop_unused.
  intros Hs Hr. unfold phaseA_entry. rewrite Hs. unfold phaseA_new. rewrite Hr.
  change (int_incr 1) with 2.
  destruct (t <? sq_restart_time s); [simpl; rewrite Hs; split; [congruence|reflexivity]|].
  destruct (_ && _); [simpl; split; [congruence|reflexivity]|].
  replace (sq_retry (set_retry 2 s) <=? 1) with false by reflexivity.
  rewrite andb_false_r. apply phaseA_connect_no_dns; reflexivity || exact Hs.
Qed.

Lemma phaseA_new_socks_connects (t : Z) (e : PhaseAEnv) (s : SocksQueue_t) (fds : fdsets) :
  socks5 cfg <> CONNTYPE_DIRECT ->
  sq_state s = SOCKS_NEW -> sq_retry s = 1 -> sq_restart_time s = 0 -> 0 <= t ->
  sq_perm s <> 0 \/ 2 <= SOCKS_MAX_RETRY ->
  pa_tcp_socket e <> -1 ->
  let r := phaseA_entry t e s fds in
  In (EvConnect (sq_addr s) (pa_tcp_socket e)) (snd r)
  /\ (pa_connect e <> ConnectError ->
      sq_state (fst (fst r)) = SOCKS_CONNECTING /\ sq_fd (fst (fst r)) = pa_tcp_socket e
      /\ FD_ISSET (pa_tcp_socket e) (wset (snd (fst r))) = true).
Proof.
  drop_unused.
  intros Hmode Hs Hr Hrt Ht Hbudget Hsock. unfold phaseA_entry. rewrite Hs.
  unfold phaseA_new. rewrite Hr, Hrt. change (int_incr 1) with 2.
  replace (t <? 0) with false by (symmetry; apply Z.ltb_ge; exact Ht).
  replace ((sq_perm (set_retry 2 s) =? 0) && (sq_retry (set_retry 2 s) >? SOCKS_MAX_RETRY))
    with false.
  2:{ symmetry. simpl. apply andb_false_iff. destruct Hbudget as [Hp|Hm].
      - left. apply Z.eqb_neq. exact Hp.
      - right. rewrite Z.gtb_ltb. apply Z.ltb_ge. lia. }
  replace (sq_retry (set_retry 2 s) <=? 1) with false by reflexivity.
  rewrite andb_false_r. unfold phaseA_connect.
  replace (negb match socks5 cfg with
                | CONNTYPE_DIRECT =>
                    if fst (get_hostname (pa_hosts e) (set_retry 2 s)
                              (Some EmptyString) NI_MAXHOST) =? -1
                    then false else pa_hostname_addr e
                | _ => true
                end) with false by (destruct (socks5 cfg); [reflexivity..|contradiction|reflexivity]).
  simpl. replace (pa_tcp_socket e =? -1) with false
    by (symmetry; apply Z.eqb_neq; exact Hsock).
  destruct (pa_connect e); simpl.
  - split; [left; reflexivity|]. intros _. repeat split.
    unfold FD_SET. destruct (FD_ISSET (pa_tcp_socket e) (wset fds)) eqn:Hin; [exact Hin|].
    simpl. rewrite Z.eqb_refl. reflexivity.
  - split; [left; reflexivity|]. intros _. repeat split.
    unfold FD_SET. destruct (FD_ISSET (pa_tcp_socket e) (wset fds)) eqn:Hin; [exact Hin|].
    simpl. rewrite Z.eqb_refl. reflexivity.
  - split; [|intros H; contradiction].
    destruct (socks_reschedule _ _) as [s3 evs3]. simpl. left. reflexivity.
Qed.

Lemma onion_of_miss (hosts : hosts_dir) (s : SocksQueue_t) :
  hosts_lookup cfg = false \/ hosts (sq_addr s) = None ->
  onion_of hosts s = strlcat (ipv6tonion (sq_addr s)) (domain cfg) NI_MAXHOST.
Proof.
  drop_unused.
  intros Hm. unfold onion_of.
  destruct (get_hostname_buffer hosts s EmptyString NI_MAXHOST) as (_ & _ & H3 & _).
  rewrite (H3 (get_hostname_miss hosts s _ _ Hm)). reflexivity.
Qed.

Lemma entry_step_dispatch_new (de : DispEnv) (rs ws : fd_set) (n : Z)
    (s s2 : SocksQueue_t) (evs : list event) :
  sq_state s = SOCKS_NEW -> sq_restart_time s = 0 ->
  entry_step (OpDispatch de rs ws n) s = Some (s2, evs) ->
  sq_state s2 = SOCKS_NEW /\ sq_retry s2 = sq_retry s /\ sq_restart_time s2 = 0
  /\ sq_addr s2 = sq_addr s /\ sq_perm s2 = sq_perm s.
Proof.
  drop_unused.
  intros Hs Hrt H. cbn [entry_step] in H.
  unfold dispatch_entry, dispatch_write, dispatch_read in H. rewrite Hs in H.
  destruct (FD_ISSET (sq_fd s) ws); cbn [option_map fst snd] in H;
    destruct (FD_ISSET (sq_fd s) rs); rewrite ?Hs in H; unfold socks_reset in H;
    try destruct (sq_fd s >? 0); cbn [option_map fst snd app] in H;
    inversion H; subst; simpl; repeat split; assumption || reflexivity.
Qed.

(** C8 (amended).  For an entry in [SOCKS_DNS_SENT] whose [restart_time] has
    passed and whose DNS retries are used up (or whose resend fails), the
    scan closes the UDP descriptor and sets [state = SOCKS_NEW],
    [restart_time = 0], [retry = 1]; the fd dispatch that follows leaves
    these three as they are, and the next [SOCKS_NEW] pass does not take
    the DNS branch.  In the SOCKS modes that pass, when it is due (the time
    is not negative), the entry is permanent or [2 <= SOCKS_MAX_RETRY], and
    [socket()] succeeds, connects to the proxy, and the name sent later is
    the derived one when the hosts lookup has none; in DIRECT mode without a
    hosts name the pass makes no connect. *)
Theorem dns_fallback_then_no_lookup :
  (forall (t : Z) (e : PhaseAEnv) (squeue : SocksQueue_t) (fds : fdsets),
     sq_state squeue = SOCKS_DNS_SENT ->
     sq_restart_time squeue <= t ->
     SOCKS_DNS_RETRY <= sq_retry squeue \/ fst (fst (socks_dns_req e squeue)) = -1 ->
     let r := phaseA_entry t e squeue fds in
     sq_state (fst (fst r)) = SOCKS_NEW
     /\ sq_restart_time (fst (fst r)) = 0
     /\ sq_retry (fst (fst r)) = 1
     /\ In (EvClose (sq_fd squeue)) (snd r))
  /\ (forall (t : Z) (e : PhaseAEnv) (s : SocksQueue_t) (fds : fdsets),
        sq_state s = SOCKS_NEW -> sq_retry s = 1 ->
        sq_state (fst (fst (phaseA_entry t e s fds))) <> SOCKS_DNS_SENT
        /\ filter is_dns_send (snd (phaseA_entry t e s fds)) = [])
  /\ (forall (t : Z) (e : PhaseAEnv) (s : SocksQueue_t) (fds : fdsets),
        socks5 cfg <> CONNTYPE_DIRECT ->
        sq_state s = SOCKS_NEW -> sq_retry s = 1 -> sq_restart_time s = 0 -> 0 <= t ->
        sq_perm s <> 0 \/ 2 <= SOCKS_MAX_RETRY ->
        pa_tcp_socket e <> -1 ->
        In (EvConnect (sq_addr s) (pa_tcp_socket e)) (snd (phaseA_entry t e s fds))
        /\ (forall hosts : hosts_dir,
              hosts_lookup cfg = false \/ hosts (sq_addr s) = None ->
              onion_of hosts (fst (fst (phaseA_entry t e s fds)))
                = strlcat (ipv6tonion (sq_addr s)) (domain cfg) NI_MAXHOST))
  /\ (forall (t : Z) (e : PhaseAEnv) (s : SocksQueue_t) (fds : fdsets),
        socks5 cfg = CONNTYPE_DIRECT ->
        hosts_lookup cfg = false \/ pa_hosts e (sq_addr s) = None ->
        connect_attempts (snd (phaseA_entry t e s fds)) = 0%nat)
  /\ (forall (t : Z) (e : PhaseAEnv) (squeue : SocksQueue_t) (fds : fdsets)
        (de : DispEnv) (rs ws : fd_set) (n : Z) (s2 : SocksQueue_t) (evs : list event)
        (t' : Z) (e' : PhaseAEnv) (fds' : fdsets),
        sq_state squeue = SOCKS_DNS_SENT ->
        sq_restart_time squeue <= t ->
        SOCKS_DNS_RETRY <= sq_retry squeue \/ fst (fst (socks_dns_req e squeue)) = -1 ->
        entry_step (OpDispatch de rs ws n) (fst (fst (phaseA_entry t e squeue fds)))
          = Some (s2, evs) ->
        sq_state s2 = SOCKS_NEW /\ sq_retry s2 = 1 /\ sq_restart_time s2 = 0
        /\ sq_addr s2 = sq_addr squeue
        /\ sq_state (fst (fst (phaseA_entry t' e' s2 fds'))) <> SOCKS_DNS_SENT
        /\ filter is_dns_send (snd (phaseA_entry t' e' s2 fds')) = []).
Proof.
  drop_unused.
  split; [|split; [|split; [|split]]].
  - intros t e squeue fds Hs Ht Hex.
    destruct (phaseA_dns_fallback_effect t e squeue fds Hs Ht Hex)
      as (H1 & H2 & H3 & _ & H5 & _).
    repeat split; assumption.
  - apply phaseA_new_skips_dns.
  - intros t e s fds Hmode Hs Hr Hrt Ht Hb Hsock. split.
    + apply (phaseA_new_socks_connects t e s fds Hmode Hs Hr Hrt Ht Hb Hsock).
    + intros hosts Hm. pose proof (phaseA_entry_addr t e s fds) as [Ha _].
      rewrite onion_of_miss by (rewrite Ha; exact Hm). rewrite Ha. reflexivity.
  - intros t e s fds Hd Hm. apply (phaseA_entry_direct_no_connect t e s fds Hd Hm).
  - intros t e squeue fds de rs ws n s2 evs t' e' fds' Hs Ht Hex Hstep.
    destruct (phaseA_dns_fallback_effect t e squeue fds Hs Ht Hex)
      as (H1 & H2 & H3 & H4 & _ & _).
    destruct (entry_step_dispatch_new de rs ws n _ s2 evs H1 H2 Hstep)
      as (Hs2 & Hr2 & Hrt2 & Ha2 & _).
    rewrite H3 in Hr2. rewrite H4 in Ha2.
    split; [exact Hs2|]. split; [exact Hr2|]. split; [exact Hrt2|].
    split; [exact Ha2|]. apply (phaseA_new_skips_dns t' e' s2 fds' Hs2 Hr2).
Qed.

(** ** The reap walk *)

(** After the walk only the head of the queue can still be marked
    [SOCKS_DELETE]: the walk resumes behind the head after every unlink. *)
Lemma reap_loop_rest_clean (q : queue) (i : nat) :
  (forall (j : nat) (s : SocksQueue_t),
     (1 <= j < i)%nat -> nth_error q j = Some s -> sq_state s <> SOCKS_DELETE) ->
  forall (j : nat) (s : SocksQueue_t),
    (1 <= j)%nat -> nth_error (reap_loop q i) j = Some s -> sq_state s <> SOCKS_DELETE.
Proof.
  drop_unused.
  apply (reap_loop_elim (fun q i r =>
    (forall (j : nat) (s : SocksQueue_t),
       (1 <= j < i)%nat -> nth_error q j = Some s -> sq_state s <> SOCKS_DELETE) ->
    forall (j : nat) (s : SocksQueue_t),
      (1 <= j)%nat -> nth_error r j = Some s -> sq_state s <> SOCKS_DELETE)); clear q i.
  - intros q i Hnone _ Hpre j s Hj Hnth.
    apply (Hpre j s); [|exact Hnth]. split; [exact Hj|].
    apply nth_error_None in Hnone.
    assert (j < List.length q)%nat by (apply nth_error_Some; congruence). lia.
  - intros q i squeue Hkeep Hcur IH _ _ Hpre. apply IH.
    intros j s Hj Hnth. destruct (Nat.eq_dec j i) as [->|Hne].
    + rewrite Hcur in Hnth. inversion Hnth; subst.
      intros Hd. rewrite <- socks_state_eqb_eq in Hd. congruence.
    + apply (Hpre j s); [lia|exact Hnth].
  - intros q i _ squeue _ _ _ _ _ _ j s _ Hnth. destruct j; discriminate Hnth.
  - intros q i first rest _ squeue _ _ IH _ _ _ _. apply IH.
    intros j s Hj. lia.
Qed.

(** ** The synchronous probe *)

Lemma synchron_body_rand_addr (e : SyncEnv) (sq : SocksQueue_t) :
  rand_addr cfg = true -> sq_state sq = SOCKS_NEW ->
  match synchron_body e sq with
  | inl (sq', evs) | inr (sq', evs) =>
      sq_state sq' = SOCKS_NEW /\ forall fd, ~ In (EvClose fd) evs
  end.
Proof.
  drop_unused.
  intros Hrand Hs. unfold synchron_body. rewrite Hs, Hrand.
  destruct (se_term_req e); [split; [exact Hs | intros fd []]|].
  simpl. destruct (se_socket e =? -1); [split; [exact Hs | intros fd []]|].
  destruct (socks_tcp_connect (se_connect e) =? 0); simpl;
    (split; [exact Hs | intros fd [H|[]]; discriminate H]).
Qed.

Lemma synchron_loop_rand_addr_state (envs : list SyncEnv) :
  rand_addr cfg = true ->
  forall (sq : SocksQueue_t) (r : SocksQueue_t * list event),
    sq_state sq = SOCKS_NEW -> synchron_loop envs sq = Some r ->
    sq_state (fst r) = SOCKS_NEW /\ forall fd, ~ In (EvClose fd) (snd r).
Proof.
  drop_unused.
  intros Hrand. induction envs as [|e envs IH]; intros sq r Hs H; simpl in H;
    rewrite Hs in H; simpl in H; [discriminate H|].
  pose proof (synchron_body_rand_addr e sq Hrand Hs) as Hb.
  destruct (synchron_body e sq) as [[sq1 evs1]|[sq1 evs1]].
  - inversion H; subst. exact Hb.
  - destruct Hb as [Hs1 Hc1].
    destruct (synchron_loop envs sq1) as [r1|] eqn:Hl; [|discriminate H].
    inversion H; subst. simpl. destruct (IH sq1 r1 Hs1 Hl) as [Hs2 Hc2].
    split; [exact Hs2|]. intros fd Hin. apply in_app_or in Hin.
    destruct Hin as [Hin|Hin]; [apply (Hc1 fd Hin) | apply (Hc2 fd Hin)].
Qed.

Lemma synchron_loop_rand_addr_returns (fails : list SyncEnv) (e : SyncEnv)
    (rest : list SyncEnv) :
  rand_addr cfg = true ->
  Forall (fun f => se_term_req f = false /\ se_socket f <> -1
                   /\ se_connect f = ConnectError) fails ->
  se_term_req e = false -> se_socket e <> -1 -> se_connect e <> ConnectError ->
  forall sq : SocksQueue_t,
    sq_state sq = SOCKS_NEW ->
    option_map (fun r => sq_fd (fst r)) (synchron_loop (fails ++ e :: rest) sq)
      = Some (se_socket e).
Proof.
  drop_unused.
  intros Hrand Hfails Ht Hsock Hconn.
  induction Hfails as [|f fails (Hft & Hfs & Hfc) _ IH]; intros sq Hs; simpl;
    rewrite Hs; simpl; unfold synchron_body; rewrite Hs.
  - rewrite Ht. simpl. replace (se_socket e =? -1) with false
      by (symmetry; apply Z.eqb_neq; exact Hsock).
    destruct (se_connect e); try contradiction; simpl; rewrite Hrand; reflexivity.
  - rewrite Hft. simpl. replace (se_socket f =? -1) with false
      by (symmetry; apply Z.eqb_neq; exact Hfs).
    rewrite Hfc. simpl. specialize (IH (set_fd (se_socket f) sq) Hs).
    destruct (synchron_loop (fails ++ e :: rest) (set_fd (se_socket f) sq)) as [r|];
      simpl in *; [exact IH | discriminate IH].
Qed.

Lemma synchron_body_loops (e : SyncEnv) (sq : SocksQueue_t) :
  rand_addr cfg = false -> se_term_req e = false -> se_socket e <> -1 ->
  exists r, synchron_body e sq = inr r.
Proof.
  drop_unused.
  intros Hrand Ht Hsock. unfold synchron_body. rewrite Ht, Hrand.
  destruct (sq_state sq); simpl;
    try replace (se_socket e =? -1) with false by (symmetry; apply Z.eqb_neq; exact Hsock);
    repeat (break_match; simpl); eexists; reflexivity.
Qed.

Lemma synchron_loop_returns_ready (envs : list SyncEnv) :
  rand_addr cfg = false ->
  Forall (fun e => se_term_req e = false /\ se_socket e <> -1) envs ->
  forall (sq : SocksQueue_t) (r : SocksQueue_t * list event),
    synchron_loop envs sq = Some r -> sq_state (fst r) = SOCKS_READY.
Proof.
  drop_unused.
  intros Hrand Henvs.
  induction Henvs as [|e envs (Ht & Hsock) _ IH]; intros sq r H; simpl in H;
    destruct (socks_state_eqb (sq_state sq) SOCKS_READY) eqn:Hst;
    try (inversion H; subst; apply socks_state_eqb_eq; exact Hst);
    try discriminate H.
  destruct (synchron_body_loops e sq Hrand Ht Hsock) as [[sq1 evs1] Hb].
  rewrite Hb in H.
  destruct (synchron_loop envs sq1) as [r1|] eqn:Hl; [|discriminate H].
  inversion H; subst. simpl. apply (IH sq1 r1 Hl).
Qed.

(** C3 (amended).  With [rand_addr] set, [synchron_socks_connect] returns
    right after the first successful connect to the proxy, skipping the
    loopback handshake, and what it returns is the descriptor of that
    connection (not [-1]), which was not closed; the state never leaves
    [SOCKS_NEW].  With [rand_addr] clear, when no termination is requested and
    [socket()] does not fail, the function returns only in state
    [SOCKS_READY]. *)
Theorem synchron_socks_connect_rand_addr :
  (rand_addr cfg = true ->
     (forall (a : in6_addr) (fails : list SyncEnv) (e : SyncEnv) (rest : list SyncEnv),
        Forall (fun f => se_term_req f = false /\ se_socket f <> -1
                         /\ se_connect f = ConnectError) fails ->
        se_term_req e = false -> se_socket e <> -1 -> se_connect e <> ConnectError ->
        synchron_socks_connect (fails ++ e :: rest) a = Some (se_socket e))
     /\ (forall (envs : list SyncEnv) (a : in6_addr) (r : SocksQueue_t * list event),
           synchron_loop envs (synchron_init a) = Some r ->
           sq_state (fst r) = SOCKS_NEW /\ forall fd, ~ In (EvClose fd) (snd r)))
  /\ (rand_addr cfg = false ->
      forall (envs : list SyncEnv) (a : in6_addr) (r : SocksQueue_t * list event),
        Forall (fun e => se_term_req e = false /\ se_socket e <> -1) envs ->
        synchron_loop envs (synchron_init a) = Some r ->
        sq_state (fst r) = SOCKS_READY /\ synchron_socks_connect envs a = Some (sq_fd (fst r))).
Proof.
  drop_unused.
  split.
  - intros Hrand. split.
    + intros a fails e rest Hfails Ht Hsock Hconn. unfold synchron_socks_connect.
      apply synchron_loop_rand_addr_returns; try assumption. reflexivity.
    + intros envs a r H.
      apply (synchron_loop_rand_addr_state envs Hrand (synchron_init a) r);
        [reflexivity|exact H].
  - intros Hrand envs a r Henvs H. split.
    + apply (synchron_loop_returns_ready envs Hrand Henvs _ r H).
    + unfold synchron_socks_connect. rewrite H. reflexivity.
Qed.

(** * Further properties *)

(** ** Codec *)

(** X1.  [socks5_greet_response] returns 0 exactly when at least two bytes
    were read and they are 5 and 0; every other outcome of the read is
    [-1]. *)
Theorem socks5_greet_response_success_iff (incoming : option (list Z)) :
  (socks5_greet_response incoming = 0 <->
   exists reply, incoming = Some reply /\ (2 <= List.length reply)%nat /\
     nth 0 reply 0 = 5 /\ nth 1 reply 0 = 0)
  /\ (socks5_greet_response incoming = 0 \/ socks5_greet_response incoming = -1).
Proof.
  drop_unused.
  unfold socks5_greet_response, sys_read, option_map.
  destruct incoming as [reply|].
  - rewrite (firstn_length_ge 2 2) by lia.
    rewrite !firstn_nth_below by lia.
    destruct (Nat.ltb_spec (List.length reply) 2) as [Hl|Hl].
    + split; [|right; reflexivity].
      split; [discriminate|]. intros (r & Hr & Hlen & _). injection Hr as <-. lia.
    + destruct (Z.eqb_spec (nth 0 reply 0) 5) as [Hv|Hv];
        destruct (Z.eqb_spec (nth 1 reply 0) 0) as [Hm|Hm]; simpl;
        (split; [|auto]);
        (split; [try discriminate; intros _; exists reply; repeat split; assumption
                | try reflexivity; intros (r & Heq & _ & H0 & H1);
                  injection Heq as <-; congruence]).
  - split; [|right; reflexivity].
    split; [discriminate|]. intros (r & Hr & _). discriminate Hr.
Qed.

Lemma bytes_of_string_length (s : string) :
  List.length (bytes_of_string s) = String.length s.
Proof.
  drop_unused.
  unfold bytes_of_string. rewrite length_map.
  induction s as [|c s IH]; simpl; [reflexivity|]. rewrite IH. reflexivity.
Qed.

Lemma htons_bytes_value (port : Z) :
  0 <= port < 65536 ->
  nth 0 (htons_bytes port) 0 * 256 + nth 1 (htons_bytes port) 0 = port
  /\ 0 <= nth 0 (htons_bytes port) 0 < 256 /\ 0 <= nth 1 (htons_bytes port) 0 < 256.
Proof.
  drop_unused.
  intros H. unfold htons_bytes. simpl.
  rewrite (Z.mod_small (port / 256)) by (split; [apply Z.div_pos; lia | apply Z.div_lt_upper_bound; lia]).
  pose proof (Z.div_mod port 256 ltac:(lia)) as Hd.
  pose proof (Z.mod_pos_bound port 256 ltac:(lia)) as Hm.
  assert (0 <= port / 256 < 256)
    by (split; [apply Z.div_pos; lia | apply Z.div_lt_upper_bound; lia]).
  lia.
Qed.

(** X2.  The SOCKS4a request is one [write] of the frame VN = 4, CD = 1, the
    destination port high byte first, the address 0.0.0.1, the user name
    and the name of the peer, each followed by a zero byte.  The length
    asked of [write] is the length of that frame, so [socks_send_request]
    returns 0 exactly when [write] reports the whole frame written, and
    [-1] otherwise (error or short write). *)
Theorem socks_send_request_frame (hosts : hosts_dir) (write_ret : Z) (sq : SocksQueue_t) :
  let frame := [4; 1] ++ htons_bytes (ocat_dest_port cfg) ++ [0; 0; 0; 1]
               ++ bytes_of_string (usrname cfg) ++ [0]
               ++ bytes_of_string (onion_of hosts sq) ++ [0] in
  snd (socks_send_request hosts write_ret sq) = [EvWrite (sq_fd sq) frame]
  /\ (socks_send_request hosts write_ret sq
        = (0, [EvWrite (sq_fd sq) frame]) <-> Z.of_nat (List.length frame) <= write_ret)
  /\ (write_ret < Z.of_nat (List.length frame) ->
      fst (socks_send_request hosts write_ret sq) = -1)
  /\ (0 <= ocat_dest_port cfg < 65536 ->
      nth 2 frame 0 * 256 + nth 3 frame 0 = ocat_dest_port cfg).
Proof.
  drop_unused.
  intros frame.
  assert (Hlen : Z.of_nat (List.length frame)
                 = Z.of_nat sizeof_SocksHdr_t + strlen (usrname cfg)
                   + strlen (onion_of hosts sq) + 2).
  { unfold frame, strlen, sizeof_SocksHdr_t, htons_bytes.
    rewrite !length_app, !bytes_of_string_length. cbn [List.length]. lia. }
  unfold socks_send_request. fold frame. rewrite <- Hlen. unfold write_result.
  clear Hlen. set (len := Z.of_nat (List.length frame)).
  split; [reflexivity|]. split; [|split].
  - destruct (Z.eqb_spec write_ret (-1)) as [He|He].
    + split; [discriminate|]. lia.
    + destruct (Z.ltb_spec write_ret len) as [Hl|Hl].
      * split; [discriminate|]. lia.
      * split; [intros _; exact Hl | reflexivity].
  - intros Hl. simpl. destruct (write_ret =? -1); [reflexivity|].
    replace (write_ret <? len) with true by (symmetry; apply Z.ltb_lt; exact Hl).
    reflexivity.
  - intros Hp. apply (htons_bytes_value _ Hp).
Qed.

(** X3.  The SOCKS5 request is one [write] of the frame 5, 1, 0, 3, a length
    byte, the name of the peer and the destination port high byte first; the
    length asked of [write] is the length of the frame.  The length byte is
    the length of the name modulo 256: it is the length of the name, and the
    name and the port can be read back from the frame at the offsets the
    length byte gives, when the name has at most 255 characters. *)
Theorem socks5_send_request_frame (hosts : hosts_dir) (write_ret : Z) (sq : SocksQueue_t) :
  let name := bytes_of_string (onion_of hosts sq) in
  let frame := [5; 1; 0; 3; strlen (onion_of hosts sq) mod 256] ++ name
               ++ htons_bytes (ocat_dest_port cfg) in
  snd (socks5_send_request hosts write_ret sq) = [EvWrite (sq_fd sq) frame]
  /\ (fst (socks5_send_request hosts write_ret sq) = 0 <->
      Z.of_nat (List.length frame) <= write_ret)
  /\ (fst (socks5_send_request hosts write_ret sq) = 0
      \/ fst (socks5_send_request hosts write_ret sq) = -1)
  /\ nth 4 frame 0 = Z.of_nat (List.length name) mod 256
  /\ ((List.length name <= 255)%nat ->
      nth 4 frame 0 = Z.of_nat (List.length name)
      /\ firstn (Z.to_nat (nth 4 frame 0)) (skipn 5 frame) = name
      /\ skipn (Z.to_nat (nth 4 frame 0)) (skipn 5 frame) = htons_bytes (ocat_dest_port cfg)).
Proof.
  drop_unused.
  intros name frame.
  assert (Hn : Z.of_nat (List.length name) = strlen (onion_of hosts sq)).
  { unfold name, strlen. rewrite bytes_of_string_length. reflexivity. }
  assert (Hlen : Z.of_nat (List.length frame)
                 = Z.of_nat sizeof_Socks5Hdr_t + strlen (onion_of hosts sq) + 2).
  { rewrite <- Hn. unfold frame, sizeof_Socks5Hdr_t, htons_bytes.
    rewrite !length_app. cbn [List.length]. lia. }
  unfold socks5_send_request. fold name. fold frame. rewrite <- Hlen. unfold write_result.
  clear Hlen. set (len := Z.of_nat (List.length frame)).
  split; [reflexivity|]. cbn [fst]. split; [|split; [|split]].
  - destruct (Z.eqb_spec write_ret (-1)) as [He|He].
    + split; [discriminate|]. lia.
    + destruct (Z.ltb_spec write_ret len) as [Hl|Hl].
      * split; [discriminate|]. lia.
      * split; [intros _; exact Hl | reflexivity].
  - destruct (write_ret =? -1); [right; reflexivity|].
    destruct (write_ret <? len); [right|left]; reflexivity.
  - unfold frame. simpl. rewrite Hn. reflexivity.
  - intros Hshort.
    assert (H4 : nth 4 frame 0 = Z.of_nat (List.length name)).
    { unfold frame. simpl. rewrite <- Hn. apply Z.mod_small. lia. }
    rewrite H4, Nat2Z.id. split; [reflexivity|].
    unfold frame. simpl skipn. split.
    + rewrite firstn_app, Nat.sub_diag, firstn_all. simpl. apply app_nil_r.
    + rewrite skipn_app, Nat.sub_diag, skipn_all. reflexivity.
Qed.


(** ** The name of the peer, again *)

Lemma string_length_append (a b : string) :
  String.length (a ++ b)%string = (String.length a + String.length b)%nat.
Proof.
  drop_unused. induction a as [|c a IH]; simpl; [reflexivity|]. rewrite IH. reflexivity. Qed.

Lemma string_length_substring (n : nat) (s : string) :
  (String.length (String.substring 0 n s) <= n)%nat.
Proof.
  drop_unused.
  revert s. induction n as [|n IH]; intros s; destruct s as [|c s]; simpl; try lia.
  specialize (IH s). lia.
Qed.

Lemma strlcat_length (dst src : string) (size : nat) :
  (String.length dst < size)%nat -> (String.length (strlcat dst src size) < size)%nat.
Proof.
  drop_unused.
  intros H. unfold strlcat.
  replace (size <=? String.length dst)%nat with false by (symmetry; apply Nat.leb_gt; exact H).
  rewrite string_length_append.
  pose proof (string_length_substring (size - 1 - String.length dst) src). lia.
Qed.

(** X4.  What [get_hostname] returns does not depend on the buffer it is
    given: the call with a [NULL] buffer, which writes nothing, returns what
    the call with a buffer returns.  When the derived name of [ipv6tonion]
    fits the buffer, the fallback name written is that name followed by as
    much of the configured domain as fits, and it fits the buffer with its
    terminator. *)
Theorem get_hostname_buffer_independent (hosts : hosts_dir) (sq : SocksQueue_t) :
  (forall (buf : string) (n m : nat),
     fst (get_hostname hosts sq None n) = fst (get_hostname hosts sq (Some buf) m))
  /\ (forall n : nat, snd (get_hostname hosts sq None n) = None)
  /\ (forall (buf : string) (size : nat),
        (String.length (ipv6tonion (sq_addr sq)) < size)%nat ->
        fst (get_hostname hosts sq (Some buf) size) = -1 ->
        exists name,
          snd (get_hostname hosts sq (Some buf) size) = Some name
          /\ (String.length name < size)%nat
          /\ String.substring 0 (String.length (ipv6tonion (sq_addr sq))) name
             = ipv6tonion (sq_addr sq)).
Proof.
  drop_unused.
  split; [|split].
  - intros buf n m. unfold get_hostname.
    destruct (hosts_lookup cfg); [|reflexivity].
    destruct (hosts (sq_addr sq)) as [[rc name]|]; simpl; [|reflexivity].
    replace (Z.of_nat rc =? -1) with false by (symmetry; apply Z.eqb_neq; lia).
    reflexivity.
  - intros n. unfold get_hostname.
    destruct (hosts_lookup cfg); [|reflexivity].
    destruct (hosts (sq_addr sq)) as [[rc name]|]; simpl; [|reflexivity].
    destruct (Z.of_nat rc =? -1); reflexivity.
  - intros buf size Hfit Hret.
    destruct (get_hostname_buffer hosts sq buf size) as (_ & _ & H3 & _).
    rewrite (H3 Hret). eexists. split; [reflexivity|]. split.
    + apply strlcat_length. exact Hfit.
    + unfold strlcat.
      replace (size <=? String.length (ipv6tonion (sq_addr sq)))%nat with false
        by (symmetry; apply Nat.leb_gt; exact Hfit).
      generalize (String.substring 0 (size - 1 - String.length (ipv6tonion (sq_addr sq)))
                    (domain cfg)).
      generalize (ipv6tonion (sq_addr sq)). clear.
      induction s as [|c s IH]; intros t; simpl.
      * destruct t; reflexivity.
      * rewrite IH. reflexivity.
Qed.

(** ** The queue as a map from addresses *)

(** X5.  After [socks_enqueue] a lookup of the address of the template
    finds the entry that was queued for it before, or else the copy of the
    template; lookups of every other address are as before. *)
Theorem socks_enqueue_then_get_req (m : bool) (sq : SocksQueue_t) (q q' : queue) :
  socks_enqueue m sq q = Some q' ->
  socks_get_req q' (sq_addr sq)
    = Some (match socks_get_req q (sq_addr sq) with Some old => old | None => sq end)
  /\ (forall a : in6_addr, a <> sq_addr sq -> socks_get_req q' a = socks_get_req q a).
Proof.
  drop_unused.
  unfold socks_enqueue. intros H.
  destruct (socks_get_req q (sq_addr sq)) as [old|] eqn:Hget.
  - inversion H; subst. rewrite Hget. split; [reflexivity|]. intros; reflexivity.
  - destruct m; [|discriminate H]. inversion H; subst.
    unfold socks_get_req, IN6_ARE_ADDR_EQUAL. simpl. rewrite Z.eqb_refl.
    split; [reflexivity|]. intros a Ha.
    replace (sq_addr sq =? a) with false by (symmetry; apply Z.eqb_neq; congruence).
    reflexivity.
Qed.

Lemma socks_get_req_some_in (q : queue) (a : in6_addr) (s : SocksQueue_t) :
  socks_get_req q a = Some s -> In s q /\ sq_addr s = a.
Proof.
  drop_unused.
  unfold socks_get_req, IN6_ARE_ADDR_EQUAL. intros H. apply find_some in H.
  destruct H as [Hin Heq]. split; [exact Hin|]. apply Z.eqb_eq. exact Heq.
Qed.

(** X6.  [socks_unqueue] of the entry at a position of the queue shortens
    the queue by that one entry; in a queue that holds each address once the
    address of the entry is then no longer found and every other address is
    found as before.  A position behind the end leaves the queue as it
    is. *)
Theorem socks_unqueue_then_get_req (q : queue) :
  forall (i : nat),
    ((List.length q <= i)%nat -> socks_unqueue i q = q)
    /\ (forall s : SocksQueue_t,
          nth_error q i = Some s ->
          S (List.length (socks_unqueue i q)) = List.length q
          /\ (NoDup (map sq_addr q) ->
              socks_get_req (socks_unqueue i q) (sq_addr s) = None
              /\ forall a, a <> sq_addr s ->
                   socks_get_req (socks_unqueue i q) a = socks_get_req q a)).
Proof.
  drop_unused.
  induction q as [|x q IH]; intros i.
  - split; [reflexivity|]. intros s H. destruct i; discriminate H.
  - destruct i as [|i].
    + split; [simpl; lia|]. intros s H. simpl in H. inversion H; subst. simpl.
      split; [reflexivity|]. intros Hnd. inversion Hnd as [|a l Hnotin Hnd']; subst.
      split; [apply socks_get_req_none; exact Hnotin|].
      intros a Ha. unfold socks_get_req, IN6_ARE_ADDR_EQUAL. simpl.
      replace (sq_addr s =? a) with false by (symmetry; apply Z.eqb_neq; congruence).
      reflexivity.
    + destruct (IH i) as [IHfar IHin]. split.
      * intros Hlen. simpl in *. rewrite IHfar by lia. reflexivity.
      * intros s H. simpl in H. destruct (IHin s H) as [Hlen Hget]. simpl.
        split; [rewrite Hlen; reflexivity|].
        intros Hnd. inversion Hnd as [|a l Hnotin Hnd']; subst.
        destruct (Hget Hnd') as [Hnone Hother].
        assert (Hx : sq_addr x <> sq_addr s).
        { intros Heq. apply Hnotin. rewrite Heq. apply in_map.
          apply (nth_error_In _ _ H). }
        unfold socks_get_req, IN6_ARE_ADDR_EQUAL in *. simpl.
        replace (sq_addr x =? sq_addr s) with false by (symmetry; apply Z.eqb_neq; exact Hx).
        split; [exact Hnone|]. intros a Ha.
        destruct (sq_addr x =? a); [reflexivity|]. apply Hother. exact Ha.
Qed.

(** ** The reap walk, again *)

Lemma socks_unqueue_filter_live (q : queue) :
  forall (i : nat) (s : SocksQueue_t),
    nth_error q i = Some s -> is_live s = false ->
    filter is_live (socks_unqueue i q) = filter is_live q.
Proof.
  drop_unused.
  induction q as [|x q IH]; intros i s H Hs; [destruct i; discriminate H|].
  destruct i as [|i]; simpl in *.
  - inversion H; subst. rewrite Hs. reflexivity.
  - rewrite (IH i s H Hs). reflexivity.
Qed.

Lemma reap_loop_all_live (q : queue) (i : nat) :
  forallb is_live q = true -> reap_loop q i = q.
Proof.
  drop_unused.
  apply (reap_loop_elim (fun q _ r => forallb is_live q = true -> r = q)); clear q i.
  - intros; reflexivity.
  - intros q i squeue _ _ IH _ _ H. apply IH. exact H.
  - intros q i _ squeue Hd Hcur _ _ _ H. exfalso.
    rewrite forallb_forall in H. specialize (H squeue (nth_error_In _ _ Hcur)).
    unfold is_live in H. rewrite Hd in H. discriminate H.
  - intros q i first rest _ squeue Hd Hcur _ _ _ _ H. exfalso.
    rewrite forallb_forall in H. specialize (H squeue (nth_error_In _ _ Hcur)).
    unfold is_live in H. rewrite Hd in H. discriminate H.
Qed.

Lemma reap_loop_filter_live (q : queue) (i : nat) :
  filter is_live (reap_loop q i) = filter is_live q.
Proof.
  drop_unused.
  apply (reap_loop_elim (fun q _ r => filter is_live r = filter is_live q)); clear q i.
  - intros; reflexivity.
  - intros q i squeue _ _ IH _ _. exact IH.
  - intros q i Hunq squeue Hd Hcur _ _ _.
    rewrite <- (socks_unqueue_filter_live q i squeue Hcur)
      by (unfold is_live; rewrite Hd; reflexivity).
    rewrite Hunq. reflexivity.
  - intros q i first rest Hunq squeue Hd Hcur IH _ _ _. rewrite IH, <- Hunq.
    apply (socks_unqueue_filter_live q i squeue Hcur). unfold is_live. rewrite Hd.
    reflexivity.
Qed.

Lemma reap_loop_at_marked (q : queue) (i : nat) :
  forall s : SocksQueue_t,
    nth_error q i = Some s -> is_live s = false ->
    reap_loop q i = match socks_unqueue i q with
                    | [] => []
                    | first :: rest => reap_loop (first :: rest) 1
                    end.
Proof.
  drop_unused.
  apply (reap_loop_elim (fun q i r =>
    forall s : SocksQueue_t,
      nth_error q i = Some s -> is_live s = false ->
      r = match socks_unqueue i q with
          | [] => []
          | first :: rest => reap_loop (first :: rest) 1
          end)); clear q i.
  - intros q i Hnone _ s Hs _. congruence.
  - intros q i squeue Hlive Hcur _ _ _ s Hs Hd. exfalso.
    rewrite Hcur in Hs. inversion Hs; subst. unfold is_live in Hd. rewrite Hlive in Hd.
    discriminate Hd.
  - intros q i Hunq squeue _ _ _ _ _ s _ _. rewrite Hunq. reflexivity.
  - intros q i first rest Hunq squeue _ _ _ _ _ _ s _ _. rewrite Hunq. reflexivity.
Qed.

(** X7.  The reap walk unlinks only entries marked [SOCKS_DELETE] and keeps
    all other entries in their order; a queue without marked entries is left
    as it is; after one walk no entry behind the head is marked, and after a
    second walk no entry is. *)
Theorem reap_loop_keeps_live_entries (q : queue) :
  filter is_live (reap_loop q 0) = filter is_live q
  /\ (forallb is_live q = true -> reap_loop q 0 = q)
  /\ forallb is_live (tl (reap_loop q 0)) = true
  /\ forallb is_live (reap_loop (reap_loop q 0) 0) = true.
Proof.
  drop_unused.
  assert (Htl : forall q0, forallb is_live (tl (reap_loop q0 0)) = true).
  { intros q0. apply forallb_forall. intros s Hin. apply In_nth_error in Hin.
    destruct Hin as [j Hj].
    assert (Hn : nth_error (reap_loop q0 0) (S j) = Some s).
    { destruct (reap_loop q0 0); [destruct j; discriminate Hj | exact Hj]. }
    assert (Hnd : sq_state s <> SOCKS_DELETE).
    { apply (reap_loop_rest_clean q0 0) with (j := S j); [intros; lia | lia | exact Hn]. }
    unfold is_live. destruct (socks_state_eqb (sq_state s) SOCKS_DELETE) eqn:He;
      [apply socks_state_eqb_eq in He; contradiction | reflexivity]. }
  split; [apply reap_loop_filter_live|]. split; [apply reap_loop_all_live|].
  split; [apply Htl|].
  specialize (Htl q). destruct (reap_loop q 0) as [|h r] eqn:Hr.
  - rewrite reap_loop_all_live; reflexivity.
  - simpl in Htl. destruct (is_live h) eqn:Hh.
    + rewrite reap_loop_all_live; simpl; rewrite Hh, Htl; reflexivity.
    + rewrite (reap_loop_at_marked (h :: r) 0 h eq_refl Hh). simpl.
      destruct r as [|h2 r2]; [reflexivity|].
      rewrite reap_loop_all_live by exact Htl. exact Htl.
Qed.


(** ** The shape of the per-entry steps *)

Lemma activations_app (a b : list event) :
  activations (a ++ b) = (activations a + activations b)%nat.
Proof.
  drop_unused. unfold activations. rewrite filter_app, length_app. reflexivity. Qed.

Lemma socks_reschedule_shape (now : Z) (s : SocksQueue_t) :
  sq_state (fst (socks_reschedule now s)) = SOCKS_NEW
  /\ activations (snd (socks_reschedule now s)) = 0%nat.
Proof.
  drop_unused. unfold socks_reschedule, socks_reset. destruct (sq_fd s >? 0); repeat split. Qed.

Lemma socks_reset_shape (s : SocksQueue_t) :
  sq_state (fst (socks_reset s)) = SOCKS_NEW
  /\ activations (snd (socks_reset s)) = 0%nat.
Proof.
  drop_unused. unfold socks_reset. destruct (sq_fd s >? 0); repeat split. Qed.

Lemma socks_dns_req_shape (e : PhaseAEnv) (s : SocksQueue_t) :
  activations (snd (socks_dns_req e s)) = 0%nat.
Proof.
  drop_unused.
  unfold socks_dns_req. destruct (pa_get_ns e) as [[ns src]|]; [|reflexivity].
  destruct (pa_sendto e =? -1); reflexivity.
Qed.

Lemma phaseA_connect_shape (t : Z) (e : PhaseAEnv) (s : SocksQueue_t) (fds : fdsets)
    (evs0 : list event) :
  sq_state s = SOCKS_NEW ->
  let r := phaseA_connect t e s fds evs0 in
  activations (snd r) = activations evs0
  /\ (sq_state (fst (fst r)) = SOCKS_NEW
      \/ (sq_state (fst (fst r)) = SOCKS_CONNECTING /\ sq_fd (fst (fst r)) <> -1)).
Proof.
  drop_unused.
  intros Hs. unfold phaseA_connect.
  destruct (negb _); [simpl; split; [reflexivity | left; exact Hs]|].
  destruct (sq_fd (set_fd (pa_tcp_socket e) s) =? -1) eqn:Hfd;
    [simpl; split; [reflexivity | left; exact Hs]|].
  destruct (socks_tcp_connect (pa_connect e) =? -1).
  - pose proof (socks_reschedule_shape (pa_time e)
                  (set_connect_time t (set_fd (pa_tcp_socket e) s))) as [Hst Hact].
    destruct (socks_reschedule _ _) as [s3 evs3]. simpl in *.
    rewrite !activations_app, Hact. split; [unfold activations; simpl; lia | left; exact Hst].
  - simpl. rewrite activations_app. split; [unfold activations; simpl; lia|]. right.
    split; [reflexivity|]. simpl in Hfd. apply Z.eqb_neq. exact Hfd.
Qed.

Lemma phaseA_new_shape (t : Z) (e : PhaseAEnv) (s : SocksQueue_t) (fds : fdsets) :
  sq_state s = SOCKS_NEW ->
  let r := phaseA_new t e s fds in
  activations (snd r) = 0%nat
  /\ (sq_state (fst (fst r)) = SOCKS_NEW
      \/ (sq_state (fst (fst r)) = SOCKS_DELETE /\ sq_perm s = 0
          /\ SOCKS_MAX_RETRY < int_incr (sq_retry s))
      \/ (sq_state (fst (fst r)) = SOCKS_DNS_SENT /\ sq_fd (fst (fst r)) <> -1)
      \/ (sq_state (fst (fst r)) = SOCKS_CONNECTING /\ sq_fd (fst (fst r)) <> -1)).
Proof.
  drop_unused.
  intros Hs. unfold phaseA_new.
  destruct (t <? sq_restart_time s); [simpl; split; [reflexivity | left; exact Hs]|].
  set (s1 := set_retry (int_incr (sq_retry s)) s).
  destruct ((sq_perm s1 =? 0) && (sq_retry s1 >? SOCKS_MAX_RETRY)) eqn:Hdel.
  { simpl. split; [reflexivity|]. right. left.
    apply andb_true_iff in Hdel. destruct Hdel as [Hp Hr]. simpl in Hp, Hr.
    apply Z.eqb_eq in Hp. rewrite Z.gtb_ltb in Hr. apply Z.ltb_lt in Hr.
    repeat split; assumption. }
  assert (Hconn : forall s2 evs0, sq_state s2 = SOCKS_NEW -> activations evs0 = 0%nat ->
            let r := phaseA_connect t e s2 fds evs0 in
            activations (snd r) = 0%nat
            /\ (sq_state (fst (fst r)) = SOCKS_NEW
                \/ (sq_state (fst (fst r)) = SOCKS_DELETE /\ sq_perm s = 0
                    /\ SOCKS_MAX_RETRY < int_incr (sq_retry s))
                \/ (sq_state (fst (fst r)) = SOCKS_DNS_SENT /\ sq_fd (fst (fst r)) <> -1)
                \/ (sq_state (fst (fst r)) = SOCKS_CONNECTING
                    /\ sq_fd (fst (fst r)) <> -1))).
  { intros s2 evs0 Hs2 He0.
    destruct (phaseA_connect_shape t e s2 fds evs0 Hs2) as [Hact Hst].
    simpl. rewrite Hact, He0. split; [reflexivity|].
    destruct Hst as [Hn|Hc]; [left; exact Hn | right; right; right; exact Hc]. }
  destruct (dns_lookup cfg && _ && _); [|apply Hconn; [exact Hs | reflexivity]].
  destruct (negb (sq_fd (set_fd (pa_udp_socket e) s1) =? -1)) eqn:Hudp;
    [|apply Hconn; [exact Hs | reflexivity]].
  pose proof (socks_dns_req_frame e (set_id (pa_rand e) (set_fd (pa_udp_socket e) s1)))
    as (_ & Hs4 & Hfd4 & _).
  pose proof (socks_dns_req_shape e (set_id (pa_rand e) (set_fd (pa_udp_socket e) s1)))
    as Hact4.
  destruct (socks_dns_req e _) as [[r4 s4] evs4]. simpl in Hs4, Hfd4, Hact4.
  destruct (negb (r4 =? -1)).
  - simpl. split; [exact Hact4|]. right. right. left. split; [reflexivity|].
    rewrite Hfd4. apply negb_true_iff in Hudp. simpl in Hudp. apply Z.eqb_neq. exact Hudp.
  - apply Hconn; [rewrite Hs4; exact Hs|]. rewrite activations_app, Hact4. reflexivity.
Qed.

Lemma phaseA_dns_sent_shape (t : Z) (e : PhaseAEnv) (s : SocksQueue_t) (fds : fdsets) :
  sq_state s = SOCKS_DNS_SENT ->
  let r := phaseA_dns_sent t e s fds in
  activations (snd r) = 0%nat
  /\ ((sq_state (fst (fst r)) = SOCKS_DNS_SENT /\ sq_fd (fst (fst r)) = sq_fd s)
      \/ sq_state (fst (fst r)) = SOCKS_NEW).
Proof.
  drop_unused.
  intros Hs. unfold phaseA_dns_sent, dns_fallback.
  destruct (t <? sq_restart_time s); [simpl; split; [reflexivity | left; auto]|].
  destruct (sq_retry s <? SOCKS_DNS_RETRY);
    [|simpl; split; [reflexivity | right; reflexivity]].
  pose proof (socks_dns_req_frame e s) as (_ & Hs1 & Hfd1 & _).
  pose proof (socks_dns_req_shape e s) as Hact1.
  destruct (socks_dns_req e s) as [[r1 s1] evs1]. simpl in Hs1, Hfd1, Hact1.
  destruct (negb (r1 =? -1)); simpl.
  - split; [exact Hact1|]. left. split; [congruence | exact Hfd1].
  - rewrite activations_app, Hact1. split; [reflexivity | right; reflexivity].
Qed.

(** What the state scan can do to an entry. *)
Lemma phaseA_entry_shape (t : Z) (e : PhaseAEnv) (s : SocksQueue_t) (fds : fdsets) :
  let r := phaseA_entry t e s fds in
  activations (snd r) = 0%nat
  /\ (sq_state s = SOCKS_DELETE -> r = (s, fds, []))
  /\ (sq_state (fst (fst r)) = SOCKS_DELETE ->
      sq_state s = SOCKS_DELETE
      \/ (sq_state s = SOCKS_NEW /\ sq_perm s = 0
          /\ SOCKS_MAX_RETRY < int_incr (sq_retry s)))
  /\ (waiting_state (sq_state (fst (fst r))) = true ->
      sq_fd (fst (fst r)) <> -1
      \/ (waiting_state (sq_state s) = true /\ sq_fd (fst (fst r)) = sq_fd s)).
Proof.
  drop_unused.
  assert (Hreset : let r := (let '(s0, evs) := socks_reset s in (s0, fds, evs)) in
            activations (snd r) = 0%nat /\ sq_state (fst (fst r)) = SOCKS_NEW).
  { pose proof (socks_reset_shape s) as [Hst Hact].
    destruct (socks_reset s) as [s0 evs0]. simpl in *. split; assumption. }
  unfold phaseA_entry. destruct (sq_state s) eqn:Est.
  - destruct (phaseA_new_shape t e s fds Est) as [Hact Hcase].
    split; [exact Hact|]. split; [discriminate|]. split.
    + intros Hd. right. destruct Hcase as [H|[(_ & Hp & Hr)|[[H _]|[H _]]]];
        try congruence. repeat split; assumption.
    + intros Hw. left. destruct Hcase as [H|[[H _]|[[_ H]|[_ H]]]];
        try exact H; rewrite H in Hw; discriminate Hw.
  - destruct Hreset as [Hact Hst]. split; [exact Hact|]. split; [discriminate|].
    split; [intros Hd; congruence|]. intros Hw. rewrite Hst in Hw. discriminate Hw.
  - simpl. rewrite Est. repeat split; try discriminate. intros _. right. split; reflexivity.
  - simpl. rewrite Est. repeat split; try discriminate. intros _. right. split; reflexivity.
  - simpl. rewrite Est. repeat split; try discriminate. intros _. right. split; reflexivity.
  - destruct (phaseA_dns_sent_shape t e s fds Est) as [Hact Hcase].
    split; [exact Hact|]. split; [discriminate|]. split.
    + intros Hd. destruct Hcase as [[H _]|H]; congruence.
    + intros Hw. right. destruct Hcase as [[_ H]|H];
        [split; [reflexivity | exact H] | rewrite H in Hw; discriminate Hw].
  - destruct Hreset as [Hact Hst]. split; [exact Hact|]. split; [discriminate|].
    split; [intros Hd; congruence|]. intros Hw. rewrite Hst in Hw. discriminate Hw.
  - simpl. rewrite Est. repeat split; try discriminate. intros _. left. reflexivity.
Qed.


(** What the write half of the dispatch can do to an entry, with its
    events. *)
Lemma dispatch_write_shape (e : DispEnv) (ws : fd_set) (s : SocksQueue_t) (k : Z) :
  match dispatch_write e ws s k with
  | Exit => sq_state s = SOCKS_CONNECTING
  | Continue (s', _, evs) =>
      sq_state s = SOCKS_CONNECTING /\ sq_state s' = SOCKS_NEW
      /\ activations evs = 0%nat
  | Proceed (s', _, evs) =>
      (s' = s /\ evs = [])
      \/ (sq_state s = SOCKS_CONNECTING /\ activations evs = 0%nat
          /\ (s' = set_state SOCKS_4AREQ_SENT s \/ s' = set_state SOCKS_5GREET_SENT s))
      \/ (sq_state s = SOCKS_CONNECTING /\ s' = set_state SOCKS_DELETE s
          /\ evs = [EvActivate (sq_addr s) (sq_fd s) (de_time e - sq_connect_time s)])
  end.
Proof.
  drop_unused.
  unfold dispatch_write.
  destruct (FD_ISSET (sq_fd s) ws); [|left; split; reflexivity].
  destruct (sq_state s) eqn:Est; try (left; split; reflexivity).
  unfold reschedule_continue, socks_send_request, socks5_greet, socks_activate_peer.
  pose proof (socks_reschedule_shape (de_time e) s) as [Hst Hact].
  destruct (socks_reschedule (de_time e) s) as [s3 evs3]. simpl in Hst, Hact.
  destruct (de_so_error e) as [so_err|]; [|repeat split; assumption].
  destruct (negb (so_err =? 0)); [repeat split; assumption|].
  destruct (socks5 cfg); cbn [fst snd].
  - destruct (write_result _ _ =? -1).
    + split; [reflexivity|]. split; [exact Hst|]. rewrite activations_app, Hact. reflexivity.
    + right. left. repeat split. left. reflexivity.
  - destruct (write_result _ _ =? -1).
    + split; [reflexivity|]. split; [exact Hst|]. rewrite activations_app, Hact. reflexivity.
    + right. left. repeat split. right. reflexivity.
  - right. right. repeat split.
  - reflexivity.
Qed.

(** What the read half of the dispatch can do to an entry, with its
    events. *)
Lemma dispatch_read_shape (e : DispEnv) (rs : fd_set) (s : SocksQueue_t) (k : Z)
    (evs0 : list event) :
  let r := dispatch_read e rs s k evs0 in
  exists evs1,
    snd r = evs0 ++ evs1
    /\ ((fst (fst r) = s /\ evs1 = [])
        \/ (sq_state (fst (fst r)) = SOCKS_NEW /\ activations evs1 = 0%nat
            /\ sq_state s <> SOCKS_DELETE)
        \/ (sq_state s = SOCKS_5GREET_SENT /\ fst (fst r) = set_state SOCKS_5REQ_SENT s
            /\ activations evs1 = 0%nat)
        \/ (fst (fst r) = set_state SOCKS_DELETE s
            /\ (sq_state s = SOCKS_4AREQ_SENT \/ sq_state s = SOCKS_5REQ_SENT)
            /\ evs1 = [EvActivate (sq_addr s) (sq_fd s) (de_time e - sq_connect_time s)])
        \/ (fst (fst r) = set_state SOCKS_DELETE s /\ sq_state s = SOCKS_DNS_SENT
            /\ socks_dns_recv e s = -1 /\ activations evs1 = 0%nat)).
Proof.
  drop_unused.
  unfold dispatch_read.
  destruct (FD_ISSET (sq_fd s) rs);
    [|exists []; simpl; split; [symmetry; apply app_nil_r | left; split; reflexivity]].
  pose proof (socks_reschedule_shape (de_time e) s) as [Hst Hact].
  pose proof (socks_reset_shape s) as [Hst0 Hact0].
  unfold socks5_send_request, socks_activate_peer.
  destruct (socks_reschedule (de_time e) s) as [s3 evs3].
  destruct (socks_reset s) as [s4 evs4]. simpl in Hst, Hact, Hst0, Hact0.
  destruct (sq_state s) eqn:Est.
  - exists evs4. simpl. split; [reflexivity|]. right. left.
    repeat split; try assumption. discriminate.
  - exists evs4. simpl. split; [reflexivity|]. right. left.
    repeat split; try assumption. discriminate.
  - destruct (socks_rec_response (de_read e) =? -1).
    + exists evs3. simpl. split; [reflexivity|]. right. left.
      repeat split; try assumption. discriminate.
    + eexists. simpl. split; [reflexivity|]. right. right. right. left.
      repeat split. left. reflexivity.
  - destruct (socks5_greet_response (de_read e) =? -1).
    + exists evs3. simpl. split; [reflexivity|]. right. left.
      repeat split; try assumption. discriminate.
    + cbn [fst snd]. destruct (write_result _ _ =? -1).
      * eexists. simpl. split; [reflexivity|]. right. left.
        split; [exact Hst|]. split; [|discriminate].
        unfold activations in *. simpl. exact Hact.
      * eexists. simpl. split; [reflexivity|]. right. right. left. repeat split.
  - destruct (socks5_rec_response (de_read e) =? -1).
    + exists evs3. simpl. split; [reflexivity|]. right. left.
      repeat split; try assumption. discriminate.
    + eexists. simpl. split; [reflexivity|]. right. right. right. left.
      repeat split. right. reflexivity.
  - destruct (socks_dns_recv e s =? -1) eqn:Hrecv; simpl.
    + eexists. split; [reflexivity|]. right. right. right. right.
      repeat split. apply Z.eqb_eq. exact Hrecv.
    + eexists. split; [reflexivity|]. right. left. repeat split. discriminate.
  - exists evs4. simpl. split; [reflexivity|]. right. left.
    repeat split; try assumption. discriminate.
  - exists []. simpl. split; [symmetry; apply app_nil_r | left; split; reflexivity].
Qed.

(** A descriptor that is ready for reading does nothing to an entry marked
    for deletion. *)
Lemma dispatch_read_delete (e : DispEnv) (rs : fd_set) (s : SocksQueue_t) (k : Z)
    (evs0 : list event) :
  sq_state s = SOCKS_DELETE ->
  fst (fst (dispatch_read e rs s k evs0)) = s /\ snd (dispatch_read e rs s k evs0) = evs0.
Proof.
  drop_unused.
  intros Hs. unfold dispatch_read. rewrite Hs.
  destruct (FD_ISSET (sq_fd s) rs); split; reflexivity.
Qed.

Ltac shape_leaf :=
  unfold activations in *; simpl in *;
  repeat split; intros;
  try lia; try congruence; try discriminate;
  try (match goal with
       | Hn : sq_state ?x = _, Hw : waiting_state (sq_state ?x) = true |- _ =>
           rewrite Hn in Hw; discriminate Hw
       end);
  try (match goal with
       | Hn : sq_state ?x = _ |- waiting_state (sq_state ?x) = true =>
           rewrite Hn; reflexivity
       end);
  try (left; reflexivity);
  try (right; left; reflexivity);
  try (apply in_or_app; right; left; reflexivity);
  auto.

(** What the fd dispatch can do to an entry. *)
Lemma dispatch_entry_shape (e : DispEnv) (rs ws : fd_set) (s s' : SocksQueue_t)
    (k k' : Z) (evs : list event) :
  dispatch_entry e rs ws s k = Some (s', k', evs) ->
  (sq_state s = SOCKS_DELETE -> s' = s /\ evs = [])
  /\ (activations evs <= 1)%nat
  /\ (activations evs = 1%nat ->
      sq_state s' = SOCKS_DELETE
      /\ In (EvActivate (sq_addr s) (sq_fd s) (de_time e - sq_connect_time s)) evs)
  /\ (sq_state s' = SOCKS_DELETE ->
      sq_state s = SOCKS_DELETE \/ activations evs = 1%nat
      \/ (sq_state s = SOCKS_DNS_SENT /\ socks_dns_recv e s = -1))
  /\ (waiting_state (sq_state s') = true ->
      waiting_state (sq_state s) = true /\ sq_fd s' = sq_fd s).
Proof.
  drop_unused.
  unfold dispatch_entry. intros H.
  pose proof (dispatch_write_shape e ws s k) as Hw.
  destruct (dispatch_write e ws s k) as [[[s1 k1] evs1]|[[s1 k1] evs1]|];
    [| |discriminate H].
  - destruct Hw as (Hs & Hs1 & Hact). inversion H; subst. shape_leaf.
  - injection H as Hres.
    pose proof (dispatch_read_shape e rs s1 k1 evs1) as (evs2 & Hev & Hr).
    pose proof (dispatch_read_delete e rs s1 k1 evs1) as Hdel.
    rewrite Hres in Hev, Hr, Hdel. simpl in Hev, Hr, Hdel. subst evs. clear Hres.
    assert (Hfrom :
      (s1 = s /\ evs1 = [])
      \/ (sq_state s = SOCKS_CONNECTING /\ activations evs1 = 0%nat
          /\ waiting_state (sq_state s1) = true /\ sq_fd s1 = sq_fd s
          /\ sq_addr s1 = sq_addr s /\ sq_connect_time s1 = sq_connect_time s
          /\ sq_state s1 <> SOCKS_DNS_SENT /\ sq_state s1 <> SOCKS_DELETE)
      \/ (sq_state s = SOCKS_CONNECTING /\ s1 = set_state SOCKS_DELETE s
          /\ evs1 = [EvActivate (sq_addr s) (sq_fd s) (de_time e - sq_connect_time s)])).
    { destruct Hw as [Hw|[(Hs & Ha & [->| ->])|Hw]]; auto;
        right; left; repeat split; auto; discriminate. }
    clear Hw. rewrite activations_app.
    destruct Hfrom as [[-> ->]|[(Hs & Hact1 & Hw1 & Hfd1 & Had1 & Hct1 & Hnd1 & Hnx1)
                                |(Hs & -> & ->)]].
    + (* the write half left the entry alone *)
      clear Hdel.
      destruct Hr as [[-> ->]|[(Hn & Hact & Hnd)|[(Hg & -> & Hact)
                               |[(-> & [Hst|Hst] & ->)|(-> & Hst & Hrecv & Hact)]]]];
        shape_leaf.
    + (* the write half sent the first frame *)
      clear Hdel.
      destruct Hr as [[-> ->]|[(Hn & Hact & Hnd)|[(Hg & -> & Hact)
                               |[(-> & [Hst|Hst] & ->)|(-> & Hst & Hrecv & Hact)]]]];
        try rewrite Had1, Hfd1, Hct1; shape_leaf.
    + (* the write half activated the peer *)
      clear Hr. destruct (Hdel eq_refl) as [-> Hnil]. clear Hdel.
      simpl in Hnil. injection Hnil as ->. shape_leaf.
Qed.


(** ** The life of an entry: deletion, activation, descriptors *)

Lemma entry_step_shape (op : entry_op) (s s' : SocksQueue_t) (evs : list event) :
  entry_step op s = Some (s', evs) ->
  (sq_state s = SOCKS_DELETE -> s' = s /\ evs = [])
  /\ (activations evs <= 1)%nat
  /\ (activations evs = 1%nat -> sq_state s' = SOCKS_DELETE)
  /\ (has_descriptor s -> has_descriptor s').
Proof.
  drop_unused.
  intros H. destruct op as [t e fds | e rs ws k]; simpl in H.
  - pose proof (phaseA_entry_shape t e s fds) as (Hact & Hdel & _ & Hwait).
    destruct (phaseA_entry t e s fds) as [[s1 fds1] evs1]. simpl in *.
    inversion H; subst. clear H.
    split; [intros Hd; specialize (Hdel Hd); inversion Hdel; split; reflexivity|].
    split; [lia|]. split; [intros Ha; lia|].
    intros Hs Hw. destruct (Hwait Hw) as [Hfd|[Hw0 Hfd]]; [exact Hfd|].
    rewrite Hfd. apply Hs. exact Hw0.
  - destruct (dispatch_entry e rs ws s k) as [[[s1 k1] evs1]|] eqn:Hd; [|discriminate H].
    inversion H; subst. clear H.
    destruct (dispatch_entry_shape _ _ _ _ _ _ _ _ Hd) as (Hdel & Hle & Hone & _ & Hwait).
    split; [exact Hdel|]. split; [exact Hle|].
    split; [intros Ha; apply (Hone Ha)|].
    intros Hs Hw. destruct (Hwait Hw) as [Hw0 Hfd]. rewrite Hfd. apply Hs. exact Hw0.
Qed.

Lemma entry_run_delete (ops : list entry_op) (s : SocksQueue_t) :
  sq_state s = SOCKS_DELETE -> entry_run ops s = (s, []).
Proof.
  drop_unused.
  intros Hs. induction ops as [|op ops IH]; simpl; [reflexivity|].
  destruct (entry_step op s) as [[s1 evs1]|] eqn:Hstep; [|reflexivity].
  destruct (entry_step_shape _ _ _ _ Hstep) as (Hdel & _).
  destruct (Hdel Hs) as [-> ->]. rewrite IH. reflexivity.
Qed.

(** X8.  How an entry comes to be marked for deletion.  The state scan marks
    only a temporary entry in [SOCKS_NEW] whose incremented retry counter
    exceeds [SOCKS_MAX_RETRY]; a permanent entry is never marked there.  The
    fd dispatch marks an entry either together with the call of
    [insert_peer] for its address and descriptor, or when the datagram
    awaited in [SOCKS_DNS_SENT] is rejected by [socks_dns_recv], whatever
    [perm] is. *)
Theorem entry_step_delete_cause (op : entry_op) (s s' : SocksQueue_t) (evs : list event) :
  entry_step op s = Some (s', evs) ->
  sq_state s <> SOCKS_DELETE ->
  sq_state s' = SOCKS_DELETE ->
  match op with
  | OpScan _ _ _ =>
      sq_state s = SOCKS_NEW /\ sq_perm s = 0
      /\ SOCKS_MAX_RETRY < int_incr (sq_retry s) /\ evs = []
  | OpDispatch e _ _ _ =>
      In (EvActivate (sq_addr s) (sq_fd s) (de_time e - sq_connect_time s)) evs
      \/ (sq_state s = SOCKS_DNS_SENT /\ socks_dns_recv e s = -1
          /\ activations evs = 0%nat)
  end.
Proof.
  drop_unused.
  intros H Hlive Hdel. destruct op as [t e fds | e rs ws k]; simpl in H.
  - pose proof (phaseA_entry_shape t e s fds) as (_ & _ & Hcause & _).
    destruct (phaseA_entry t e s fds) as [[s1 fds1] evs1] eqn:Hscan. simpl in Hcause.
    inversion H; subst. clear H.
    destruct (Hcause Hdel) as [Hd|(Hnew & Hperm & Hretry)]; [contradiction|].
    repeat split; try assumption.
    unfold phaseA_entry in Hscan. rewrite Hnew in Hscan.
    unfold phaseA_new in Hscan.
    destruct (t <? sq_restart_time s); [inversion Hscan; subst; congruence|].
    simpl in Hscan. rewrite Hperm in Hscan. simpl in Hscan.
    replace (int_incr (sq_retry s) >? SOCKS_MAX_RETRY) with true in Hscan
      by (symmetry; apply Z.gtb_lt; exact Hretry).
    inversion Hscan; subst. reflexivity.
  - destruct (dispatch_entry e rs ws s k) as [[[s1 k1] evs1]|] eqn:Hd; [|discriminate H].
    inversion H; subst. clear H.
    destruct (dispatch_entry_shape _ _ _ _ _ _ _ _ Hd) as (_ & Hle & Hone & Hcause & _).
    destruct (Hcause Hdel) as [Hd0|[Hact|[Hdns Hrecv]]]; [contradiction| |].
    + left. apply (Hone Hact).
    + destruct (Nat.eq_dec (activations evs) 1) as [Hact|Hact].
      * left. apply (Hone Hact).
      * right. repeat split; try assumption. lia.
Qed.

(** X10.  Over the whole life of an entry [insert_peer] is called at most
    once; when it was called the entry is marked for deletion; and an
    entry marked for deletion is not changed any more and causes no
    further system call. *)
Theorem entry_run_activates_once (ops : list entry_op) (s : SocksQueue_t) :
  (activations (snd (entry_run ops s)) <= 1)%nat
  /\ (activations (snd (entry_run ops s)) = 1%nat ->
      sq_state (fst (entry_run ops s)) = SOCKS_DELETE)
  /\ (sq_state s = SOCKS_DELETE -> entry_run ops s = (s, [])).
Proof.
  drop_unused.
  split; [|split]; [| |apply entry_run_delete].
  - revert s. induction ops as [|op ops IH]; intros s; simpl; [unfold activations; simpl; lia|].
    destruct (entry_step op s) as [[s1 evs1]|] eqn:Hstep;
      [|unfold activations; simpl; lia].
    destruct (entry_step_shape _ _ _ _ Hstep) as (_ & Hle & Hone & _).
    specialize (IH s1).
    destruct (Nat.eq_dec (activations evs1) 1) as [Hact|Hact].
    + rewrite (entry_run_delete ops s1 (Hone Hact)). simpl.
      rewrite activations_app. unfold activations at 2. simpl. lia.
    + destruct (entry_run ops s1) as [s2 evs2]. simpl in *.
      rewrite activations_app. lia.
  - revert s. induction ops as [|op ops IH]; intros s; simpl;
      [unfold activations; simpl; discriminate|].
    destruct (entry_step op s) as [[s1 evs1]|] eqn:Hstep;
      [|unfold activations; simpl; discriminate].
    destruct (entry_step_shape _ _ _ _ Hstep) as (_ & Hle & Hone & _).
    specialize (IH s1).
    destruct (Nat.eq_dec (activations evs1) 1) as [Hact|Hact].
    + rewrite (entry_run_delete ops s1 (Hone Hact)). simpl. intros _. apply (Hone Hact).
    + destruct (entry_run ops s1) as [s2 evs2]. simpl in *.
      rewrite activations_app. intros Hsum. apply IH. lia.
Qed.

(** ** Properties kept entry by entry *)

Lemma pipe_drain_in (m : bool) (rec : pipe_read) (q q' : queue) (evs : list event) :
  pipe_drain m rec q = Some (q', evs) ->
  forall s : SocksQueue_t, In s q' -> In s q \/ In s (pipe_entry rec).
Proof.
  drop_unused.
  unfold pipe_drain. intros H s Hs.
  destruct rec as [|k|next sq]; try (inversion H; subst; left; exact Hs).
  destruct (negb (next =? 0)); [inversion H; subst; left; exact Hs|].
  destruct (IN6_IS_ADDR_UNSPECIFIED (sq_addr sq)); [inversion H; subst; left; exact Hs|].
  unfold socks_enqueue in H.
  destruct (socks_get_req q (sq_addr sq)); [inversion H; subst; left; exact Hs|].
  destruct m; [|discriminate H]. inversion H; subst.
  destruct Hs as [<-|Hs]; [right; left; reflexivity | left; exact Hs].
Qed.

(** A property of entries that every step of the scan and of the dispatch
    keeps is kept by an iteration of the reactor for the whole queue. *)
Lemma socks_connector_iter_entrywise (P : SocksQueue_t -> Prop) :
  (forall (op : entry_op) (s s' : SocksQueue_t) (evs : list event),
      P s -> entry_step op s = Some (s', evs) -> P s') ->
  forall (e : IterEnv) (q : queue),
    Forall P q -> Forall P (pipe_entry (ie_pipe e)) ->
    match socks_connector_iter e q with
    | IterTerminated | IterExit => True
    | IterSelectFailed q' _ | IterDone q' _ => Forall P q'
    end.
Proof.
  drop_unused.
  intros Hstep e q Hq Hpipe. unfold socks_connector_iter.
  destruct (ie_term_req e); [exact I|].
  pose proof (phaseA_loop_nth (ie_time e) (ie_phaseA e) q 0
                (MFD_SET_r (socksfd0 cfg) (mk_fdsets [] [] 0))) as Hscan.
  destruct (phaseA_loop _ _ _ _ _) as [[q1 fds1] evs1]. simpl in Hscan.
  assert (Hq1 : Forall P q1).
  { apply Forall_forall. intros s1 Hin.
    destruct (In_nth_error _ _ Hin) as [k Hk].
    destruct (Hscan k s1 Hk) as (s0 & fds' & Hk0 & Heq).
    apply (Hstep (OpScan (ie_time e) (ie_phaseA e (0 + k)%nat) fds') s0 s1
                 (snd (phaseA_entry (ie_time e) (ie_phaseA e (0 + k)%nat) s0 fds'))).
    - apply (proj1 (Forall_forall P q) Hq). apply (nth_error_In _ _ Hk0).
    - simpl. destruct (phaseA_entry _ _ _ _) as [[s2 fds2] evs2]. simpl in *.
      subst s1. reflexivity. }
  clear Hscan.
  destruct (ie_select_error e); [exact Hq1|].
  set (rs := filter (ie_ready_r e) (rset fds1)).
  set (ws := filter (ie_ready_w e) (wset fds1)).
  set (n := Z.of_nat (List.length rs + List.length ws)).
  assert (Hdisp : forall q2 n2 q3 evs3,
            Forall P q2 ->
            dispatch_loop (ie_dispatch e) 0 rs ws q2 n2 = Some (q3, evs3) ->
            Forall P (reap_loop q3 0)).
  { intros q2 n2 q3 evs3 Hq2 Hd. apply Forall_forall. intros s3 Hin.
    apply reap_loop_incl in Hin.
    destruct (In_nth_error _ _ Hin) as [k Hk].
    destruct (dispatch_loop_nth _ _ _ _ _ _ _ _ _ _ Hd Hk) as (s2 & Hk2 & Hrel).
    assert (Hs2 : P s2)
      by (apply (proj1 (Forall_forall P q2) Hq2); apply (nth_error_In _ _ Hk2)).
    destruct Hrel as [->|(n' & r & Hr & ->)]; [exact Hs2|].
    apply (Hstep (OpDispatch (ie_dispatch e (0 + k)%nat) rs ws n') s2
                 (fst (fst r)) (snd r) Hs2).
    unfold entry_step. rewrite Hr. reflexivity. }
  destruct (FD_ISSET (socksfd0 cfg) rs).
  - destruct (pipe_drain (ie_malloc e) (ie_pipe e) q1) as [[q2 evs2]|] eqn:Hp;
      simpl; [|exact I].
    destruct (dispatch_loop (ie_dispatch e) 0 rs ws q2 (n - 1)) as [[q3 evs3]|] eqn:Hd;
      [|exact I].
    apply (Hdisp q2 (n - 1) q3 evs3); [|exact Hd].
    apply Forall_forall. intros s2 Hin.
    destruct (pipe_drain_in _ _ _ _ _ Hp s2 Hin) as [H1|H1].
    + apply (proj1 (Forall_forall P q1) Hq1 _ H1).
    + apply (proj1 (Forall_forall P _) Hpipe _ H1).
  - destruct (dispatch_loop (ie_dispatch e) 0 rs ws q1 n) as [[q3 evs3]|] eqn:Hd;
      [|exact I].
    apply (Hdisp q1 n q3 evs3 Hq1 Hd).
Qed.

(** X9.  Every queued entry that waits on its descriptor (connecting, a
    frame sent, a DNS probe out) holds a descriptor that [socket()]
    returned, never [-1]: the reactor keeps this over any number of
    iterations, when it holds of the queue at the start and of the records
    read from the pipe. *)
Theorem socks_connector_sel_has_descriptor (envs : list IterEnv) :
  forall q : queue,
    Forall has_descriptor q ->
    Forall (fun e => Forall has_descriptor (pipe_entry (ie_pipe e))) envs ->
    Forall has_descriptor (socks_connector_sel envs q).
Proof.
  drop_unused.
  induction envs as [|e envs IH]; intros q Hq Henvs; simpl; [exact Hq|].
  inversion Henvs as [|e0 envs0 He Hrest]; subst.
  assert (Hstep : forall (op : entry_op) (s s' : SocksQueue_t) (evs : list event),
             has_descriptor s -> entry_step op s = Some (s', evs) -> has_descriptor s').
  { intros op s s' evs Hs Hop.
    destruct (entry_step_shape _ _ _ _ Hop) as (_ & _ & _ & Hkeep). apply (Hkeep Hs). }
  pose proof (socks_connector_iter_entrywise has_descriptor Hstep e q Hq He) as Hiter.
  destruct (socks_connector_iter e q) as [| |q1 evs1|q1 evs1];
    try exact Hq; apply (IH q1 Hiter Hrest).
Qed.


(** ** Posting and draining the request pipe *)



(** ** The DNS probe and its answer *)

(** X12.  A DNS probe that was sent went to the name server [hosts_get_ns]
    named, at the port [htons(ocat_ns_port)], the low 16 bits of the
    configured value; [socks_dns_recv] hands a datagram to
    [oc_proc_response] exactly when it comes from that address and port,
    and returns -1 for every other sender and for a failed [recvfrom]. *)
Theorem socks_dns_recv_accepts_only_the_name_server (pe : PhaseAEnv) (de : DispEnv)
    (sq : SocksQueue_t) :
  fst (fst (socks_dns_req pe sq)) <> -1 ->
  exists (ns : in6_addr) (src : Z),
    pa_get_ns pe = Some (ns, src)
    /\ snd (socks_dns_req pe sq) = [EvDnsSend (sq_addr sq) (sq_fd sq)]
    /\ sq_fd (snd (fst (socks_dns_req pe sq))) = sq_fd sq
    /\ (de_recvfrom de = Some (htons (ocat_ns_port cfg), ns) ->
        socks_dns_recv de (snd (fst (socks_dns_req pe sq))) = de_proc_response de)
    /\ (de_recvfrom de <> Some (htons (ocat_ns_port cfg), ns) ->
        socks_dns_recv de (snd (fst (socks_dns_req pe sq))) = -1)
    /\ (0 <= ocat_ns_port cfg < 65536 -> htons (ocat_ns_port cfg) = ocat_ns_port cfg)
    /\ 0 <= htons (ocat_ns_port cfg) < 65536.
Proof.
  drop_unused.
  unfold socks_dns_req. intros Hsent.
  destruct (pa_get_ns pe) as [[ns src]|]; [|contradiction Hsent; reflexivity].
  exists ns, src. split; [reflexivity|].
  destruct (pa_sendto pe =? -1); [contradiction Hsent; reflexivity|]. simpl.
  split; [reflexivity|]. split; [reflexivity|].
  unfold socks_dns_recv, IN6_ARE_ADDR_EQUAL. simpl. split; [|split; [|split]].
  - intros ->. rewrite !Z.eqb_refl. reflexivity.
  - intros Hother. destruct (de_recvfrom de) as [[port from]|]; [|reflexivity].
    destruct (port =? htons (ocat_ns_port cfg)) eqn:Hport; [|reflexivity].
    destruct (from =? ns) eqn:Hfrom; [|reflexivity].
    apply Z.eqb_eq in Hport. apply Z.eqb_eq in Hfrom. subst.
    contradiction Hother. reflexivity.
  - intros Hrange. unfold htons. apply Z.mod_small. exact Hrange.
  - unfold htons. apply Z.mod_pos_bound. lia.
Qed.

(** ** Reset *)

(** X13.  [socks_reset] closes at most the descriptor of the entry and
    leaves a descriptor that is not positive; a second [socks_reset], or a
    second [socks_reschedule] at the same time, changes nothing and closes
    nothing. *)
Theorem socks_reset_idempotent (now : Z) (s : SocksQueue_t) :
  sq_fd (fst (socks_reset s)) <= 0
  /\ (snd (socks_reset s) = [] \/ snd (socks_reset s) = [EvClose (sq_fd s)])
  /\ socks_reset (fst (socks_reset s)) = (fst (socks_reset s), [])
  /\ socks_reschedule now (fst (socks_reschedule now s))
       = (fst (socks_reschedule now s), []).
Proof.
  drop_unused.
  unfold socks_reschedule, socks_reset. destruct s as [a fd st p r ct rt na nsrc id].
  simpl. destruct (fd >? 0) eqn:Hfd; simpl.
  - split; [lia|]. split; [right; reflexivity|]. split; reflexivity.
  - rewrite Hfd. simpl. split; [lia|]. split; [left; reflexivity|]. split; reflexivity.
Qed.

(** X14.  An entry whose [connect()] is still in progress when the select
    round ends without its descriptor being ready is not kept waiting: the
    dispatch leaves it alone and the next state scan, which has no case for
    [SOCKS_CONNECTING], resets it: the socket is closed (when its number is
    positive), the entry is back in [SOCKS_NEW] with restart time 0 and is
    not registered for [select]. *)
Theorem connecting_entry_reset_by_next_scan (t : Z) (e : PhaseAEnv) (s : SocksQueue_t)
    (fds : fdsets) :
  sq_state s = SOCKS_CONNECTING ->
  (forall (de : DispEnv) (rs ws : fd_set) (n : Z),
      FD_ISSET (sq_fd s) ws = false -> FD_ISSET (sq_fd s) rs = false ->
      dispatch_entry de rs ws s n = Some (s, n, []))
  /\ phaseA_entry t e s fds
       = (set_state SOCKS_NEW (set_restart_time 0 (if sq_fd s >? 0 then set_fd 0 s else s)),
          fds, if sq_fd s >? 0 then [EvClose (sq_fd s)] else [])
  /\ sq_retry (fst (fst (phaseA_entry t e s fds))) = sq_retry s.
Proof.
  drop_unused.
  intros Hs. split; [|split].
  - intros de rs ws n Hw Hr. unfold dispatch_entry, dispatch_write, dispatch_read.
    rewrite Hw. rewrite Hr. reflexivity.
  - unfold phaseA_entry, socks_reset. rewrite Hs.
    destruct (sq_fd s >? 0); reflexivity.
  - unfold phaseA_entry, socks_reset. rewrite Hs.
    destruct (sq_fd s >? 0); reflexivity.
Qed.


(** ** The synchronous probe, further *)

Lemma set_fd_set_fd (x y : Z) (s : SocksQueue_t) : set_fd y (set_fd x s) = set_fd y s.
Proof.
  drop_unused.
  reflexivity.
Qed.

Lemma last_cons_default {A : Type} (l : list A) (x d d' : A) :
  last (x :: l) d = last (x :: l) d'.
Proof.
  drop_unused.
  revert x. induction l as [|y l IH]; intros x; [reflexivity|].
  change (last (y :: l) d = last (y :: l) d'). apply IH.
Qed.

Lemma synchron_loop_failed_connects (fails : list SyncEnv) (e : SyncEnv) :
  Forall (fun f => se_term_req f = false /\ se_socket f <> -1
                   /\ se_connect f = ConnectError) fails ->
  se_term_req e = true ->
  forall sq : SocksQueue_t,
    sq_state sq = SOCKS_NEW ->
    synchron_loop (fails ++ [e]) sq
      = Some (set_fd (last (map se_socket fails) (sq_fd sq)) sq,
              map (fun f => EvConnect (sq_addr sq) (se_socket f)) fails).
Proof.
  drop_unused.
  intros Hfails Hterm.
  induction Hfails as [|f fails (Hft & Hfs & Hfc) _ IH]; intros sq Hs.
  - simpl. rewrite Hs. simpl. unfold synchron_body. rewrite Hterm.
    destruct sq; reflexivity.
  - change ((f :: fails) ++ [e]) with (f :: (fails ++ [e])).
    cbn [synchron_loop]. rewrite Hs. cbn [socks_state_eqb].
    unfold synchron_body. rewrite Hft, Hs. cbn [sq_fd set_fd].
    replace (se_socket f =? -1) with false by (symmetry; apply Z.eqb_neq; exact Hfs).
    rewrite Hfc. cbn [socks_tcp_connect Z.eqb].
    rewrite (IH (set_fd (se_socket f) sq) Hs). cbn [option_map fst snd app].
    rewrite set_fd_set_fd. cbn [map sq_addr set_fd sq_fd].
    destruct fails as [|g fails]; [reflexivity|].
    cbn [map]. rewrite (last_cons_default _ _ (se_socket f) (sq_fd sq)).
    reflexivity.
Qed.

(** X15.  The probe does not close the socket of a failed [connect()]: after
    any number of failed attempts and a termination request, one socket
    was created and connected for each attempt, none was closed, and the
    descriptor returned is the one of the last attempt. *)
Theorem synchron_failed_connects_leave_sockets_open (fails : list SyncEnv) (e : SyncEnv)
    (a : in6_addr) :
  Forall (fun f => se_term_req f = false /\ se_socket f <> -1
                   /\ se_connect f = ConnectError) fails ->
  se_term_req e = true ->
  synchron_loop (fails ++ [e]) (synchron_init a)
    = Some (set_fd (last (map se_socket fails) (-1)) (synchron_init a),
            map (fun f => EvConnect a (se_socket f)) fails)
  /\ synchron_socks_connect (fails ++ [e]) a = Some (last (map se_socket fails) (-1)).
Proof.
  drop_unused.
  intros Hfails Hterm.
  pose proof (synchron_loop_failed_connects fails e Hfails Hterm (synchron_init a) eq_refl)
    as H.
  split; [exact H|]. unfold synchron_socks_connect. rewrite H. reflexivity.
Qed.

Lemma synchron_loop_direct_stuck (envs : list SyncEnv) :
  socks5 cfg = CONNTYPE_DIRECT \/ socks5 cfg = CONNTYPE_OTHER ->
  Forall (fun f => se_term_req f = false) envs ->
  forall sq : SocksQueue_t,
    sq_state sq = SOCKS_CONNECTING -> synchron_loop envs sq = None.
Proof.
  drop_unused.
  intros Hmode Henvs. induction Henvs as [|f envs Hft _ IH]; intros sq Hs; simpl;
    rewrite Hs; simpl; [reflexivity|].
  unfold synchron_body. rewrite Hft, Hs.
  destruct Hmode as [-> | ->]; rewrite (IH sq Hs); reflexivity.
Qed.

(** X16.  Without a SOCKS proxy type ([CONNTYPE_DIRECT], or a value that is
    none of the three named) and without [rand_addr], the probe never
    returns by itself once its [connect()] went through: the case
    [SOCKS_CONNECTING] changes nothing, so the loop goes on for as long as
    no termination is requested. *)
Theorem synchron_socks_connect_direct_never_returns (e : SyncEnv) (envs : list SyncEnv)
    (a : in6_addr) :
  socks5 cfg = CONNTYPE_DIRECT \/ socks5 cfg = CONNTYPE_OTHER ->
  rand_addr cfg = false ->
  se_term_req e = false -> se_socket e <> -1 -> se_connect e <> ConnectError ->
  Forall (fun f => se_term_req f = false) envs ->
  synchron_socks_connect (e :: envs) a = None.
Proof.
  drop_unused.
  intros Hmode Hrand Ht Hsock Hconn Henvs.
  unfold synchron_socks_connect. cbn [synchron_loop synchron_init sq_state set_fd set_state
                                       socks_state_eqb].
  unfold synchron_body. rewrite Ht, Hrand. cbn [sq_state set_fd sq_fd].
  replace (se_socket e =? -1) with false by (symmetry; apply Z.eqb_neq; exact Hsock).
  replace (socks_tcp_connect (se_connect e) =? 0) with true
    by (destruct (se_connect e); [reflexivity | reflexivity | contradiction Hconn; reflexivity]).
  change (sq_state (synchron_init a)) with SOCKS_NEW. cbn iota.
  rewrite (synchron_loop_direct_stuck envs Hmode Henvs); reflexivity.
Qed.

(** ** The handshakes, step by step *)

Lemma entry_step_connected (e : DispEnv) (rs ws : fd_set) (n : Z) (s : SocksQueue_t) :
  sq_state s = SOCKS_CONNECTING ->
  FD_ISSET (sq_fd s) ws = true -> FD_ISSET (sq_fd s) rs = false ->
  de_so_error e = Some 0 ->
  (socks5 cfg = CONNTYPE_SOCKS5 ->
   fst (socks5_greet (de_write_w e) s) = 0 ->
   entry_step (OpDispatch e rs ws n) s
     = Some (set_state SOCKS_5GREET_SENT s, [EvWrite (sq_fd s) [5; 1; 0]]))
  /\ (socks5 cfg = CONNTYPE_SOCKS4A ->
      fst (socks_send_request (de_hosts e) (de_write_w e) s) = 0 ->
      entry_step (OpDispatch e rs ws n) s
        = Some (set_state SOCKS_4AREQ_SENT s,
                snd (socks_send_request (de_hosts e) (de_write_w e) s))).
Proof.
  drop_unused.
  intros Hs Hw Hr Herr.
  split; intros Hmode Hsent; cbn [entry_step]; unfold dispatch_entry, dispatch_write;
    rewrite Hw, Hs, Herr, Hmode; cbn [Z.eqb negb].
  - unfold socks5_greet in *. cbn [fst] in Hsent. rewrite Hsent. cbn [Z.eqb].
    unfold dispatch_read. cbn [sq_fd set_state]. rewrite Hr. reflexivity.
  - unfold socks_send_request in *. cbn [fst] in Hsent. rewrite Hsent. cbn [Z.eqb].
    unfold dispatch_read. cbn [sq_fd set_state]. rewrite Hr. reflexivity.
Qed.

Lemma entry_step_greeted (e : DispEnv) (rs ws : fd_set) (n : Z) (s : SocksQueue_t) :
  sq_state s = SOCKS_5GREET_SENT ->
  FD_ISSET (sq_fd s) rs = true ->
  socks5_greet_response (de_read e) = 0 ->
  fst (socks5_send_request (de_hosts e) (de_write_r e) s) = 0 ->
  entry_step (OpDispatch e rs ws n) s
    = Some (set_state SOCKS_5REQ_SENT s,
            snd (socks5_send_request (de_hosts e) (de_write_r e) s)).
Proof.
  drop_unused.
  intros Hs Hr Hresp Hsent. cbn [entry_step]. unfold dispatch_entry, dispatch_write.
  rewrite Hs. unfold socks5_send_request in *. cbn [fst snd] in *.
  destruct (FD_ISSET (sq_fd s) ws); unfold dispatch_read; rewrite Hr, Hs, Hresp;
    cbn [Z.eqb]; unfold socks5_send_request; rewrite Hsent; reflexivity.
Qed.

Lemma entry_step_replied (e : DispEnv) (rs ws : fd_set) (n : Z) (s : SocksQueue_t) :
  FD_ISSET (sq_fd s) rs = true ->
  (sq_state s = SOCKS_5REQ_SENT /\ socks5_rec_response (de_read e) = 0)
  \/ (sq_state s = SOCKS_4AREQ_SENT /\ socks_rec_response (de_read e) = 0) ->
  entry_step (OpDispatch e rs ws n) s
    = Some (set_state SOCKS_DELETE s,
            [EvActivate (sq_addr s) (sq_fd s) (de_time e - sq_connect_time s)]).
Proof.
  drop_unused.
  intros Hr Hcase. cbn [entry_step]. unfold dispatch_entry, dispatch_write.
  destruct Hcase as [[Hs Hrep]|[Hs Hrep]]; rewrite Hs;
    destruct (FD_ISSET (sq_fd s) ws); unfold dispatch_read; rewrite Hr, Hs, Hrep;
    reflexivity.
Qed.

(** X17.  A SOCKS5 handshake that goes well, over three rounds of the fd
    dispatch: the connect completes and the greeting is written; the
    greeting is accepted and the request is written; the reply reports
    success.  Then the peer is activated once, with the descriptor and the
    address of the entry and the time since the connect, the two frames were
    written in this order to that descriptor, and the entry is marked for
    deletion with all other members as they were. *)
Theorem socks5_handshake_activates_peer (e1 e2 e3 : DispEnv) (rs1 ws1 rs2 ws2 rs3 ws3 : fd_set)
    (n1 n2 n3 : Z) (s : SocksQueue_t) :
  socks5 cfg = CONNTYPE_SOCKS5 ->
  sq_state s = SOCKS_CONNECTING ->
  FD_ISSET (sq_fd s) ws1 = true -> FD_ISSET (sq_fd s) rs1 = false ->
  FD_ISSET (sq_fd s) rs2 = true -> FD_ISSET (sq_fd s) rs3 = true ->
  de_so_error e1 = Some 0 ->
  fst (socks5_greet (de_write_w e1) s) = 0 ->
  socks5_greet_response (de_read e2) = 0 ->
  fst (socks5_send_request (de_hosts e2) (de_write_r e2) s) = 0 ->
  socks5_rec_response (de_read e3) = 0 ->
  entry_run [OpDispatch e1 rs1 ws1 n1; OpDispatch e2 rs2 ws2 n2; OpDispatch e3 rs3 ws3 n3] s
    = (set_state SOCKS_DELETE s,
       [EvWrite (sq_fd s) [5; 1; 0]]
       ++ snd (socks5_send_request (de_hosts e2) (de_write_r e2) s)
       ++ [EvActivate (sq_addr s) (sq_fd s) (de_time e3 - sq_connect_time s)]).
Proof.
  drop_unused.
  intros Hmode Hs Hw1 Hr1 Hr2 Hr3 Herr Hgreet Hresp Hreq Hrep.
  cbn [entry_run].
  rewrite (proj1 (entry_step_connected e1 rs1 ws1 n1 s Hs Hw1 Hr1 Herr) Hmode Hgreet).
  rewrite (entry_step_greeted e2 rs2 ws2 n2 (set_state SOCKS_5GREET_SENT s)
             eq_refl Hr2 Hresp Hreq).
  rewrite (entry_step_replied e3 rs3 ws3 n3
             (set_state SOCKS_5REQ_SENT (set_state SOCKS_5GREET_SENT s))
             Hr3 (or_introl (conj eq_refl Hrep))).
  reflexivity.
Qed.

(** X18.  A SOCKS4a handshake that goes well, over two rounds of the fd
    dispatch: the connect completes and the request is written; the reply
    has VN 0 and CD 90.  Then the peer is activated once with the
    descriptor of the entry, and the entry is marked for deletion. *)
Theorem socks4a_handshake_activates_peer (e1 e2 : DispEnv) (rs1 ws1 rs2 ws2 : fd_set)
    (n1 n2 : Z) (s : SocksQueue_t) :
  socks5 cfg = CONNTYPE_SOCKS4A ->
  sq_state s = SOCKS_CONNECTING ->
  FD_ISSET (sq_fd s) ws1 = true -> FD_ISSET (sq_fd s) rs1 = false ->
  FD_ISSET (sq_fd s) rs2 = true ->
  de_so_error e1 = Some 0 ->
  fst (socks_send_request (de_hosts e1) (de_write_w e1) s) = 0 ->
  socks_rec_response (de_read e2) = 0 ->
  entry_run [OpDispatch e1 rs1 ws1 n1; OpDispatch e2 rs2 ws2 n2] s
    = (set_state SOCKS_DELETE s,
       snd (socks_send_request (de_hosts e1) (de_write_w e1) s)
       ++ [EvActivate (sq_addr s) (sq_fd s) (de_time e2 - sq_connect_time s)]).
Proof.
  drop_unused.
  intros Hmode Hs Hw1 Hr1 Hr2 Herr Hreq Hrep.
  cbn [entry_run].
  rewrite (proj2 (entry_step_connected e1 rs1 ws1 n1 s Hs Hw1 Hr1 Herr) Hmode Hreq).
  rewrite (entry_step_replied e2 rs2 ws2 n2 (set_state SOCKS_4AREQ_SENT s)
             Hr2 (or_intror (conj eq_refl Hrep))).
  reflexivity.
Qed.


(** ** The queue over an iteration *)

Lemma socks_unqueue_length_le (q : queue) :
  forall i : nat, (List.length (socks_unqueue i q) <= List.length q)%nat.
Proof.
  drop_unused.
  induction q as [|x q IH]; intros i; simpl; [lia|].
  destruct i as [|i]; simpl; [lia|]. specialize (IH i). lia.
Qed.

Lemma reap_loop_length_le (q : queue) (i : nat) :
  (List.length (reap_loop q i) <= List.length q)%nat.
Proof.
  drop_unused.
  revert q i.
  apply (reap_loop_elim (fun q _ r => (List.length r <= List.length q)%nat)).
  - intros. lia.
  - intros q i squeue ? ? IH ? ?. exact IH.
  - intros. simpl. lia.
  - intros q i first rest Hunq squeue ? ? IH ? ? ?.
    pose proof (socks_unqueue_length_le q i) as Hle. rewrite Hunq in Hle.
    simpl in *. lia.
Qed.

Lemma pipe_drain_growth (m : bool) (rec : pipe_read) (q q' : queue) (evs : list event) :
  pipe_drain m rec q = Some (q', evs) ->
  (List.length q' <= S (List.length q))%nat
  /\ incl (map sq_addr q') (pipe_addr rec ++ map sq_addr q)
  /\ (~ In 0 (map sq_addr q) -> ~ In 0 (map sq_addr q')).
Proof.
  drop_unused.
  unfold pipe_drain. intros H.
  assert (Hsame : (List.length q <= S (List.length q))%nat
                  /\ incl (map sq_addr q) (pipe_addr rec ++ map sq_addr q)
                  /\ (~ In 0 (map sq_addr q) -> ~ In 0 (map sq_addr q))).
  { split; [lia|]. split; [apply incl_appr, incl_refl | tauto]. }
  destruct rec as [|k|next sq]; try (inversion H; subst; exact Hsame).
  destruct (negb (next =? 0)); [inversion H; subst; exact Hsame|].
  unfold IN6_IS_ADDR_UNSPECIFIED in H.
  destruct (sq_addr sq =? 0) eqn:Hzero; [inversion H; subst; exact Hsame|].
  unfold socks_enqueue in H.
  destruct (socks_get_req q (sq_addr sq)); [inversion H; subst; exact Hsame|].
  destruct m; [|discriminate H]. inversion H; subst. simpl.
  split; [lia|]. split; [apply incl_refl|].
  intros Hq [Hhead|Htail]; [apply Z.eqb_neq in Hzero; contradiction | contradiction].
Qed.

(** X19.  What an iteration of the reactor can do to the set of queued
    addresses: when [select] fails the addresses are as before, in the same
    order; otherwise the queue has grown by at most one entry, every
    address in it was queued before or is the address of the record read
    from the pipe, and the unspecified address does not get in. *)
Theorem socks_connector_iter_queue_growth (e : IterEnv) (q : queue) :
  match socks_connector_iter e q with
  | IterTerminated | IterExit => True
  | IterSelectFailed q' _ => map sq_addr q' = map sq_addr q
  | IterDone q' _ =>
      (List.length q' <= S (List.length q))%nat
      /\ incl (map sq_addr q') (pipe_addr (ie_pipe e) ++ map sq_addr q)
      /\ (~ In 0 (map sq_addr q) -> ~ In 0 (map sq_addr q'))
  end.
Proof.
  drop_unused.
  unfold socks_connector_iter.
  destruct (ie_term_req e); [exact I|].
  pose proof (phaseA_loop_addrs (ie_time e) (ie_phaseA e) q 0
                (MFD_SET_r (socksfd0 cfg) (mk_fdsets [] [] 0))) as Ha.
  destruct (phaseA_loop _ _ _ _ _) as [[q1 fds1] evs1]. simpl in Ha.
  destruct (ie_select_error e); [exact Ha|].
  set (rs := filter (ie_ready_r e) (rset fds1)).
  set (ws := filter (ie_ready_w e) (wset fds1)).
  set (n := Z.of_nat (List.length rs + List.length ws)).
  assert (Hafter : forall q2 n2 q3 evs3,
            dispatch_loop (ie_dispatch e) 0 rs ws q2 n2 = Some (q3, evs3) ->
            (List.length q2 <= S (List.length q1))%nat
            /\ incl (map sq_addr q2) (pipe_addr (ie_pipe e) ++ map sq_addr q1)
            /\ (~ In 0 (map sq_addr q1) -> ~ In 0 (map sq_addr q2)) ->
            (List.length (reap_loop q3 0) <= S (List.length q))%nat
            /\ incl (map sq_addr (reap_loop q3 0)) (pipe_addr (ie_pipe e) ++ map sq_addr q)
            /\ (~ In 0 (map sq_addr q) -> ~ In 0 (map sq_addr (reap_loop q3 0)))).
  { intros q2 n2 q3 evs3 Hd (Hlen & Hincl & Hzero).
    pose proof (dispatch_loop_addrs _ _ _ _ _ _ _ _ Hd) as Hd3.
    assert (Hreap : incl (map sq_addr (reap_loop q3 0)) (map sq_addr q2)).
    { intros a Hin. apply in_map_iff in Hin. destruct Hin as (s & <- & Hs).
      rewrite <- Hd3. apply in_map. apply (reap_loop_incl _ _ _ Hs). }
    rewrite Ha in Hincl, Hzero.
    split; [|split].
    - pose proof (reap_loop_length_le q3 0) as Hl3.
      assert (List.length q3 = List.length q2)
        by (rewrite <- (length_map sq_addr q3), Hd3; apply length_map).
      assert (List.length q1 = List.length q)
        by (rewrite <- (length_map sq_addr q1), Ha; apply length_map).
      lia.
    - intros a Hin. apply Hincl. apply Hreap. exact Hin.
    - intros Hq Hin. apply (Hzero Hq). apply Hreap. exact Hin. }
  destruct (FD_ISSET (socksfd0 cfg) rs).
  - destruct (pipe_drain (ie_malloc e) (ie_pipe e) q1) as [[q2 evs2]|] eqn:Hp;
      simpl; [|exact I].
    destruct (dispatch_loop (ie_dispatch e) 0 rs ws q2 (n - 1)) as [[q3 evs3]|] eqn:Hd;
      [|exact I].
    apply (Hafter _ _ _ _ Hd). apply (pipe_drain_growth _ _ _ _ _ Hp).
  - destruct (dispatch_loop (ie_dispatch e) 0 rs ws q1 n) as [[q3 evs3]|] eqn:Hd;
      [|exact I].
    apply (Hafter _ _ _ _ Hd). split; [lia|]. split; [apply incl_appr, incl_refl | tauto].
Qed.

(** ** After the answer of the name server *)

Lemma phaseA_connect_keeps_events (t : Z) (e : PhaseAEnv) (s : SocksQueue_t) (fds : fdsets)
    (evs0 : list event) (ev : event) :
  In ev evs0 -> In ev (snd (phaseA_connect t e s fds evs0)).
Proof.
  drop_unused.
  intros Hin. unfold phaseA_connect.
  destruct (negb _); [exact Hin|]. simpl.
  destruct (pa_tcp_socket e =? -1); [exact Hin|].
  destruct (socks_tcp_connect (pa_connect e) =? -1).
  - destruct (socks_reschedule _ _) as [s3 evs3]. simpl.
    apply in_or_app. left. apply in_or_app. left. exact Hin.
  - simpl. apply in_or_app. left. exact Hin.
Qed.

(** X20.  When the datagram awaited in [SOCKS_DNS_SENT] is accepted, the UDP
    socket is closed and the entry goes back to [SOCKS_NEW] with retry 0
    and restart time 0.  On the next scan, if the hosts database now has a
    name for the address no probe is sent any more; if it still has none
    (and DNS lookup is on, a UDP socket and a name server are there), the
    probe is sent again. *)
Theorem dns_answer_then_scan (de : DispEnv) (rs ws : fd_set) (n : Z) (s : SocksQueue_t) :
  sq_state s = SOCKS_DNS_SENT ->
  FD_ISSET (sq_fd s) rs = true ->
  socks_dns_recv de s <> -1 ->
  let s1 := set_restart_time 0 (set_retry 0 (set_state SOCKS_NEW s)) in
  entry_step (OpDispatch de rs ws n) s = Some (s1, [EvClose (sq_fd s)])
  /\ forall (t : Z) (pe : PhaseAEnv) (fds : fdsets),
       0 <= t -> sq_perm s <> 0 \/ 1 <= SOCKS_MAX_RETRY ->
       (fst (get_hostname (pa_hosts pe) s None 0) <> -1 ->
        filter is_dns_send (snd (phaseA_entry t pe s1 fds)) = [])
       /\ (dns_lookup cfg = true ->
           fst (get_hostname (pa_hosts pe) s None 0) = -1 ->
           pa_udp_socket pe <> -1 -> pa_get_ns pe <> None ->
           In (EvDnsSend (sq_addr s) (pa_udp_socket pe))
              (snd (phaseA_entry t pe s1 fds))).
Proof.
  drop_unused.
  intros Hs Hr Hrecv s1. split.
  - cbn [entry_step]. unfold dispatch_entry, dispatch_write. rewrite Hs.
    replace (socks_dns_recv de s =? -1) with false in *
      by (symmetry; apply Z.eqb_neq; exact Hrecv).
    destruct (FD_ISSET (sq_fd s) ws); unfold dispatch_read; rewrite Hr, Hs;
      replace (socks_dns_recv de s =? -1) with false
        by (symmetry; apply Z.eqb_neq; exact Hrecv);
      reflexivity.
  - intros t pe fds Ht Hlive.
    assert (Hscan : phaseA_entry t pe s1 fds = phaseA_new t pe s1 fds) by reflexivity.
    rewrite Hscan. unfold phaseA_new.
    replace (t <? sq_restart_time s1) with false
      by (symmetry; apply Z.ltb_ge; exact Ht).
    change (sq_retry s1) with 0. replace (int_incr 0) with 1 by reflexivity.
    cbn [sq_perm sq_retry set_retry s1 set_restart_time set_state].
    assert (Hkeep : (sq_perm s =? 0) && (1 >? SOCKS_MAX_RETRY) = false).
    { destruct Hlive as [Hp|Hm].
      - replace (sq_perm s =? 0) with false by (symmetry; apply Z.eqb_neq; exact Hp).
        reflexivity.
      - replace (1 >? SOCKS_MAX_RETRY) with false
          by (symmetry; rewrite Z.gtb_ltb; apply Z.ltb_ge; exact Hm).
        apply andb_false_r. }
    rewrite Hkeep. change (1 <=? 1) with true.
    change (get_hostname (pa_hosts pe) (set_retry 1 s1) None 0)
      with (get_hostname (pa_hosts pe) s None 0).
    split.
    + intros Hname.
      replace (fst (get_hostname (pa_hosts pe) s None 0) =? -1) with false
        by (symmetry; apply Z.eqb_neq; exact Hname).
      rewrite andb_false_r. cbn [andb].
      apply phaseA_connect_no_dns; reflexivity.
    + intros Hdns Hname Hsock Hns. rewrite Hdns, Hname. cbn [Z.eqb andb].
      cbn [sq_fd set_fd].
      replace (pa_udp_socket pe =? -1) with false
        by (symmetry; apply Z.eqb_neq; exact Hsock).
      cbn [negb]. unfold socks_dns_req.
      destruct (pa_get_ns pe) as [[ns src]|]; [|contradiction Hns; reflexivity].
      cbn [sq_addr sq_fd set_id set_fd set_retry set_restart_time set_state set_ns_addr
           set_ns_src].
      destruct (pa_sendto pe =? -1) eqn:Hsend.
      * cbn [Z.eqb negb]. apply phaseA_connect_keeps_events.
        apply in_or_app. left. left. reflexivity.
      * rewrite Hsend. cbn [negb snd]. left. reflexivity.
Qed.


(** ** What the scan registers for [select] *)

Lemma FD_ISSET_FD_SET (fd : Z) (s : fd_set) : FD_ISSET fd (FD_SET fd s) = true.
Proof.
  drop_unused.
  unfold FD_SET. destruct (FD_ISSET fd s) eqn:H; [exact H|].
  unfold FD_ISSET. simpl. rewrite Z.eqb_refl. reflexivity.
Qed.

Lemma FD_ISSET_FD_SET_mono (x fd : Z) (s : fd_set) :
  FD_ISSET x s = true -> FD_ISSET x (FD_SET fd s) = true.
Proof.
  drop_unused.
  intros H. unfold FD_SET. destruct (FD_ISSET fd s); [exact H|].
  unfold FD_ISSET in *. simpl. rewrite H. apply orb_true_r.
Qed.

Lemma fds_le_refl (a : fdsets) : fds_le a a.
Proof.
  drop_unused.
  split; intros fd H; exact H.
Qed.

Lemma fds_le_trans (a b c : fdsets) : fds_le a b -> fds_le b c -> fds_le a c.
Proof.
  drop_unused.
  intros [H1 H2] [H3 H4]. split; intros fd H; [apply H3, H1, H | apply H4, H2, H].
Qed.

Lemma fds_le_MFD_SET_r (fd : Z) (a : fdsets) : fds_le a (MFD_SET_r fd a).
Proof.
  drop_unused.
  split; intros x H; simpl; [apply FD_ISSET_FD_SET_mono; exact H | exact H].
Qed.

Lemma fds_le_MFD_SET_w (fd : Z) (a : fdsets) : fds_le a (MFD_SET_w fd a).
Proof.
  drop_unused.
  split; intros x H; simpl; [exact H | apply FD_ISSET_FD_SET_mono; exact H].
Qed.

Lemma registered_le (s : SocksQueue_t) (a b : fdsets) :
  fds_le a b -> registered s a -> registered s b.
Proof.
  drop_unused.
  intros [Hr Hw]. unfold registered. destruct (sq_state s); auto.
Qed.

Lemma phaseA_connect_registers (t : Z) (e : PhaseAEnv) (s : SocksQueue_t) (fds : fdsets)
    (evs0 : list event) :
  sq_state s = SOCKS_NEW ->
  let r := phaseA_connect t e s fds evs0 in
  registered (fst (fst r)) (snd (fst r)) /\ fds_le fds (snd (fst r)).
Proof.
  drop_unused.
  intros Hs. unfold phaseA_connect.
  destruct (negb _); [simpl; unfold registered; rewrite Hs; split; [exact I | apply fds_le_refl]|].
  simpl. destruct (pa_tcp_socket e =? -1);
    [simpl; unfold registered; simpl; rewrite Hs; split; [exact I | apply fds_le_refl]|].
  destruct (socks_tcp_connect (pa_connect e) =? -1).
  - pose proof (socks_reschedule_shape (pa_time e)
                  (set_connect_time t (set_fd (pa_tcp_socket e) s))) as [Hst _].
    destruct (socks_reschedule _ _) as [s3 evs3]. simpl in *.
    unfold registered. rewrite Hst. split; [exact I | apply fds_le_refl].
  - simpl. split; [|apply fds_le_MFD_SET_w].
    unfold registered. simpl. apply FD_ISSET_FD_SET.
Qed.

Lemma phaseA_entry_registers (t : Z) (e : PhaseAEnv) (s : SocksQueue_t) (fds : fdsets) :
  let r := phaseA_entry t e s fds in
  registered (fst (fst r)) (snd (fst r)) /\ fds_le fds (snd (fst r)).
Proof.
  drop_unused.
  unfold phaseA_entry. destruct (sq_state s) eqn:Hs.
  - (* SOCKS_NEW *)
    unfold phaseA_new.
    destruct (t <? sq_restart_time s);
      [simpl; unfold registered; rewrite Hs; split; [exact I | apply fds_le_refl]|].
    cbn zeta.
    destruct ((sq_perm _ =? 0) && _);
      [simpl; unfold registered; simpl; split; [exact I | apply fds_le_refl]|].
    destruct (dns_lookup cfg && _ && _);
      [|apply phaseA_connect_registers; exact Hs].
    destruct (negb (sq_fd _ =? -1));
      [|apply phaseA_connect_registers; exact Hs].
    unfold socks_dns_req. destruct (pa_get_ns e) as [[ns src]|].
    + destruct (pa_sendto e =? -1) eqn:Hsend.
      * cbn [Z.eqb negb]. apply phaseA_connect_registers. exact Hs.
      * rewrite Hsend. cbn [negb fst snd]. split; [|apply fds_le_MFD_SET_r].
        unfold registered. simpl. apply FD_ISSET_FD_SET.
    + cbn [Z.eqb negb]. apply phaseA_connect_registers. exact Hs.
  - (* SOCKS_CONNECTING *)
    pose proof (socks_reset_shape s) as [Hst _].
    destruct (socks_reset s) as [s1 evs1]. simpl in *.
    unfold registered. rewrite Hst. split; [exact I | apply fds_le_refl].
  - simpl. unfold registered. rewrite Hs. simpl.
    split; [apply FD_ISSET_FD_SET | apply (fds_le_MFD_SET_r (sq_fd s) fds)].
  - simpl. unfold registered. rewrite Hs. simpl.
    split; [apply FD_ISSET_FD_SET | apply (fds_le_MFD_SET_r (sq_fd s) fds)].
  - simpl. unfold registered. rewrite Hs. simpl.
    split; [apply FD_ISSET_FD_SET | apply (fds_le_MFD_SET_r (sq_fd s) fds)].
  - (* SOCKS_DNS_SENT *)
    unfold phaseA_dns_sent.
    destruct (t <? sq_restart_time s).
    + simpl. unfold registered. rewrite Hs. simpl.
      split; [apply FD_ISSET_FD_SET | apply (fds_le_MFD_SET_r (sq_fd s) fds)].
    + unfold dns_fallback.
      destruct (sq_retry s <? SOCKS_DNS_RETRY);
        [|simpl; unfold registered; simpl; split; [exact I | apply fds_le_refl]].
      unfold socks_dns_req. destruct (pa_get_ns e) as [[ns src]|].
      * destruct (pa_sendto e =? -1) eqn:Hsend.
        -- simpl. unfold registered. simpl. split; [exact I | apply fds_le_refl].
        -- rewrite Hsend. cbn [negb fst snd]. split; [|apply fds_le_MFD_SET_r].
           unfold registered. simpl. rewrite Hs. apply FD_ISSET_FD_SET.
      * simpl. unfold registered. simpl. split; [exact I | apply fds_le_refl].
  - (* SOCKS_READY *)
    pose proof (socks_reset_shape s) as [Hst _].
    destruct (socks_reset s) as [s1 evs1]. simpl in *.
    unfold registered. rewrite Hst. split; [exact I | apply fds_le_refl].
  - simpl. unfold registered. rewrite Hs. split; [exact I | apply fds_le_refl].
Qed.

(** X21.  After the state scan every entry that waits on its descriptor has
    it in the set [select] is called with: the write set for an entry in
    [SOCKS_CONNECTING], the read set for an entry that awaits a reply or a
    DNS answer.  The scan only adds to the sets it starts with, so the
    request pipe stays in the read set. *)
Theorem phaseA_loop_registers_waiting_entries (t : Z) (envs : nat -> PhaseAEnv) (q : queue) :
  forall (i : nat) (fds : fdsets),
    let r := phaseA_loop t envs i q fds in
    Forall (fun s => registered s (snd (fst r))) (fst (fst r))
    /\ fds_le fds (snd (fst r))
    /\ FD_ISSET (socksfd0 cfg)
         (rset (snd (fst (phaseA_loop t envs i q (MFD_SET_r (socksfd0 cfg) fds))))) = true.
Proof.
  drop_unused.
  assert (Hmain : forall (i : nat) (fds : fdsets),
            Forall (fun s => registered s (snd (fst (phaseA_loop t envs i q fds))))
                   (fst (fst (phaseA_loop t envs i q fds)))
            /\ fds_le fds (snd (fst (phaseA_loop t envs i q fds)))).
  { induction q as [|s q IH]; intros i fds; simpl.
    - split; [constructor | apply fds_le_refl].
    - pose proof (phaseA_entry_registers t (envs i) s fds) as [Hreg Hle].
      destruct (phaseA_entry t (envs i) s fds) as [[s1 fds1] evs1]. simpl in Hreg, Hle.
      specialize (IH (S i) fds1).
      destruct (phaseA_loop t envs (S i) q fds1) as [[q2 fds2] evs2]. simpl in *.
      destruct IH as [Hall Hle2]. split.
      + constructor; [apply (registered_le _ _ _ Hle2 Hreg) | exact Hall].
      + apply (fds_le_trans _ _ _ Hle Hle2). }
  intros i fds. cbn zeta. destruct (Hmain i fds) as [H1 H2].
  split; [exact H1|]. split; [exact H2|].
  destruct (Hmain i (MFD_SET_r (socksfd0 cfg) fds)) as [_ [Hr _]].
  apply Hr. simpl. apply FD_ISSET_FD_SET.
Qed.


(** ** Waiting for the restart time *)

Lemma entry_step_not_due (op : entry_op) (s : SocksQueue_t) :
  sq_state s = SOCKS_NEW ->
  match op with
  | OpScan t _ _ => t < sq_restart_time s
  | OpDispatch _ rs ws _ =>
      FD_ISSET (sq_fd s) rs = false /\ FD_ISSET (sq_fd s) ws = false
  end ->
  entry_step op s = Some (s, []).
Proof.
  drop_unused.
  intros Hs Hop. destruct op as [t e fds | e rs ws n]; cbn [entry_step].
  - unfold phaseA_entry, phaseA_new. rewrite Hs.
    replace (t <? sq_restart_time s) with true by (symmetry; apply Z.ltb_lt; exact Hop).
    reflexivity.
  - destruct Hop as [Hr Hw]. unfold dispatch_entry, dispatch_write, dispatch_read.
    rewrite Hw, Hr. reflexivity.
Qed.

(** X22.  After [socks_reschedule] at time [now] the entry is left alone
    until [now + TOR_SOCKS_CONN_TIMEOUT]: every state scan before that time
    passes it over, and so does the fd dispatch as long as its (closed)
    descriptor number is in neither set; nothing is changed and no system
    call is made for it. *)
Theorem rescheduled_entry_waits (now : Z) (s0 : SocksQueue_t) (ops : list entry_op) :
  let s := fst (socks_reschedule now s0) in
  Forall (fun op => match op with
                    | OpScan t _ _ => t < now + TOR_SOCKS_CONN_TIMEOUT
                    | OpDispatch _ rs ws _ =>
                        FD_ISSET (sq_fd s) rs = false /\ FD_ISSET (sq_fd s) ws = false
                    end) ops ->
  entry_run ops s = (s, []).
Proof.
  drop_unused.
  intros s Hops.
  assert (Hs : sq_state s = SOCKS_NEW) by apply socks_reschedule_shape.
  assert (Ht : sq_restart_time s = now + TOR_SOCKS_CONN_TIMEOUT).
  { unfold s, socks_reschedule. destruct (socks_reset s0) as [s1 evs1]. reflexivity. }
  induction Hops as [|op ops Hop _ IH]; [reflexivity|].
  cbn [entry_run]. rewrite (entry_step_not_due op s Hs).
  - rewrite IH. reflexivity.
  - destruct op; [rewrite Ht; exact Hop | exact Hop].
Qed.

(** ** The synchronous probe: the handshake *)

Lemma onion_of_set_state (hosts : hosts_dir) (st : socks_state) (s : SocksQueue_t) :
  onion_of hosts (set_state st s) = onion_of hosts s.
Proof.
  drop_unused.
  reflexivity.
Qed.

Lemma synchron_loop_ready (envs : list SyncEnv) (sq : SocksQueue_t) :
  sq_state sq = SOCKS_READY -> synchron_loop envs sq = Some (sq, []).
Proof.
  drop_unused.
  intros Hs. destruct envs; simpl; rewrite Hs; reflexivity.
Qed.

(** X23.  When everything goes well the probe returns the descriptor of its
    connection, open, after exactly one pass per handshake step: connect,
    request and reply with SOCKS4a; connect, greeting, greeting reply with
    request, and reply with SOCKS5.  Later answers are not consumed. *)
Theorem synchron_socks_connect_returns_descriptor (e1 e2 e3 e4 : SyncEnv)
    (rest : list SyncEnv) (a : in6_addr) :
  rand_addr cfg = false ->
  se_term_req e1 = false -> se_term_req e2 = false -> se_term_req e3 = false ->
  se_socket e1 <> -1 -> se_connect e1 <> ConnectError ->
  (socks5 cfg = CONNTYPE_SOCKS4A ->
   fst (socks_send_request (se_hosts e2) (se_write e2)
          (set_fd (se_socket e1) (synchron_init a))) = 0 ->
   socks_rec_response (se_read e3) = 0 ->
   synchron_loop (e1 :: e2 :: e3 :: rest) (synchron_init a)
     = Some (set_state SOCKS_READY (set_fd (se_socket e1) (synchron_init a)),
             [EvConnect a (se_socket e1)]
             ++ snd (socks_send_request (se_hosts e2) (se_write e2)
                       (set_fd (se_socket e1) (synchron_init a))))
   /\ synchron_socks_connect (e1 :: e2 :: e3 :: rest) a = Some (se_socket e1))
  /\ (socks5 cfg = CONNTYPE_SOCKS5 ->
      se_term_req e4 = false ->
      fst (socks5_greet (se_write e2) (set_fd (se_socket e1) (synchron_init a))) = 0 ->
      socks5_greet_response (se_read e3) = 0 ->
      fst (socks5_send_request (se_hosts e3) (se_write_r e3)
             (set_fd (se_socket e1) (synchron_init a))) = 0 ->
      socks5_rec_response (se_read e4) = 0 ->
      synchron_loop (e1 :: e2 :: e3 :: e4 :: rest) (synchron_init a)
        = Some (set_state SOCKS_READY (set_fd (se_socket e1) (synchron_init a)),
                [EvConnect a (se_socket e1); EvWrite (se_socket e1) [5; 1; 0]]
                ++ snd (socks5_send_request (se_hosts e3) (se_write_r e3)
                          (set_fd (se_socket e1) (synchron_init a))))
      /\ synchron_socks_connect (e1 :: e2 :: e3 :: e4 :: rest) a = Some (se_socket e1)).
Proof.
  drop_unused.
  intros Hrand Ht1 Ht2 Ht3 Hsock Hconn.
  assert (Hpass1 : synchron_body e1 (synchron_init a)
                   = inr (set_state SOCKS_CONNECTING (set_fd (se_socket e1) (synchron_init a)),
                          [EvConnect a (se_socket e1)])).
  { unfold synchron_body. rewrite Ht1, Hrand.
    change (sq_state (synchron_init a)) with SOCKS_NEW. cbn iota. cbn [sq_fd set_fd].
    replace (se_socket e1 =? -1) with false by (symmetry; apply Z.eqb_neq; exact Hsock).
    replace (socks_tcp_connect (se_connect e1) =? 0) with true
      by (destruct (se_connect e1);
          [reflexivity | reflexivity | contradiction Hconn; reflexivity]).
    reflexivity. }
  split.
  - intros Hmode Hsent Hrep.
    assert (Hloop : synchron_loop (e1 :: e2 :: e3 :: rest) (synchron_init a)
              = Some (set_state SOCKS_READY (set_fd (se_socket e1) (synchron_init a)),
                      [EvConnect a (se_socket e1)]
                      ++ snd (socks_send_request (se_hosts e2) (se_write e2)
                                (set_fd (se_socket e1) (synchron_init a))))).
    { cbn [synchron_loop]. change (sq_state (synchron_init a)) with SOCKS_NEW.
      cbn [socks_state_eqb]. rewrite Hpass1. cbn [sq_state set_state socks_state_eqb].
      unfold synchron_body at 1. rewrite Ht2, Hmode. cbn [sq_state set_state].
      unfold socks_send_request in *. cbn [fst snd] in *.
      rewrite !onion_of_set_state.
      rewrite Hsent. cbn [Z.eqb sq_state set_state socks_state_eqb].
      unfold synchron_body at 1. rewrite Ht3. cbn [sq_state set_state].
      rewrite Hrep. cbn [Z.eqb]. rewrite synchron_loop_ready by reflexivity.
      reflexivity. }
    split; [exact Hloop|]. unfold synchron_socks_connect. rewrite Hloop. reflexivity.
  - intros Hmode Ht4 Hgreet Hresp Hsent Hrep.
    assert (Hloop : synchron_loop (e1 :: e2 :: e3 :: e4 :: rest) (synchron_init a)
              = Some (set_state SOCKS_READY (set_fd (se_socket e1) (synchron_init a)),
                      [EvConnect a (se_socket e1); EvWrite (se_socket e1) [5; 1; 0]]
                      ++ snd (socks5_send_request (se_hosts e3) (se_write_r e3)
                                (set_fd (se_socket e1) (synchron_init a))))).
    { cbn [synchron_loop]. change (sq_state (synchron_init a)) with SOCKS_NEW.
      cbn [socks_state_eqb]. rewrite Hpass1. cbn [sq_state set_state socks_state_eqb].
      unfold synchron_body at 1. rewrite Ht2, Hmode. cbn [sq_state set_state].
      unfold socks5_greet in *. cbn [fst snd] in *.
      rewrite Hgreet. cbn [Z.eqb sq_state set_state socks_state_eqb].
      unfold synchron_body at 1. rewrite Ht3. cbn [sq_state set_state].
      rewrite Hresp. cbn [Z.eqb].
      unfold socks5_send_request in *. cbn [fst snd] in *.
      rewrite !onion_of_set_state.
      rewrite Hsent. cbn [Z.eqb sq_state set_state socks_state_eqb].
      unfold synchron_body at 1. rewrite Ht4. cbn [sq_state set_state].
      rewrite Hrep. cbn [Z.eqb]. rewrite synchron_loop_ready by reflexivity.
      reflexivity. }
    split; [exact Hloop|]. unfold synchron_socks_connect. rewrite Hloop. reflexivity.
Qed.

End Connector.

(** * Closed instances *)

Lemma socks_rec_response_success_iff_witness :
  (8 <= List.length sample_reply4_ok)%nat
  /\ socks_rec_response (Some sample_reply4_ok) = 0
  /\ socks_rec_response (Some sample_reply4_rejected) = -1
  /\ (List.length sample_reply4_short < 8)%nat
  /\ socks_rec_response (Some sample_reply4_short) = -1.
Proof.
  assert (H8 : (8 <= List.length sample_reply4_ok)%nat) by (simpl; lia).
  assert (H8' : (8 <= List.length sample_reply4_rejected)%nat) by (simpl; lia).
  assert (H3 : (List.length sample_reply4_short < 8)%nat) by (simpl; lia).
  split; [exact H8|]. split; [|split; [|split; [exact H3|]]].
  - apply (proj1 (proj1 socks_rec_response_success_iff _ H8)). split; reflexivity.
  - apply (proj2 (proj1 socks_rec_response_success_iff _ H8')). right. simpl. lia.
  - apply (proj1 (proj2 socks_rec_response_success_iff) _ H3).
Defined.

(** A reply of four bytes with VER = 5, REP = 0, RSV = 0 is refused. *)
Lemma socks5_rec_response_four_bytes_counterexample :
  (4 <= List.length sample_reply5_four)%nat
  /\ nth 0 sample_reply5_four 0 = 5 /\ nth 2 sample_reply5_four 0 = 0 /\ nth 1 sample_reply5_four 0 = 0
  /\ socks5_rec_response (Some sample_reply5_four) = -1
  /\ socks5_rec_response (Some sample_reply5_four) <> 0.
Proof.
  repeat split; try reflexivity; try (simpl; lia); discriminate.
Qed.

Lemma socks5_rec_response_success_iff_witness :
  sq_state (sample_entry 1 7 SOCKS_5REQ_SENT 1) = SOCKS_5REQ_SENT
  /\ FD_ISSET (sq_fd (sample_entry 1 7 SOCKS_5REQ_SENT 1)) [7] = true
  /\ socks5_rec_response (de_read (sample_disp_env sample_reply5_refused)) <> 0
  /\ sq_state (fst (fst (dispatch_read sample_CONN_TIMEOUT sample_ipv6tonion
                           (sample_setup CONNTYPE_SOCKS5 false false)
                           (sample_disp_env sample_reply5_refused) [7]
                           (sample_entry 1 7 SOCKS_5REQ_SENT 1) 1 []))) = SOCKS_NEW.
Proof.
  assert (H1 : sq_state (sample_entry 1 7 SOCKS_5REQ_SENT 1) = SOCKS_5REQ_SENT)
    by reflexivity.
  assert (H2 : FD_ISSET (sq_fd (sample_entry 1 7 SOCKS_5REQ_SENT 1)) [7] = true)
    by reflexivity.
  assert (H3 : socks5_rec_response
                 (de_read (sample_disp_env sample_reply5_refused)) <> 0)
    by (vm_compute; discriminate).
  split; [exact H1|]. split; [exact H2|]. split; [exact H3|].
  rewrite (proj2 (socks5_rec_response_success_iff sample_CONN_TIMEOUT sample_ipv6tonion
                    (sample_setup CONNTYPE_SOCKS5 false false)) _ _ _ 1 [] H1 H2 H3).
  reflexivity.
Defined.

(** An entry whose descriptor is [-1], as a scan with a failing [socket()]
    leaves it, keeps that descriptor through [socks_reschedule]. *)
Lemma socks_reschedule_negative_fd_counterexample :
  fst (fst (phaseA_entry sample_MAX_RETRY sample_DNS_RETRY sample_DNS_RETRY_TIMEOUT
              sample_CONN_TIMEOUT sample_ipv6tonion
              (sample_setup CONNTYPE_SOCKS5 false false) 100
              (sample_scan_env (-1) ConnectOk) (sample_entry 1 0 SOCKS_NEW 0) sample_fds))
    = sample_entry 1 (-1) SOCKS_NEW 1
  /\ sq_fd (fst (socks_reschedule sample_CONN_TIMEOUT 1000
                   (sample_entry 1 (-1) SOCKS_NEW 1))) = -1
  /\ sq_fd (fst (socks_reschedule sample_CONN_TIMEOUT 1000
                   (sample_entry 1 (-1) SOCKS_NEW 1))) <> 0.
Proof. split; [reflexivity | split; [reflexivity | discriminate]]. Qed.

Lemma socks_reschedule_frame_witness :
  0 <= sq_fd (sample_entry 1 7 SOCKS_CONNECTING 1)
  /\ sq_fd (fst (socks_reschedule sample_CONN_TIMEOUT 1000
                   (sample_entry 1 7 SOCKS_CONNECTING 1))) = 0
  /\ snd (socks_reschedule sample_CONN_TIMEOUT 1000 (sample_entry 1 7 SOCKS_CONNECTING 1))
       = [EvClose 7]
  /\ sq_fd (sample_entry 1 (-1) SOCKS_NEW 1) < 0
  /\ sq_fd (fst (socks_reschedule sample_CONN_TIMEOUT 1000
                   (sample_entry 1 (-1) SOCKS_NEW 1))) = -1
  /\ snd (socks_reschedule sample_CONN_TIMEOUT 1000 (sample_entry 1 (-1) SOCKS_NEW 1)) = [].
Proof.
  pose proof (socks_reschedule_frame sample_CONN_TIMEOUT 1000
                (sample_entry 1 7 SOCKS_CONNECTING 1)) as (Ha & _ & Hc & _).
  pose proof (socks_reschedule_frame sample_CONN_TIMEOUT 1000
                (sample_entry 1 (-1) SOCKS_NEW 1)) as (_ & Hb & _ & Hd & _).
  assert (H7 : 0 <= sq_fd (sample_entry 1 7 SOCKS_CONNECTING 1)) by (simpl; lia).
  assert (H7' : 0 < sq_fd (sample_entry 1 7 SOCKS_CONNECTING 1)) by (simpl; lia).
  assert (Hm : sq_fd (sample_entry 1 (-1) SOCKS_NEW 1) < 0) by (simpl; lia).
  assert (Hm' : sq_fd (sample_entry 1 (-1) SOCKS_NEW 1) <= 0) by (simpl; lia).
  split; [exact H7|]. split; [exact (Ha H7)|]. split; [exact (Hc H7')|].
  split; [exact Hm|]. split; [exact (Hb Hm) | exact (Hd Hm')].
Defined.

Lemma socks_enqueue_one_entry_per_addr_witness :
  socks_get_req [sample_entry 1 0 SOCKS_NEW 0] (sq_addr (sample_entry 1 5 SOCKS_NEW 0)) <> None
  /\ socks_enqueue true (sample_entry 1 5 SOCKS_NEW 0) [sample_entry 1 0 SOCKS_NEW 0]
       = Some [sample_entry 1 0 SOCKS_NEW 0]
  /\ socks_get_req [sample_entry 1 0 SOCKS_NEW 0] (sq_addr (sample_entry 2 0 SOCKS_NEW 0)) = None
  /\ socks_enqueue true (sample_entry 2 0 SOCKS_NEW 0) [sample_entry 1 0 SOCKS_NEW 0]
       = Some [sample_entry 2 0 SOCKS_NEW 0; sample_entry 1 0 SOCKS_NEW 0]
  /\ NoDup (map sq_addr [sample_entry 2 0 SOCKS_NEW 0; sample_entry 1 0 SOCKS_NEW 0]).
Proof.
  pose proof (socks_enqueue_one_entry_per_addr sample_MAX_RETRY sample_DNS_RETRY
                sample_DNS_RETRY_TIMEOUT sample_CONN_TIMEOUT sample_ipv6tonion
                (sample_setup CONNTYPE_SOCKS4A false false)) as (Ha & Hb & Hc & _).
  assert (H1 : socks_get_req [sample_entry 1 0 SOCKS_NEW 0]
                 (sq_addr (sample_entry 1 5 SOCKS_NEW 0)) <> None) by discriminate.
  assert (H2 : socks_get_req [sample_entry 1 0 SOCKS_NEW 0]
                 (sq_addr (sample_entry 2 0 SOCKS_NEW 0)) = None) by reflexivity.
  assert (H3 : NoDup (map sq_addr [sample_entry 1 0 SOCKS_NEW 0])).
  { simpl. constructor; [intros []|constructor]. }
  split; [exact H1|]. split; [exact (Ha true _ _ H1)|]. split; [exact H2|].
  split; [exact (Hb _ _ H2)|].
  exact (Hc true _ _ _ H3 (Hb _ _ H2)).
Defined.

(** A record with a non-NULL [next] and the address [::1] is answered with
    a dump and is not enqueued. *)
Lemma pipe_drain_addr_with_next_counterexample :
  sq_addr (sample_entry 1 0 SOCKS_NEW 0) <> 0
  /\ IN6_IS_ADDR_UNSPECIFIED (sq_addr (sample_entry 1 0 SOCKS_NEW 0)) = false
  /\ pipe_drain true (PipeRecord 5 (sample_entry 1 0 SOCKS_NEW 0)) []
       = Some ([], [EvDump 5 []])
  /\ pipe_drain true (PipeRecord 5 (sample_entry 1 0 SOCKS_NEW 0)) []
       <> Some ([sample_entry 1 0 SOCKS_NEW 0], []).
Proof. repeat split; try reflexivity; discriminate. Qed.

Lemma pipe_drain_by_next_then_addr_witness :
  pipe_drain true (PipeRecord 5 (sample_entry 1 0 SOCKS_NEW 0)) [sample_entry 2 0 SOCKS_NEW 0]
    = Some ([sample_entry 2 0 SOCKS_NEW 0], [EvDump 5 [(0%nat, sample_entry 2 0 SOCKS_NEW 0)]])
  /\ pipe_drain true (PipeRecord 4294967301 (sample_entry 1 0 SOCKS_NEW 0))
       [sample_entry 2 0 SOCKS_NEW 0]
     = Some ([sample_entry 2 0 SOCKS_NEW 0],
             [EvDump 5 [(0%nat, sample_entry 2 0 SOCKS_NEW 0)]])
  /\ pipe_drain true sig_socks_connector_record [sample_entry 2 0 SOCKS_NEW 0]
       = Some ([sample_entry 2 0 SOCKS_NEW 0], [])
  /\ pipe_drain true (socks_queue_record 1 0) [sample_entry 2 0 SOCKS_NEW 0]
       = Some ([sample_entry 1 0 SOCKS_NEW 0; sample_entry 2 0 SOCKS_NEW 0], []).
Proof.
  assert (H5 : 5 <> 0) by discriminate.
  assert (H5r : INT_MIN <= 5 <= INT_MAX) by (unfold INT_MIN, INT_MAX; lia).
  assert (Hbig : 4294967301 <> 0) by discriminate.
  assert (H1 : sq_addr (sample_entry 1 0 SOCKS_NEW 0) <> 0) by discriminate.
  split; [|split; [|split]].
  - exact (proj1 (proj2 (pipe_drain_by_next_then_addr true 5 (sample_entry 1 0 SOCKS_NEW 0)
                           [sample_entry 2 0 SOCKS_NEW 0])) H5 H5r).
  - exact (proj1 (pipe_drain_by_next_then_addr true 4294967301
                    (sample_entry 1 0 SOCKS_NEW 0) [sample_entry 2 0 SOCKS_NEW 0]) Hbig).
  - exact (proj1 (proj2 (proj2 (pipe_drain_by_next_then_addr true 0 sq_zero
                                  [sample_entry 2 0 SOCKS_NEW 0]))) eq_refl eq_refl).
  - change (socks_queue_record 1 0) with (PipeRecord 0 (sample_entry 1 0 SOCKS_NEW 0)).
    rewrite (proj2 (proj2 (proj2 (pipe_drain_by_next_then_addr true 0
                                    (sample_entry 1 0 SOCKS_NEW 0)
                                    [sample_entry 2 0 SOCKS_NEW 0]))) eq_refl H1).
    reflexivity.
Defined.

Lemma get_hostname_minus_one_with_fallback_witness :
  socks5 (sample_setup CONNTYPE_DIRECT true false) = CONNTYPE_DIRECT
  /\ fst (get_hostname sample_ipv6tonion (sample_setup CONNTYPE_DIRECT true false) no_hosts
            (sample_entry 1 0 SOCKS_NEW 0) (Some EmptyString) NI_MAXHOST) = -1
  /\ snd (get_hostname sample_ipv6tonion (sample_setup CONNTYPE_DIRECT true false) no_hosts
            (sample_entry 1 0 SOCKS_NEW 0) (Some EmptyString) NI_MAXHOST)
       = Some "aaaaaaaaaaaaaaaa.onion"%string
  /\ connect_attempts
       (snd (phaseA_entry sample_MAX_RETRY sample_DNS_RETRY sample_DNS_RETRY_TIMEOUT
               sample_CONN_TIMEOUT sample_ipv6tonion
               (sample_setup CONNTYPE_DIRECT true false) 100
               (sample_scan_env 7 ConnectInProgress) (sample_entry 1 0 SOCKS_NEW 2)
               sample_fds)) = 0%nat
  /\ fst (get_hostname sample_ipv6tonion sample_setup_hosts sample_hosts
            (sample_entry 1 0 SOCKS_NEW 0) (Some "stale"%string) NI_MAXHOST) <> -1
  /\ snd (get_hostname sample_ipv6tonion sample_setup_hosts sample_hosts
            (sample_entry 1 0 SOCKS_NEW 0) (Some "stale"%string) NI_MAXHOST)
       = Some "example.onion"%string.
Proof.
  pose proof (get_hostname_minus_one_with_fallback sample_MAX_RETRY sample_DNS_RETRY
                sample_DNS_RETRY_TIMEOUT sample_CONN_TIMEOUT sample_ipv6tonion
                (sample_setup CONNTYPE_DIRECT true false)) as (_ & Hb & Hc).
  pose proof (get_hostname_minus_one_with_fallback sample_MAX_RETRY sample_DNS_RETRY
                sample_DNS_RETRY_TIMEOUT sample_CONN_TIMEOUT sample_ipv6tonion
                sample_setup_hosts) as (Hhit & _).
  assert (Hd : socks5 (sample_setup CONNTYPE_DIRECT true false) = CONNTYPE_DIRECT)
    by reflexivity.
  assert (Hr : fst (get_hostname sample_ipv6tonion (sample_setup CONNTYPE_DIRECT true false)
                      (pa_hosts (sample_scan_env 7 ConnectInProgress))
                      (sample_entry 1 0 SOCKS_NEW 0) (Some EmptyString) NI_MAXHOST) = -1)
    by reflexivity.
  assert (Hfound : fst (get_hostname sample_ipv6tonion sample_setup_hosts sample_hosts
                          (sample_entry 1 0 SOCKS_NEW 0) (Some "stale"%string) NI_MAXHOST)
                   <> -1) by (vm_compute; discriminate).
  split; [exact Hd|]. split; [exact Hr|]. split.
  - exact (proj1 (Hb 100 (sample_scan_env 7 ConnectInProgress)
                    (sample_entry 1 0 SOCKS_NEW 0) sample_fds [] Hd Hr)).
  - split.
    + exact (proj2 (Hc 100 (sample_scan_env 7 ConnectInProgress)
                      (sample_entry 1 0 SOCKS_NEW 2) sample_fds Hd (or_introl eq_refl))).
    + split; [exact Hfound|].
      exact (proj2 (proj2 (proj2 (proj2 (Hhit sample_hosts (sample_entry 1 0 SOCKS_NEW 0)
                                           "stale"%string NI_MAXHOST))))).
Defined.

Lemma temporary_entry_attempts_bounded_witness :
  0 <= sample_MAX_RETRY < INT_MAX - 1
  /\ Z.of_nat (connect_attempts
       (snd (entry_run sample_MAX_RETRY sample_DNS_RETRY sample_DNS_RETRY_TIMEOUT
               sample_CONN_TIMEOUT sample_ipv6tonion
               (sample_setup CONNTYPE_SOCKS4A true false)
               sample_dns_then_failing_scans (sample_entry 1 0 SOCKS_NEW 0))))
     <= sample_MAX_RETRY + 1.
Proof.
  assert (Hmax : 0 <= sample_MAX_RETRY < INT_MAX - 1)
    by (unfold sample_MAX_RETRY, INT_MAX; lia).
  split; [exact Hmax|].
  exact (temporary_entry_attempts_bounded sample_MAX_RETRY sample_DNS_RETRY
           sample_DNS_RETRY_TIMEOUT sample_CONN_TIMEOUT sample_ipv6tonion
           (sample_setup CONNTYPE_SOCKS4A true false) Hmax
           sample_dns_then_failing_scans (sample_entry 1 0 SOCKS_NEW 0)
           eq_refl eq_refl eq_refl).
Defined.

(** With [SOCKS_MAX_RETRY = 3] a temporary entry whose connects all fail is
    marked for deletion after three attempts; after a DNS probe that ran out
    of retries it is marked after two. *)
Example temporary_entry_attempts_examples :
  (let r := entry_run sample_MAX_RETRY sample_DNS_RETRY sample_DNS_RETRY_TIMEOUT
              sample_CONN_TIMEOUT sample_ipv6tonion
              (sample_setup CONNTYPE_SOCKS4A false false)
              sample_failing_scans (sample_entry 1 0 SOCKS_NEW 0) in
   sq_state (fst r) = SOCKS_DELETE /\ connect_attempts (snd r) = 3%nat)
  /\ (let r := entry_run sample_MAX_RETRY sample_DNS_RETRY sample_DNS_RETRY_TIMEOUT
                 sample_CONN_TIMEOUT sample_ipv6tonion
                 (sample_setup CONNTYPE_SOCKS4A true false)
                 sample_dns_then_failing_scans (sample_entry 1 0 SOCKS_NEW 0) in
      sq_state (fst r) = SOCKS_DELETE /\ connect_attempts (snd r) = 2%nat).
Proof. vm_compute. repeat split. Qed.

(** In DIRECT mode the entry that fell back from the DNS probe is passed
    over on its next [SOCKS_NEW] pass: no connect is made. *)
Lemma dns_fallback_direct_counterexample :
  let cfg := sample_setup CONNTYPE_DIRECT true false in
  let scan := phaseA_entry sample_MAX_RETRY sample_DNS_RETRY sample_DNS_RETRY_TIMEOUT
                sample_CONN_TIMEOUT sample_ipv6tonion cfg in
  let first := scan 20 (sample_scan_env 7 ConnectInProgress) sample_dns_entry sample_fds in
  let s1 := fst (fst first) in
  sq_state sample_dns_entry = SOCKS_DNS_SENT
  /\ sq_restart_time sample_dns_entry <= 20
  /\ sample_DNS_RETRY <= sq_retry sample_dns_entry
  /\ sq_state s1 = SOCKS_NEW /\ sq_restart_time s1 = 0 /\ sq_retry s1 = 1
  /\ snd first = [EvClose 9]
  /\ scan 21 (sample_scan_env 7 ConnectInProgress) s1 sample_fds
       = (set_retry 2 s1, sample_fds, [])
  /\ connect_attempts (snd (scan 21 (sample_scan_env 7 ConnectInProgress) s1 sample_fds))
       = 0%nat.
Proof. vm_compute. repeat split; discriminate. Qed.

Lemma dns_fallback_then_no_lookup_witness :
  let cfg := sample_setup CONNTYPE_SOCKS5 true false in
  let scan := phaseA_entry sample_MAX_RETRY sample_DNS_RETRY sample_DNS_RETRY_TIMEOUT
                sample_CONN_TIMEOUT sample_ipv6tonion cfg in
  let s1 := fst (fst (scan 20 (sample_scan_env 7 ConnectInProgress) sample_dns_entry
                        sample_fds)) in
  sq_state sample_dns_entry = SOCKS_DNS_SENT
  /\ sq_restart_time sample_dns_entry <= 20
  /\ sample_DNS_RETRY <= sq_retry sample_dns_entry
  /\ sq_state s1 = SOCKS_NEW /\ sq_retry s1 = 1 /\ sq_restart_time s1 = 0
  /\ filter is_dns_send (snd (scan 21 (sample_scan_env 7 ConnectInProgress) s1 sample_fds))
       = []
  /\ In (EvConnect (sq_addr s1) 7)
        (snd (scan 21 (sample_scan_env 7 ConnectInProgress) s1 sample_fds))
  /\ connect_attempts
       (snd (phaseA_entry sample_MAX_RETRY sample_DNS_RETRY sample_DNS_RETRY_TIMEOUT
               sample_CONN_TIMEOUT sample_ipv6tonion
               (sample_setup CONNTYPE_DIRECT true false) 21
               (sample_scan_env 7 ConnectInProgress) (sample_entry 1 9 SOCKS_NEW 1)
               sample_fds)) = 0%nat
  /\ (forall (s2 : SocksQueue_t) (evs : list event),
        entry_step sample_MAX_RETRY sample_DNS_RETRY sample_DNS_RETRY_TIMEOUT
          sample_CONN_TIMEOUT sample_ipv6tonion cfg
          (OpDispatch (sample_disp_env sample_reply4_ok) [9] [] 1) s1 = Some (s2, evs) ->
        sq_retry s2 = 1
        /\ filter is_dns_send
             (snd (scan 21 (sample_scan_env 7 ConnectInProgress) s2 sample_fds)) = []).
Proof.
  intros cfg scan s1.
  pose proof (dns_fallback_then_no_lookup sample_MAX_RETRY sample_DNS_RETRY
                sample_DNS_RETRY_TIMEOUT sample_CONN_TIMEOUT sample_ipv6tonion cfg)
    as (Ha & Hb & Hc & _ & He).
  pose proof (dns_fallback_then_no_lookup sample_MAX_RETRY sample_DNS_RETRY
                sample_DNS_RETRY_TIMEOUT sample_CONN_TIMEOUT sample_ipv6tonion
                (sample_setup CONNTYPE_DIRECT true false)) as (_ & _ & _ & Hd & _).
  assert (H1 : sq_state sample_dns_entry = SOCKS_DNS_SENT) by reflexivity.
  assert (H2 : sq_restart_time sample_dns_entry <= 20) by (simpl; lia).
  assert (H3 : sample_DNS_RETRY <= sq_retry sample_dns_entry)
    by (unfold sample_DNS_RETRY; simpl; lia).
  destruct (Ha 20 (sample_scan_env 7 ConnectInProgress) sample_dns_entry sample_fds
              H1 H2 (or_introl H3)) as (Hs & Hrt & Hr & _).
  fold scan in Hs, Hrt, Hr. fold s1 in Hs, Hrt, Hr.
  split; [exact H1|]. split; [exact H2|]. split; [exact H3|].
  split; [exact Hs|]. split; [exact Hr|]. split; [exact Hrt|].
  split; [exact (proj2 (Hb 21 (sample_scan_env 7 ConnectInProgress) s1 sample_fds Hs Hr))|].
  split.
  - assert (Hmode : socks5 cfg <> CONNTYPE_DIRECT) by discriminate.
    assert (Ht : 0 <= 21) by lia.
    assert (Hbudget : sq_perm s1 <> 0 \/ 2 <= sample_MAX_RETRY)
      by (right; unfold sample_MAX_RETRY; lia).
    assert (Hsock : pa_tcp_socket (sample_scan_env 7 ConnectInProgress) <> -1)
      by discriminate.
    exact (proj1 (Hc 21 (sample_scan_env 7 ConnectInProgress) s1 sample_fds
                    Hmode Hs Hr Hrt Ht Hbudget Hsock)).
  - split.
    + exact (Hd 21 (sample_scan_env 7 ConnectInProgress) (sample_entry 1 9 SOCKS_NEW 1)
               sample_fds eq_refl (or_introl eq_refl)).
    + intros s2 evs Hstep.
      destruct (He 20 (sample_scan_env 7 ConnectInProgress) sample_dns_entry sample_fds
                  (sample_disp_env sample_reply4_ok) [9] [] 1 s2 evs
                  21 (sample_scan_env 7 ConnectInProgress) sample_fds
                  H1 H2 (or_introl H3) Hstep) as (_ & Hr2 & _ & _ & _ & Hno).
      split; [exact Hr2 | exact Hno].
Defined.

(** With [rand_addr] set the probe returns descriptor 7, the value it also
    returns when the handshake on descriptor 7 succeeds without
    [rand_addr]. *)
Lemma synchron_socks_connect_rand_addr_counterexample :
  rand_addr (sample_setup CONNTYPE_SOCKS4A false true) = true
  /\ synchron_socks_connect sample_ipv6tonion (sample_setup CONNTYPE_SOCKS4A false true)
       [sample_sync_env 7 ConnectOk sample_reply4_ok] 1 = Some 7
  /\ 7 <> -1
  /\ synchron_socks_connect sample_ipv6tonion (sample_setup CONNTYPE_SOCKS4A false false)
       [sample_sync_env 7 ConnectOk sample_reply4_ok;
        sample_sync_env 7 ConnectOk sample_reply4_ok;
        sample_sync_env 7 ConnectOk sample_reply4_ok] 1 = Some 7.
Proof. vm_compute. repeat split; discriminate. Qed.

Lemma synchron_socks_connect_rand_addr_witness :
  rand_addr (sample_setup CONNTYPE_SOCKS4A false true) = true
  /\ synchron_socks_connect sample_ipv6tonion (sample_setup CONNTYPE_SOCKS4A false true)
       ([sample_sync_env 5 ConnectError sample_reply4_ok]
        ++ sample_sync_env 7 ConnectOk sample_reply4_ok :: []) 1 = Some 7
  /\ rand_addr (sample_setup CONNTYPE_SOCKS4A false false) = false
  /\ (forall r,
        synchron_loop sample_ipv6tonion (sample_setup CONNTYPE_SOCKS4A false false)
          [sample_sync_env 7 ConnectOk sample_reply4_ok;
           sample_sync_env 7 ConnectOk sample_reply4_ok;
           sample_sync_env 7 ConnectOk sample_reply4_ok] (synchron_init 1) = Some r ->
        sq_state (fst r) = SOCKS_READY).
Proof.
  pose proof (synchron_socks_connect_rand_addr sample_ipv6tonion
                (sample_setup CONNTYPE_SOCKS4A false true)) as [Hrand _].
  pose proof (synchron_socks_connect_rand_addr sample_ipv6tonion
                (sample_setup CONNTYPE_SOCKS4A false false)) as [_ Hplain].
  assert (Hfails : Forall (fun f => se_term_req f = false /\ se_socket f <> -1
                                    /\ se_connect f = ConnectError)
                     [sample_sync_env 5 ConnectError sample_reply4_ok]).
  { constructor; [|constructor]. repeat split. discriminate. }
  assert (Hsock : se_socket (sample_sync_env 7 ConnectOk sample_reply4_ok) <> -1)
    by discriminate.
  assert (Hconn : se_connect (sample_sync_env 7 ConnectOk sample_reply4_ok) <> ConnectError)
    by discriminate.
  assert (Henvs : Forall (fun e => se_term_req e = false /\ se_socket e <> -1)
                    [sample_sync_env 7 ConnectOk sample_reply4_ok;
                     sample_sync_env 7 ConnectOk sample_reply4_ok;
                     sample_sync_env 7 ConnectOk sample_reply4_ok]).
  { repeat constructor; discriminate. }
  split; [reflexivity|]. split.
  - exact (proj1 (Hrand eq_refl) 1 [sample_sync_env 5 ConnectError sample_reply4_ok]
             (sample_sync_env 7 ConnectOk sample_reply4_ok) [] Hfails eq_refl Hsock Hconn).
  - split; [reflexivity|]. intros r Hr.
    exact (proj1 (Hplain eq_refl _ 1 r Henvs Hr)).
Defined.

(** C1.  The reap walk on a queue whose first two entries are both marked
    [SOCKS_DELETE] unlinks the first and leaves the second in the queue; and
    such a queue arises: in the run [sample_run] from the empty queue two
    entries get their success replies in the same iteration, and after that
    iteration the queue still holds an entry in state [SOCKS_DELETE]. *)
Theorem reap_walk_leaves_delete_entry :
  reap_loop [sample_entry 2 8 SOCKS_DELETE 1; sample_entry 1 7 SOCKS_DELETE 1] 0
    = [sample_entry 1 7 SOCKS_DELETE 1]
  /\ map (fun s => (sq_addr s, sq_state s))
         (socks_connector_sel sample_MAX_RETRY sample_DNS_RETRY sample_DNS_RETRY_TIMEOUT
            sample_CONN_TIMEOUT sample_ipv6tonion
            (sample_setup CONNTYPE_SOCKS4A false false) (firstn 3 sample_run) [])
     = [(2, SOCKS_4AREQ_SENT); (1, SOCKS_4AREQ_SENT)]
  /\ map (fun s => (sq_addr s, sq_state s))
         (socks_connector_sel sample_MAX_RETRY sample_DNS_RETRY sample_DNS_RETRY_TIMEOUT
            sample_CONN_TIMEOUT sample_ipv6tonion
            (sample_setup CONNTYPE_SOCKS4A false false) sample_run [])
     = [(1, SOCKS_DELETE)].
Proof. vm_compute. repeat split. Qed.

(** * Closed instances of the further properties *)

Lemma socks5_greet_response_success_iff_witness :
  socks5_greet_response (Some sample_greet_ok) = 0
  /\ (socks5_greet_response (Some sample_reply4_short) = 0
      \/ socks5_greet_response (Some sample_reply4_short) = -1).
Proof.
  split.
  - apply (proj2 (proj1 (socks5_greet_response_success_iff (Some sample_greet_ok)))).
    exists sample_greet_ok. split; [reflexivity|]. split; [simpl; lia|].
    split; reflexivity.
  - exact (proj2 (socks5_greet_response_success_iff (Some sample_reply4_short))).
Defined.

Lemma socks_send_request_frame_witness :
  3 < Z.of_nat (List.length sample_frame4)
  /\ fst (socks_send_request sample_ipv6tonion (sample_setup CONNTYPE_SOCKS4A false false)
            no_hosts 3 (sample_entry 1 7 SOCKS_CONNECTING 1)) = -1
  /\ 0 <= ocat_dest_port (sample_setup CONNTYPE_SOCKS4A false false) < 65536
  /\ nth 2 sample_frame4 0 * 256 + nth 3 sample_frame4 0 = 8060.
Proof.
  assert (H1 : 3 < Z.of_nat (List.length sample_frame4)) by (vm_compute; reflexivity).
  assert (H2 : 0 <= ocat_dest_port (sample_setup CONNTYPE_SOCKS4A false false) < 65536)
    by (simpl; lia).
  pose proof (socks_send_request_frame sample_ipv6tonion
                (sample_setup CONNTYPE_SOCKS4A false false) no_hosts 3
                (sample_entry 1 7 SOCKS_CONNECTING 1)) as (_ & _ & Hshort & Hport).
  split; [exact H1|]. split; [exact (Hshort H1)|]. split; [exact H2|]. exact (Hport H2).
Defined.

Lemma socks5_send_request_frame_witness :
  (List.length sample_name_bytes <= 255)%nat
  /\ nth 4 sample_frame5 0 = Z.of_nat (List.length sample_name_bytes)
  /\ firstn (Z.to_nat (nth 4 sample_frame5 0)) (skipn 5 sample_frame5) = sample_name_bytes
  /\ skipn (Z.to_nat (nth 4 sample_frame5 0)) (skipn 5 sample_frame5) = htons_bytes 8060.
Proof.
  assert (H1 : (List.length sample_name_bytes <= 255)%nat)
    by (apply Nat.leb_le; vm_compute; reflexivity).
  pose proof (socks5_send_request_frame sample_ipv6tonion
                (sample_setup CONNTYPE_SOCKS5 false false) no_hosts 100
                (sample_entry 1 7 SOCKS_5GREET_SENT 1)) as (_ & _ & _ & _ & Hname).
  split; [exact H1|]. exact (Hname H1).
Defined.

Lemma get_hostname_buffer_independent_witness :
  (String.length (sample_ipv6tonion 1%Z) < NI_MAXHOST)%nat
  /\ fst (get_hostname sample_ipv6tonion (sample_setup CONNTYPE_SOCKS4A false false) no_hosts
            (sample_entry 1 0 SOCKS_NEW 0) (Some EmptyString) NI_MAXHOST) = -1
  /\ exists name,
       snd (get_hostname sample_ipv6tonion (sample_setup CONNTYPE_SOCKS4A false false) no_hosts
              (sample_entry 1 0 SOCKS_NEW 0) (Some EmptyString) NI_MAXHOST) = Some name
       /\ (String.length name < NI_MAXHOST)%nat
       /\ String.substring 0
            (String.length (sample_ipv6tonion (sq_addr (sample_entry 1 0 SOCKS_NEW 0)))) name
          = sample_ipv6tonion (sq_addr (sample_entry 1 0 SOCKS_NEW 0)).
Proof.
  assert (H1 : (String.length (sample_ipv6tonion 1%Z) < NI_MAXHOST)%nat)
    by (apply Nat.ltb_lt; vm_compute; reflexivity).
  split; [exact H1|]. split; [reflexivity|].
  exact (proj2 (proj2 (get_hostname_buffer_independent sample_ipv6tonion
                         (sample_setup CONNTYPE_SOCKS4A false false) no_hosts
                         (sample_entry 1 0 SOCKS_NEW 0)))
           EmptyString NI_MAXHOST H1 eq_refl).
Defined.

Lemma socks_enqueue_then_get_req_witness :
  socks_enqueue true (sample_entry 2 0 SOCKS_NEW 0) [sample_entry 1 0 SOCKS_NEW 0]
    = Some [sample_entry 2 0 SOCKS_NEW 0; sample_entry 1 0 SOCKS_NEW 0]
  /\ socks_get_req [sample_entry 2 0 SOCKS_NEW 0; sample_entry 1 0 SOCKS_NEW 0] 2
       = Some (sample_entry 2 0 SOCKS_NEW 0)
  /\ 1 <> sq_addr (sample_entry 2 0 SOCKS_NEW 0)
  /\ socks_get_req [sample_entry 2 0 SOCKS_NEW 0; sample_entry 1 0 SOCKS_NEW 0] 1
       = socks_get_req [sample_entry 1 0 SOCKS_NEW 0] 1.
Proof.
  assert (H1 : socks_enqueue true (sample_entry 2 0 SOCKS_NEW 0)
                 [sample_entry 1 0 SOCKS_NEW 0]
               = Some [sample_entry 2 0 SOCKS_NEW 0; sample_entry 1 0 SOCKS_NEW 0])
    by reflexivity.
  assert (H2 : 1 <> sq_addr (sample_entry 2 0 SOCKS_NEW 0)) by discriminate.
  pose proof (socks_enqueue_then_get_req true (sample_entry 2 0 SOCKS_NEW 0)
                [sample_entry 1 0 SOCKS_NEW 0]
                [sample_entry 2 0 SOCKS_NEW 0; sample_entry 1 0 SOCKS_NEW 0] H1)
    as [Hhit Hother].
  split; [exact H1|]. split; [exact Hhit|]. split; [exact H2|]. exact (Hother 1 H2).
Defined.

Lemma socks_unqueue_then_get_req_witness :
  nth_error [sample_entry 2 0 SOCKS_NEW 0; sample_entry 1 0 SOCKS_NEW 0] 0
    = Some (sample_entry 2 0 SOCKS_NEW 0)
  /\ NoDup (map sq_addr [sample_entry 2 0 SOCKS_NEW 0; sample_entry 1 0 SOCKS_NEW 0])
  /\ socks_get_req
       (socks_unqueue 0 [sample_entry 2 0 SOCKS_NEW 0; sample_entry 1 0 SOCKS_NEW 0])
       (sq_addr (sample_entry 2 0 SOCKS_NEW 0)) = None.
Proof.
  assert (H1 : nth_error [sample_entry 2 0 SOCKS_NEW 0; sample_entry 1 0 SOCKS_NEW 0] 0
               = Some (sample_entry 2 0 SOCKS_NEW 0)) by reflexivity.
  assert (H2 : NoDup (map sq_addr [sample_entry 2 0 SOCKS_NEW 0;
                                   sample_entry 1 0 SOCKS_NEW 0])).
  { simpl. constructor; [intros [H|[]]; discriminate H|].
    constructor; [intros []|constructor]. }
  pose proof (socks_unqueue_then_get_req
                [sample_entry 2 0 SOCKS_NEW 0; sample_entry 1 0 SOCKS_NEW 0] 0)
    as [_ Hat].
  split; [exact H1|]. split; [exact H2|].
  exact (proj1 (proj2 (Hat _ H1) H2)).
Defined.

Lemma reap_loop_keeps_live_entries_witness :
  forallb is_live [sample_entry 1 0 SOCKS_NEW 0; sample_entry 2 7 SOCKS_CONNECTING 1] = true
  /\ reap_loop [sample_entry 1 0 SOCKS_NEW 0; sample_entry 2 7 SOCKS_CONNECTING 1] 0
     = [sample_entry 1 0 SOCKS_NEW 0; sample_entry 2 7 SOCKS_CONNECTING 1].
Proof.
  assert (H1 : forallb is_live [sample_entry 1 0 SOCKS_NEW 0;
                                sample_entry 2 7 SOCKS_CONNECTING 1] = true)
    by reflexivity.
  split; [exact H1|].
  exact (proj1 (proj2 (reap_loop_keeps_live_entries
                         [sample_entry 1 0 SOCKS_NEW 0;
                          sample_entry 2 7 SOCKS_CONNECTING 1])) H1).
Defined.

Lemma entry_step_delete_cause_witness :
  entry_step sample_MAX_RETRY sample_DNS_RETRY sample_DNS_RETRY_TIMEOUT sample_CONN_TIMEOUT
    sample_ipv6tonion (sample_setup CONNTYPE_SOCKS4A false false)
    (OpScan 100 (sample_scan_env 7 ConnectError) sample_fds) (sample_entry 1 0 SOCKS_NEW 3)
    = Some (sample_entry 1 0 SOCKS_DELETE 4, [])
  /\ sq_state (sample_entry 1 0 SOCKS_NEW 3) <> SOCKS_DELETE
  /\ sq_perm (sample_entry 1 0 SOCKS_NEW 3) = 0
  /\ sample_MAX_RETRY < int_incr (sq_retry (sample_entry 1 0 SOCKS_NEW 3)).
Proof.
  assert (H1 : entry_step sample_MAX_RETRY sample_DNS_RETRY sample_DNS_RETRY_TIMEOUT
                 sample_CONN_TIMEOUT sample_ipv6tonion
                 (sample_setup CONNTYPE_SOCKS4A false false)
                 (OpScan 100 (sample_scan_env 7 ConnectError) sample_fds)
                 (sample_entry 1 0 SOCKS_NEW 3)
               = Some (sample_entry 1 0 SOCKS_DELETE 4, [])) by reflexivity.
  assert (H2 : sq_state (sample_entry 1 0 SOCKS_NEW 3) <> SOCKS_DELETE) by discriminate.
  pose proof (entry_step_delete_cause sample_MAX_RETRY sample_DNS_RETRY
                sample_DNS_RETRY_TIMEOUT sample_CONN_TIMEOUT sample_ipv6tonion
                (sample_setup CONNTYPE_SOCKS4A false false)
                (OpScan 100 (sample_scan_env 7 ConnectError) sample_fds)
                (sample_entry 1 0 SOCKS_NEW 3) (sample_entry 1 0 SOCKS_DELETE 4) []
                H1 H2 eq_refl) as (_ & Hperm & Hretry & _).
  split; [exact H1|]. split; [exact H2|]. split; [exact Hperm | exact Hretry].
Defined.

Lemma socks_connector_sel_has_descriptor_witness :
  Forall has_descriptor [sample_entry 3 9 SOCKS_5REQ_SENT 1]
  /\ Forall (fun e => Forall has_descriptor (pipe_entry (ie_pipe e))) sample_run_waiting
  /\ map (fun s => (sq_addr s, sq_state s, sq_fd s))
       (socks_connector_sel sample_MAX_RETRY sample_DNS_RETRY sample_DNS_RETRY_TIMEOUT
          sample_CONN_TIMEOUT sample_ipv6tonion
          (sample_setup CONNTYPE_SOCKS4A false false) sample_run_waiting
          [sample_entry 3 9 SOCKS_5REQ_SENT 1])
     = [(2, SOCKS_4AREQ_SENT, 8); (1, SOCKS_4AREQ_SENT, 7); (3, SOCKS_5REQ_SENT, 9)]
  /\ Forall has_descriptor
       (socks_connector_sel sample_MAX_RETRY sample_DNS_RETRY sample_DNS_RETRY_TIMEOUT
          sample_CONN_TIMEOUT sample_ipv6tonion
          (sample_setup CONNTYPE_SOCKS4A false false) sample_run_waiting
          [sample_entry 3 9 SOCKS_5REQ_SENT 1])
  /\ Forall (fun s => waiting_state (sq_state s) = true /\ sq_fd s <> -1)
       (socks_connector_sel sample_MAX_RETRY sample_DNS_RETRY sample_DNS_RETRY_TIMEOUT
          sample_CONN_TIMEOUT sample_ipv6tonion
          (sample_setup CONNTYPE_SOCKS4A false false) sample_run_waiting
          [sample_entry 3 9 SOCKS_5REQ_SENT 1]).
Proof.
  assert (H1 : Forall has_descriptor [sample_entry 3 9 SOCKS_5REQ_SENT 1]).
  { apply Forall_cons; [intros _; discriminate | apply Forall_nil]. }
  assert (H2 : Forall (fun e => Forall has_descriptor (pipe_entry (ie_pipe e)))
                 sample_run_waiting).
  { unfold sample_run_waiting, sample_run. cbn [firstn].
    repeat (apply Forall_cons;
            [apply Forall_cons; [intros H; discriminate H | apply Forall_nil]|]).
    apply Forall_nil. }
  pose proof (socks_connector_sel_has_descriptor sample_MAX_RETRY sample_DNS_RETRY
                sample_DNS_RETRY_TIMEOUT sample_CONN_TIMEOUT sample_ipv6tonion
                (sample_setup CONNTYPE_SOCKS4A false false) sample_run_waiting
                [sample_entry 3 9 SOCKS_5REQ_SENT 1] H1 H2) as Hall.
  assert (Hwait : Forall (fun s => waiting_state (sq_state s) = true)
            (socks_connector_sel sample_MAX_RETRY sample_DNS_RETRY
               sample_DNS_RETRY_TIMEOUT sample_CONN_TIMEOUT sample_ipv6tonion
               (sample_setup CONNTYPE_SOCKS4A false false) sample_run_waiting
               [sample_entry 3 9 SOCKS_5REQ_SENT 1])).
  { vm_compute. repeat constructor. }
  split; [exact H1|]. split; [exact H2|]. split; [vm_compute; reflexivity|].
  split; [exact Hall|].
  apply Forall_forall. intros s Hin. split.
  - apply (proj1 (Forall_forall _ _) Hwait s Hin).
  - apply (proj1 (Forall_forall _ _) Hall s Hin).
    apply (proj1 (Forall_forall _ _) Hwait s Hin).
Defined.

Lemma entry_run_activates_once_witness :
  activations
    (snd (entry_run sample_MAX_RETRY sample_DNS_RETRY sample_DNS_RETRY_TIMEOUT
            sample_CONN_TIMEOUT sample_ipv6tonion
            (sample_setup CONNTYPE_SOCKS4A false false)
            [OpDispatch (sample_disp_env sample_reply4_ok) [7] [] 1;
             OpScan 100 (sample_scan_env 7 ConnectOk) sample_fds]
            (sample_entry 1 7 SOCKS_4AREQ_SENT 1))) = 1%nat
  /\ sq_state
       (fst (entry_run sample_MAX_RETRY sample_DNS_RETRY sample_DNS_RETRY_TIMEOUT
               sample_CONN_TIMEOUT sample_ipv6tonion
               (sample_setup CONNTYPE_SOCKS4A false false)
               [OpDispatch (sample_disp_env sample_reply4_ok) [7] [] 1;
                OpScan 100 (sample_scan_env 7 ConnectOk) sample_fds]
               (sample_entry 1 7 SOCKS_4AREQ_SENT 1))) = SOCKS_DELETE.
Proof.
  assert (H1 : activations
                 (snd (entry_run sample_MAX_RETRY sample_DNS_RETRY sample_DNS_RETRY_TIMEOUT
                         sample_CONN_TIMEOUT sample_ipv6tonion
                         (sample_setup CONNTYPE_SOCKS4A false false)
                         [OpDispatch (sample_disp_env sample_reply4_ok) [7] [] 1;
                          OpScan 100 (sample_scan_env 7 ConnectOk) sample_fds]
                         (sample_entry 1 7 SOCKS_4AREQ_SENT 1))) = 1%nat)
    by (vm_compute; reflexivity).
  split; [exact H1|].
  exact (proj1 (proj2 (entry_run_activates_once sample_MAX_RETRY sample_DNS_RETRY
                         sample_DNS_RETRY_TIMEOUT sample_CONN_TIMEOUT sample_ipv6tonion
                         (sample_setup CONNTYPE_SOCKS4A false false)
                         [OpDispatch (sample_disp_env sample_reply4_ok) [7] [] 1;
                          OpScan 100 (sample_scan_env 7 ConnectOk) sample_fds]
                         (sample_entry 1 7 SOCKS_4AREQ_SENT 1))) H1).
Defined.


Lemma socks_dns_recv_accepts_only_the_name_server_witness :
  fst (fst (socks_dns_req (sample_setup CONNTYPE_SOCKS4A true false)
              (sample_scan_env 7 ConnectOk) (sample_entry 1 9 SOCKS_NEW 1))) <> -1
  /\ (exists (ns : in6_addr) (src : Z),
        pa_get_ns (sample_scan_env 7 ConnectOk) = Some (ns, src)
        /\ (de_recvfrom sample_dns_disp_env = Some (8060, ns) ->
            socks_dns_recv sample_dns_disp_env
              (snd (fst (socks_dns_req (sample_setup CONNTYPE_SOCKS4A true false)
                           (sample_scan_env 7 ConnectOk) (sample_entry 1 9 SOCKS_NEW 1))))
            = de_proc_response sample_dns_disp_env))
  /\ fst (fst (socks_dns_req sample_setup_port (sample_scan_env 7 ConnectOk)
                 (sample_entry 1 9 SOCKS_NEW 1))) <> -1
  /\ htons (ocat_ns_port sample_setup_port) = 4464
  /\ (exists (ns : in6_addr) (src : Z),
        pa_get_ns (sample_scan_env 7 ConnectOk) = Some (ns, src)
        /\ (de_recvfrom sample_dns_disp_env_port = Some (4464, ns) ->
            socks_dns_recv sample_dns_disp_env_port
              (snd (fst (socks_dns_req sample_setup_port (sample_scan_env 7 ConnectOk)
                           (sample_entry 1 9 SOCKS_NEW 1))))
            = de_proc_response sample_dns_disp_env_port)).
Proof.
  assert (H1 : fst (fst (socks_dns_req (sample_setup CONNTYPE_SOCKS4A true false)
                           (sample_scan_env 7 ConnectOk)
                           (sample_entry 1 9 SOCKS_NEW 1))) <> -1)
    by (vm_compute; discriminate).
  assert (H2 : fst (fst (socks_dns_req sample_setup_port (sample_scan_env 7 ConnectOk)
                           (sample_entry 1 9 SOCKS_NEW 1))) <> -1)
    by (vm_compute; discriminate).
  split; [exact H1|]. split.
  - destruct (socks_dns_recv_accepts_only_the_name_server
                (sample_setup CONNTYPE_SOCKS4A true false) (sample_scan_env 7 ConnectOk)
                sample_dns_disp_env (sample_entry 1 9 SOCKS_NEW 1) H1)
      as (ns & src & Hns & _ & _ & Hacc & _).
    exists ns, src. split; [exact Hns | exact Hacc].
  - split; [exact H2|]. split; [reflexivity|].
    destruct (socks_dns_recv_accepts_only_the_name_server
                sample_setup_port (sample_scan_env 7 ConnectOk)
                sample_dns_disp_env_port (sample_entry 1 9 SOCKS_NEW 1) H2)
      as (ns & src & Hns & _ & _ & Hacc & _).
    exists ns, src. split; [exact Hns | exact Hacc].
Defined.

Lemma socks_reset_idempotent_witness :
  socks_reset (fst (socks_reset (sample_entry 1 7 SOCKS_CONNECTING 1)))
    = (fst (socks_reset (sample_entry 1 7 SOCKS_CONNECTING 1)), []).
Proof.
  exact (proj1 (proj2 (proj2 (socks_reset_idempotent sample_CONN_TIMEOUT 1000
                                (sample_entry 1 7 SOCKS_CONNECTING 1))))).
Defined.

Lemma connecting_entry_reset_by_next_scan_witness :
  sq_state (sample_entry 1 7 SOCKS_CONNECTING 1) = SOCKS_CONNECTING
  /\ phaseA_entry sample_MAX_RETRY sample_DNS_RETRY sample_DNS_RETRY_TIMEOUT
       sample_CONN_TIMEOUT sample_ipv6tonion (sample_setup CONNTYPE_SOCKS4A false false)
       100 (sample_scan_env 8 ConnectInProgress) (sample_entry 1 7 SOCKS_CONNECTING 1)
       sample_fds
     = (sample_entry 1 0 SOCKS_NEW 1, sample_fds, [EvClose 7]).
Proof.
  split; [reflexivity|].
  exact (proj1 (proj2 (connecting_entry_reset_by_next_scan sample_MAX_RETRY
                         sample_DNS_RETRY sample_DNS_RETRY_TIMEOUT sample_CONN_TIMEOUT
                         sample_ipv6tonion (sample_setup CONNTYPE_SOCKS4A false false)
                         100 (sample_scan_env 8 ConnectInProgress)
                         (sample_entry 1 7 SOCKS_CONNECTING 1) sample_fds eq_refl))).
Defined.

Lemma synchron_failed_connects_leave_sockets_open_witness :
  Forall (fun f => se_term_req f = false /\ se_socket f <> -1
                   /\ se_connect f = ConnectError)
         [sample_sync_env 7 ConnectError sample_reply4_ok;
          sample_sync_env 8 ConnectError sample_reply4_ok]
  /\ se_term_req sample_term_env = true
  /\ synchron_socks_connect sample_ipv6tonion (sample_setup CONNTYPE_SOCKS4A false false)
       ([sample_sync_env 7 ConnectError sample_reply4_ok;
         sample_sync_env 8 ConnectError sample_reply4_ok] ++ [sample_term_env]) 1
     = Some 8.
Proof.
  assert (H1 : Forall (fun f => se_term_req f = false /\ se_socket f <> -1
                                /\ se_connect f = ConnectError)
                 [sample_sync_env 7 ConnectError sample_reply4_ok;
                  sample_sync_env 8 ConnectError sample_reply4_ok]).
  { apply Forall_cons; [split; [reflexivity | split; [discriminate | reflexivity]]|].
    apply Forall_cons; [split; [reflexivity | split; [discriminate | reflexivity]]|].
    apply Forall_nil. }
  split; [exact H1|]. split; [reflexivity|].
  exact (proj2 (synchron_failed_connects_leave_sockets_open sample_ipv6tonion
                  (sample_setup CONNTYPE_SOCKS4A false false)
                  [sample_sync_env 7 ConnectError sample_reply4_ok;
                   sample_sync_env 8 ConnectError sample_reply4_ok]
                  sample_term_env 1 H1 eq_refl)).
Defined.

Lemma synchron_socks_connect_direct_never_returns_witness :
  socks5 (sample_setup CONNTYPE_DIRECT false false) = CONNTYPE_DIRECT
  /\ Forall (fun f => se_term_req f = false)
       [sample_sync_env 7 ConnectOk sample_reply4_ok;
        sample_sync_env 7 ConnectOk sample_reply4_ok]
  /\ synchron_socks_connect sample_ipv6tonion (sample_setup CONNTYPE_DIRECT false false)
       [sample_sync_env 7 ConnectOk sample_reply4_ok;
        sample_sync_env 7 ConnectOk sample_reply4_ok;
        sample_sync_env 7 ConnectOk sample_reply4_ok] 1 = None.
Proof.
  assert (H1 : Forall (fun f => se_term_req f = false)
                 [sample_sync_env 7 ConnectOk sample_reply4_ok;
                  sample_sync_env 7 ConnectOk sample_reply4_ok]).
  { apply Forall_cons; [reflexivity|]. apply Forall_cons; [reflexivity|]. apply Forall_nil. }
  assert (H2 : se_socket (sample_sync_env 7 ConnectOk sample_reply4_ok) <> -1)
    by discriminate.
  assert (H3 : se_connect (sample_sync_env 7 ConnectOk sample_reply4_ok) <> ConnectError)
    by discriminate.
  split; [reflexivity|]. split; [exact H1|].
  exact (synchron_socks_connect_direct_never_returns sample_ipv6tonion
           (sample_setup CONNTYPE_DIRECT false false)
           (sample_sync_env 7 ConnectOk sample_reply4_ok)
           [sample_sync_env 7 ConnectOk sample_reply4_ok;
            sample_sync_env 7 ConnectOk sample_reply4_ok] 1
           (or_introl eq_refl) eq_refl eq_refl H2 H3 H1).
Defined.

Lemma socks5_handshake_activates_peer_witness :
  socks5 (sample_setup CONNTYPE_SOCKS5 false false) = CONNTYPE_SOCKS5
  /\ socks5_greet_response (de_read (sample_disp_env sample_greet_ok)) = 0
  /\ socks5_rec_response (de_read (sample_disp_env sample_reply5_ok)) = 0
  /\ entry_run sample_MAX_RETRY sample_DNS_RETRY sample_DNS_RETRY_TIMEOUT
       sample_CONN_TIMEOUT sample_ipv6tonion (sample_setup CONNTYPE_SOCKS5 false false)
       [OpDispatch (sample_disp_env sample_greet_ok) [] [7] 1;
        OpDispatch (sample_disp_env sample_greet_ok) [7] [] 1;
        OpDispatch (sample_disp_env sample_reply5_ok) [7] [] 1]
       (sample_entry 1 7 SOCKS_CONNECTING 1)
     = (sample_entry 1 7 SOCKS_DELETE 1,
        [EvWrite 7 [5; 1; 0]; EvWrite 7 sample_frame5; EvActivate 1 7 1000]).
Proof.
  split; [reflexivity|]. split; [reflexivity|]. split; [reflexivity|].
  exact (socks5_handshake_activates_peer sample_MAX_RETRY sample_DNS_RETRY
           sample_DNS_RETRY_TIMEOUT sample_CONN_TIMEOUT sample_ipv6tonion
           (sample_setup CONNTYPE_SOCKS5 false false)
           (sample_disp_env sample_greet_ok) (sample_disp_env sample_greet_ok)
           (sample_disp_env sample_reply5_ok) [] [7] [7] [] [7] [] 1 1 1
           (sample_entry 1 7 SOCKS_CONNECTING 1)
           eq_refl eq_refl eq_refl eq_refl eq_refl eq_refl eq_refl eq_refl eq_refl
           eq_refl eq_refl).
Defined.

Lemma socks4a_handshake_activates_peer_witness :
  socks5 (sample_setup CONNTYPE_SOCKS4A false false) = CONNTYPE_SOCKS4A
  /\ socks_rec_response (de_read (sample_disp_env sample_reply4_ok)) = 0
  /\ entry_run sample_MAX_RETRY sample_DNS_RETRY sample_DNS_RETRY_TIMEOUT
       sample_CONN_TIMEOUT sample_ipv6tonion (sample_setup CONNTYPE_SOCKS4A false false)
       [OpDispatch (sample_disp_env sample_reply4_ok) [] [7] 1;
        OpDispatch (sample_disp_env sample_reply4_ok) [7] [] 1]
       (sample_entry 1 7 SOCKS_CONNECTING 1)
     = (sample_entry 1 7 SOCKS_DELETE 1,
        [EvWrite 7 sample_frame4; EvActivate 1 7 1000]).
Proof.
  split; [reflexivity|]. split; [reflexivity|].
  exact (socks4a_handshake_activates_peer sample_MAX_RETRY sample_DNS_RETRY
           sample_DNS_RETRY_TIMEOUT sample_CONN_TIMEOUT sample_ipv6tonion
           (sample_setup CONNTYPE_SOCKS4A false false)
           (sample_disp_env sample_reply4_ok) (sample_disp_env sample_reply4_ok)
           [] [7] [7] [] 1 1 (sample_entry 1 7 SOCKS_CONNECTING 1)
           eq_refl eq_refl eq_refl eq_refl eq_refl eq_refl eq_refl eq_refl).
Defined.

Lemma socks_connector_iter_queue_growth_witness :
  (List.length
     (socks_connector_sel sample_MAX_RETRY sample_DNS_RETRY sample_DNS_RETRY_TIMEOUT
        sample_CONN_TIMEOUT sample_ipv6tonion (sample_setup CONNTYPE_SOCKS4A false false)
        [sample_post_iter] []) <= 1)%nat
  /\ ~ In 0 (map sq_addr
               (socks_connector_sel sample_MAX_RETRY sample_DNS_RETRY
                  sample_DNS_RETRY_TIMEOUT sample_CONN_TIMEOUT sample_ipv6tonion
                  (sample_setup CONNTYPE_SOCKS4A false false)
                  [sample_post_iter] [])).
Proof.
  pose proof (socks_connector_iter_queue_growth sample_MAX_RETRY sample_DNS_RETRY
                sample_DNS_RETRY_TIMEOUT sample_CONN_TIMEOUT sample_ipv6tonion
                (sample_setup CONNTYPE_SOCKS4A false false) sample_post_iter []) as H.
  vm_compute in H. destruct H as (Hlen & _ & Hzero).
  vm_compute. split; [exact Hlen|]. apply Hzero. intros [].
Defined.

Lemma dns_answer_then_scan_witness :
  sq_state sample_dns_entry = SOCKS_DNS_SENT
  /\ FD_ISSET (sq_fd sample_dns_entry) [9] = true
  /\ socks_dns_recv sample_dns_disp_env sample_dns_entry <> -1
  /\ entry_step sample_MAX_RETRY sample_DNS_RETRY sample_DNS_RETRY_TIMEOUT
       sample_CONN_TIMEOUT sample_ipv6tonion (sample_setup CONNTYPE_SOCKS4A true false)
       (OpDispatch sample_dns_disp_env [9] [] 1) sample_dns_entry
     = Some (set_restart_time 0 (set_retry 0 (set_state SOCKS_NEW sample_dns_entry)),
             [EvClose 9]).
Proof.
  assert (H1 : socks_dns_recv sample_dns_disp_env sample_dns_entry <> -1)
    by (vm_compute; discriminate).
  split; [reflexivity|]. split; [reflexivity|]. split; [exact H1|].
  exact (proj1 (dns_answer_then_scan sample_MAX_RETRY sample_DNS_RETRY
                  sample_DNS_RETRY_TIMEOUT sample_CONN_TIMEOUT sample_ipv6tonion
                  (sample_setup CONNTYPE_SOCKS4A true false)
                  sample_dns_disp_env [9] [] 1 sample_dns_entry eq_refl eq_refl H1)).
Defined.

Lemma phaseA_loop_registers_waiting_entries_witness :
  FD_ISSET (socksfd0 (sample_setup CONNTYPE_SOCKS4A false false))
    (rset (snd (fst (phaseA_loop sample_MAX_RETRY sample_DNS_RETRY sample_DNS_RETRY_TIMEOUT
                       sample_CONN_TIMEOUT sample_ipv6tonion
                       (sample_setup CONNTYPE_SOCKS4A false false) 100
                       (fun _ => sample_scan_env 7 ConnectInProgress) 0
                       [sample_entry 1 0 SOCKS_NEW 0]
                       (MFD_SET_r (socksfd0 (sample_setup CONNTYPE_SOCKS4A false false))
                          sample_fds)))))
    = true.
Proof.
  exact (proj2 (proj2 (phaseA_loop_registers_waiting_entries sample_MAX_RETRY
                         sample_DNS_RETRY sample_DNS_RETRY_TIMEOUT sample_CONN_TIMEOUT
                         sample_ipv6tonion (sample_setup CONNTYPE_SOCKS4A false false) 100
                         (fun _ => sample_scan_env 7 ConnectInProgress)
                         [sample_entry 1 0 SOCKS_NEW 0] 0 sample_fds))).
Defined.

Lemma rescheduled_entry_waits_witness :
  Forall (fun op => match op with
                    | OpScan t _ _ => t < 1000 + sample_CONN_TIMEOUT
                    | OpDispatch _ rs ws _ =>
                        FD_ISSET (sq_fd (fst (socks_reschedule sample_CONN_TIMEOUT 1000
                                                (sample_entry 1 7 SOCKS_CONNECTING 1)))) rs
                          = false
                        /\ FD_ISSET (sq_fd (fst (socks_reschedule sample_CONN_TIMEOUT 1000
                                                   (sample_entry 1 7 SOCKS_CONNECTING 1)))) ws
                           = false
                    end) sample_early_ops
  /\ entry_run sample_MAX_RETRY sample_DNS_RETRY sample_DNS_RETRY_TIMEOUT sample_CONN_TIMEOUT
       sample_ipv6tonion (sample_setup CONNTYPE_SOCKS4A false false) sample_early_ops
       (fst (socks_reschedule sample_CONN_TIMEOUT 1000 (sample_entry 1 7 SOCKS_CONNECTING 1)))
     = (fst (socks_reschedule sample_CONN_TIMEOUT 1000 (sample_entry 1 7 SOCKS_CONNECTING 1)),
        []).
Proof.
  assert (H1 : Forall (fun op => match op with
                    | OpScan t _ _ => t < 1000 + sample_CONN_TIMEOUT
                    | OpDispatch _ rs ws _ =>
                        FD_ISSET (sq_fd (fst (socks_reschedule sample_CONN_TIMEOUT 1000
                                                (sample_entry 1 7 SOCKS_CONNECTING 1)))) rs
                          = false
                        /\ FD_ISSET (sq_fd (fst (socks_reschedule sample_CONN_TIMEOUT 1000
                                                   (sample_entry 1 7 SOCKS_CONNECTING 1)))) ws
                           = false
                    end) sample_early_ops).
  { unfold sample_early_ops.
    apply Forall_cons; [reflexivity|].
    apply Forall_cons; [split; reflexivity|].
    apply Forall_cons; [reflexivity|]. apply Forall_nil. }
  split; [exact H1|].
  exact (rescheduled_entry_waits sample_MAX_RETRY sample_DNS_RETRY sample_DNS_RETRY_TIMEOUT
           sample_CONN_TIMEOUT sample_ipv6tonion (sample_setup CONNTYPE_SOCKS4A false false)
           1000 (sample_entry 1 7 SOCKS_CONNECTING 1) sample_early_ops H1).
Defined.

Lemma synchron_socks_connect_returns_descriptor_witness :
  socks5 (sample_setup CONNTYPE_SOCKS4A false false) = CONNTYPE_SOCKS4A
  /\ socks_rec_response (se_read (sample_sync_env 7 ConnectOk sample_reply4_ok)) = 0
  /\ synchron_socks_connect sample_ipv6tonion (sample_setup CONNTYPE_SOCKS4A false false)
       [sample_sync_env 7 ConnectOk sample_reply4_ok;
        sample_sync_env 7 ConnectOk sample_reply4_ok;
        sample_sync_env 7 ConnectOk sample_reply4_ok] 1 = Some 7.
Proof.
  assert (H1 : se_socket (sample_sync_env 7 ConnectOk sample_reply4_ok) <> -1)
    by discriminate.
  assert (H2 : se_connect (sample_sync_env 7 ConnectOk sample_reply4_ok) <> ConnectError)
    by discriminate.
  split; [reflexivity|]. split; [reflexivity|].
  exact (proj2 (proj1 (synchron_socks_connect_returns_descriptor sample_ipv6tonion
                         (sample_setup CONNTYPE_SOCKS4A false false)
                         (sample_sync_env 7 ConnectOk sample_reply4_ok)
                         (sample_sync_env 7 ConnectOk sample_reply4_ok)
                         (sample_sync_env 7 ConnectOk sample_reply4_ok)
                         (sample_sync_env 7 ConnectOk sample_reply4_ok) [] 1
                         eq_refl eq_refl eq_refl eq_refl H1 H2)
                  eq_refl eq_refl eq_refl)).
Defined.
